(** * pygod: the detector lifecycle of [pygod/detector/base.py]

    A shallow embedding of [Detector] and [DeepDetector]: construction,
    [fit], [decision_function], [predict] and the score statistics
    ([_process_decision_score], [_predict_prob], [_predict_conf]).

    Conventions.
    - Real-valued tensors are lists of exact rationals ([Q]); rounding of
      the floating-point formats is not modelled, except where it decides
      an integer: the product [n * contamination] of [_predict_conf] is
      the binary64 product ([Num.fmul]).
    - torch, torch_geometric, numpy and scipy are external: the numerical
      kernels taken from them are written out from their documented
      meaning ([percentile], [binom_cdf]), the neural backend is an
      interface ([Backend]).
    - Methods that mutate [self] run in a state-and-exception monad whose
      state survives a raise, as a Python object survives an exception.
    - The abstract methods of a subclass ([Hooks]) read the whole detector
      and write the model, the embedding buffer and the attributes the
      subclass has added, as those of OCGNN and GADNR do.

    The embedding comes first, then the vocabulary of the theorems, then
    the theorems, each claim under its number. *)

From Stdlib Require Import ZArith QArith Qround Qabs Qpower List Bool Lia Lqa.
From Stdlib Require Import Permutation Sorted.
From Stdlib Require String.
Import ListNotations String.StringSyntax.
Abbreviation string := String.string.

Set Implicit Arguments.
Local Open Scope Q_scope.

(** ** Numbers *)

Module Num.

(** Strict comparison of two scalars, as a boolean. *)
Definition Qgtb (a b : Q) : bool := negb (Qle_bool a b).

(** Python's [int(x)] on a float: truncation towards zero. *)
Definition int (x : Q) : Z := Z.quot (Qnum x) (Zpos (Qden x)).

Definition Qmin' (a b : Q) : Q := if Qle_bool a b then a else b.
Definition Qmax' (a b : Q) : Q := if Qle_bool a b then b else a.

(** The integer nearest to [x], a tie going to the even one. *)
Definition round_half_even (x : Q) : Z :=
  let f := Qfloor x in
  match Qcompare (x - inject_Z f) (1 # 2) with
  | Lt => f
  | Gt => (f + 1)%Z
  | Eq => if Z.even f then f else (f + 1)%Z
  end.

(** [floor (log2 a)] for a positive [a]. *)
Definition binade (a : Q) : Z :=
  let d := (Z.log2 (Qnum a) - Z.log2 (Zpos (Qden a)))%Z in
  if Qle_bool (2 ^ d) a then d else (d - 1)%Z.

(** The Python float nearest to [x]: binary64, with 53 bits of
    significand, round to nearest, ties to even, subnormal numbers
    included. Magnitudes from [2 ^ 1024] on, which a float turns into an
    infinity, are not modelled. *)
Definition round64 (x : Q) : Q :=
  if Qeq_bool x 0 then 0
  else
    let a := Qabs x in
    let e := Z.max (binade a - 52) (-1074) in
    let m := round_half_even (a / 2 ^ e) in
    let r := inject_Z m * 2 ^ e in
    if Qle_bool 0 x then r else - r.

(** [a * b] on Python floats, an [int] operand being converted first: the
    operands are the floats nearest to the numbers the model carries, and
    the product is rounded once. *)
Definition fmul (a b : Q) : Q := round64 (round64 a * round64 b).

End Num.
Import Num.

(** ** One-dimensional tensors *)

Module Tensor.

Definition zeros (n : nat) : list Q := repeat 0 n.

(** [t.min()] and [t.max()]; both raise on an empty tensor. *)
Definition min (t : list Q) : option Q :=
    match t with
    | [] => None
    | x :: r => Some (fold_left Qmin' r x)
    end.

Definition max (t : list Q) : option Q :=
    match t with
    | [] => None
    | x :: r => Some (fold_left Qmax' r x)
    end.

(** [t.clamp(lo, hi)], elementwise [min(max(x, lo), hi)]. *)
Definition clamp1 (lo hi x : Q) : Q := Qmin' (Qmax' x lo) hi.
Definition clamp (lo hi : Q) (t : list Q) : list Q := map (clamp1 lo hi) t.

(** [(t > thr).long()] *)
Definition gt_long (t : list Q) (thr : Q) : list Z :=
    map (fun s => if Qgtb s thr then 1%Z else 0%Z) t.

Section IndexPut.
Variable A : Type.

(** Writing one element; [None] when the index is out of range. *)
Fixpoint set_nth (t : list A) (i : nat) (v : A) : option (list A) :=
  match t, i with
  | [], _ => None
  | _ :: r, O => Some (v :: r)
  | x :: r, S j => option_map (cons x) (set_nth r j v)
  end.

Fixpoint put_all (t : list A) (iv : list (nat * A)) : option (list A) :=
  match iv with
  | [] => Some t
  | (i, v) :: r =>
      match set_nth t i v with
      | Some t' => put_all t' r
      | None => None
      end
  end.

(** [t[idx] = v] for an index tensor [idx]: [v] has the length of [idx]
    or is broadcast from a single element; an index past the end or a
    value of another length raises. Of two writes to one index the later
    one stays. *)
Definition index_put (t : list A) (idx : list nat) (v : list A)
  : option (list A) :=
  if Nat.eqb (length v) (length idx) then put_all t (combine idx v)
  else match v with
       | [x] => put_all t (combine idx (repeat x (length idx)))
       | _ => None
       end.

End IndexPut.

Definition sum (t : list Q) : Q := fold_right Qplus 0 t.

(** [(a.view(n, 1) <= b)]: one row per entry of [a], one column per entry
    of [b]. *)
Definition le_matrix (a b : list Q) : list (list bool) :=
  map (fun x => map (fun y => Qle_bool x y) b) a.

Definition add_row (row : list bool) (acc : list nat) : list nat :=
  map (fun '(c, k) => if c : bool then S k else k) (combine row acc).

(** [m.count_nonzero(dim=0)] of a matrix with [cols] columns: the number
    of true entries in each column. *)
Definition count_nonzero_dim0 (cols : nat) (m : list (list bool)) : list nat :=
  fold_right add_row (repeat O cols) m.

(** [torch.where(cond, a, b)] on tensors of one length. *)
Definition where_ (cond : list bool) (a b : list Q) : list Q :=
  map (fun '(c, (x, y)) => if c : bool then x else y)
    (combine cond (combine a b)).

End Tensor.

(** ** numpy.percentile, default (linear) method *)

Module Numpy.

Fixpoint insert (x : Q) (l : list Q) : list Q :=
    match l with
    | [] => [x]
    | y :: r => if Qle_bool x y then x :: l else y :: insert x r
    end.

Definition sort (l : list Q) : list Q := fold_right insert [] l.

(** Linear interpolation between two neighbouring order statistics. *)
Definition lerp (a b t : Q) : Q := a + (b - a) * t.

(** [np.percentile(a, q)]: the virtual index [(n - 1) * q / 100] into the
      sorted data, interpolated between its two neighbours. [q] outside
      [0, 100] raises; so does empty data. *)
Definition percentile (a : list Q) (q : Q) : option Q :=
    if Qle_bool 0 q && Qle_bool q 100 then
      match sort a with
      | [] => None
      | (x :: _) as s =>
          let n := length s in
          let virtual := (inject_Z (Z.of_nat n) - 1) * (q / 100) in
          let previous := Qfloor virtual in
          let next := Z.min (previous + 1) (Z.of_nat n - 1) in
          let gamma := virtual - inject_Z previous in
          Some (lerp (nth (Z.to_nat previous) s x) (nth (Z.to_nat next) s x)
                  gamma)
      end
    else None.

End Numpy.

(** ** scipy.stats.binom.cdf *)

Module Scipy.

Fixpoint choose (n k : nat) : Z :=
    match k, n with
    | O, _ => 1%Z
    | S _, O => 0%Z
    | S k', S n' => (choose n' k' + choose n' k)%Z
    end.

Definition pmf (n : nat) (p : Q) (i : nat) : Q :=
    inject_Z (choose n i) * p ^ Z.of_nat i * (1 - p) ^ Z.of_nat (n - i).

Fixpoint pmf_upto (n : nat) (p : Q) (k : nat) : Q :=
    match k with
    | O => pmf n p 0
    | S k' => pmf_upto n p k' + pmf n p k
    end.

(** [binom.cdf(k, n, p)]: the probability of at most [k] successes in
      [n] trials. *)
Definition binom_cdf (k : Z) (n : nat) (p : Q) : Q :=
    if (k <? 0)%Z then 0 else pmf_upto n p (Nat.min (Z.to_nat k) n).

End Scipy.

(** ** Python objects, exceptions and the method monad *)

(** An attribute of an instance: not set ([hasattr] is false), set to
    [None], or bound to a value. *)
Inductive Attr (A : Type) : Type :=
| Missing
| PyNone
| Bound (a : A).
Arguments Missing {A}.
Arguments PyNone {A}.

Inductive Exn : Type :=
| ValueError (msg : string)
| AttributeError (name : string)
| TypeError (msg : string)
| IndexError
| ZeroDivisionError
| RuntimeError (msg : string)
| UnboundLocalError (name : string)
| NotFittedError.

Inductive Result (A : Type) : Type :=
| Ok (a : A)
| Raise (e : Exn).
Arguments Raise {A} e.

(** A method body: it reads and writes the state [S] and either returns
    or raises; the state reached at a raise is kept. *)
Definition M (S A : Type) : Type := S -> Result A * S.

Definition ret {S A} (a : A) : M S A := fun s => (Ok a, s).

Definition bind {S A B} (m : M S A) (k : A -> M S B) : M S B :=
  fun s => match m s with
           | (Ok a, s') => k a s'
           | (Raise e, s') => (Raise e, s')
           end.

Definition raise {S A} (e : Exn) : M S A := fun s => (Raise e, s).
Definition get {S} : M S S := fun s => (Ok s, s).
Definition modify {S} (f : S -> S) : M S unit := fun s => (Ok tt, f s).
Definition lift {S A} (r : Result A) : M S A := fun s => (r, s).

Declare Scope method_scope.
Delimit Scope method_scope with method.
Notation "x <- c1 ;; c2" := (bind c1 (fun x => c2))
  (at level 61, c1 at next level, right associativity) : method_scope.
Notation "' pat <- c1 ;; c2" := (bind c1 (fun x => match x with pat => c2 end))
  (at level 61, pat pattern, c1 at next level, right associativity)
  : method_scope.
Notation "c1 ;; c2" := (bind c1 (fun _ => c2))
  (at level 61, right associativity) : method_scope.
Local Open Scope method_scope.

(** [for x in xs: acc = body(acc, x)] *)
Fixpoint for_each {S X L} (xs : list X) (body : L -> X -> M S L) (acc : L)
  : M S L :=
  match xs with
  | [] => ret acc
  | x :: r => acc' <- body acc x ;; for_each r body acc'
  end.

(** Reading [obj.name]: an unset attribute raises. *)
Definition getattr {A} (name : string) (a : Attr A) : Result (Attr A) :=
  match a with
  | Missing => Raise (AttributeError name)
  | _ => Ok a
  end.

(** Reading [obj.name] where the value is then used as a tensor or a
    number: [None] raises as well. *)
Definition getval {A} (name : string) (a : Attr A) : Result A :=
  match a with
  | Missing => Raise (AttributeError name)
  | PyNone => Raise (TypeError name)
  | Bound v => Ok v
  end.

(** Reading [obj.name] to call a method of the value: on [None] the call
    raises an attribute error. *)
Definition getobj {A} (name : string) (a : Attr A) : Result A :=
  match a with
  | Bound v => Ok v
  | _ => Raise (AttributeError name)
  end.

Definition of_option {A} (e : Exn) (o : option A) : Result A :=
  match o with
  | Some a => Ok a
  | None => Raise e
  end.

(** ** The collaborators *)

(** A mini-batch of [torch_geometric.loader.NeighborLoader]: the first
    [batch_size] entries of [n_id] are the seed nodes. *)
Module SampledData.
Record t (P : Type) : Type := make {
  batch_size : nat;
  n_id : list nat;
  payload : P
}.
End SampledData.

(** A loss as [forward_model] returns it: one tensor, or a pair under
    adversarial training. The same shape serves for the accumulated loss
    values. *)
Inductive LossOut (L : Type) : Type :=
| Single (l : L)
| Pair (l0 l1 : L).

(** The saved embedding: one matrix, or a tuple of two. *)
Inductive Emb (R : Type) : Type :=
| EmbOne (m : list R)
| EmbTuple (m0 m1 : list R).

Inductive ParamGroup : Type := AllParams | Generator | Discriminator.

(** torch and torch_geometric, as far as the detector uses them. *)
Class Backend : Type := {
  Data : Type;
  Sampled : Type;
  Model : Type;
  Loss : Type;
  Optimizer : Type;
  Row : Type;
  Opaque : Type;
  Sub : Type;
  (** [data.x.shape] *)
  x_shape : Data -> nat * nat;
  (** [NeighborLoader(data, num_neigh, batch_size=...)]; the loader gives
      the batches of its [i]-th pass. *)
  NeighborLoader :
    Data -> list Z -> Z -> Result (nat -> list (SampledData.t Sampled));
  compile : Model -> Model;
  model_train : Model -> Model;
  model_eval : Model -> Model;
  (** [model.emb] *)
  model_emb : Model -> Result (Emb Row);
  zero_row : Z -> Row;
  (** [torch.optim.Adam(params, lr=..., weight_decay=...)] *)
  Adam : Model -> ParamGroup -> Q -> Q -> Result Optimizer;
  zero_grad : Optimizer -> Model -> Model;
  backward : Loss -> Model -> Result Model;
  step : Optimizer -> Model -> Optimizer * Model;
  item : Loss -> Q;
  erf : Q -> Q;
  sqrt : Q -> Q
}.

Inductive Device : Type := Cpu | Cuda (index : Z).

(** Modelled from the spec: [validate_device] of [pygod.utils] is not among
    the sources; the spec has -1 select the CPU and any other value an
    accelerator index. *)
Definition validate_device (gpu : Z) : Device :=
  if (gpu =? -1)%Z then Cpu else Cuda gpu.

(** ** The detector objects *)

(** The attributes [Detector] defines. *)
Record Detector : Type := mkDetector {
  contamination : Attr Q;
  verbose : Attr Z;
  decision_score_ : Attr (list Q);
  threshold_ : Attr Q;
  label_ : Attr (list Z)
}.

(** A new object, before [__init__] has run. *)
Definition blank : Detector := mkDetector Missing Missing Missing Missing Missing.

Definition set_contamination (v : Attr Q) (d : Detector) : Detector :=
  mkDetector v (verbose d) (decision_score_ d) (threshold_ d) (label_ d).
Definition set_verbose (v : Attr Z) (d : Detector) : Detector :=
  mkDetector (contamination d) v (decision_score_ d) (threshold_ d) (label_ d).
Definition set_decision_score_ (v : Attr (list Q)) (d : Detector) : Detector :=
  mkDetector (contamination d) (verbose d) v (threshold_ d) (label_ d).
Definition set_threshold_ (v : Attr Q) (d : Detector) : Detector :=
  mkDetector (contamination d) (verbose d) (decision_score_ d) v (label_ d).
Definition set_label_ (v : Attr (list Z)) (d : Detector) : Detector :=
  mkDetector (contamination d) (verbose d) (decision_score_ d) (threshold_ d) v.

Inductive HidDim : Type :=
| HidInt (h : Z)
| HidTuple (h0 h1 : Z).

(** The [num_neigh] argument of the constructor. *)
Inductive NumNeigh : Type :=
| NeighInt (n : Z)
| NeighList (l : list Z)
| NeighOther.

Section Objects.
Context {B : Backend}.

(** What the hooks of a subclass may write: the model, the embedding
    buffer and the attributes the subclass has added. *)
Record Owned : Type := mkOwned {
  model : Attr Model;
  emb : Attr (Emb Row);
  sub : Sub
}.

Record DeepDetector : Type := mkDeep {
  super : Detector;
  in_dim : Attr nat;
  num_nodes : Attr nat;
  hid_dim : HidDim;
  num_layers : Z;
  dropout : Q;
  weight_decay : Q;
  act : Opaque;
  backbone : Opaque;
  kwargs : Opaque;
  lr : Q;
  epoch : Z;
  device : Device;
  batch_size : Z;
  gan : bool;
  num_neigh : list Z;
  save_emb : bool;
  compile_model : bool;
  owned : Owned
}.

Definition set_super (v : Detector) (d : DeepDetector) : DeepDetector :=
  mkDeep v (in_dim d) (num_nodes d) (hid_dim d) (num_layers d) (dropout d)
    (weight_decay d) (act d) (backbone d) (kwargs d) (lr d) (epoch d)
    (device d) (batch_size d) (gan d) (num_neigh d) (save_emb d)
    (compile_model d) (owned d).
Definition set_shape (n dim : nat) (d : DeepDetector) : DeepDetector :=
  mkDeep (super d) (Bound dim) (Bound n) (hid_dim d) (num_layers d) (dropout d)
    (weight_decay d) (act d) (backbone d) (kwargs d) (lr d) (epoch d)
    (device d) (batch_size d) (gan d) (num_neigh d) (save_emb d)
    (compile_model d) (owned d).
Definition set_batch_size (v : Z) (d : DeepDetector) : DeepDetector :=
  mkDeep (super d) (in_dim d) (num_nodes d) (hid_dim d) (num_layers d)
    (dropout d) (weight_decay d) (act d) (backbone d) (kwargs d) (lr d)
    (epoch d) (device d) v (gan d) (num_neigh d) (save_emb d)
    (compile_model d) (owned d).
Definition set_save_emb (v : bool) (d : DeepDetector) : DeepDetector :=
  mkDeep (super d) (in_dim d) (num_nodes d) (hid_dim d) (num_layers d)
    (dropout d) (weight_decay d) (act d) (backbone d) (kwargs d) (lr d)
    (epoch d) (device d) (batch_size d) (gan d) (num_neigh d) v
    (compile_model d) (owned d).
Definition set_owned (v : Owned) (d : DeepDetector) : DeepDetector :=
  mkDeep (super d) (in_dim d) (num_nodes d) (hid_dim d) (num_layers d)
    (dropout d) (weight_decay d) (act d) (backbone d) (kwargs d) (lr d)
    (epoch d) (device d) (batch_size d) (gan d) (num_neigh d) (save_emb d)
    (compile_model d) v.

Definition set_model (v : Attr Model) (o : Owned) : Owned :=
  mkOwned v (emb o) (sub o).
Definition set_emb (v : Attr (Emb Row)) (o : Owned) : Owned :=
  mkOwned (model o) v (sub o).

(** The abstract methods of [DeepDetector], and the attributes of the
    subclass that the base class reads by name. A hook reads the whole
    detector and writes what it owns. [forward_model] stands for the
    statement [loss, score = self.forward_model(sampled_data)] of the base
    class: the call and the unpacking of what it returns into two
    values. *)
Class Hooks : Type := {
  process_graph : DeepDetector -> Data -> Result Data * Owned;
  init_model : DeepDetector -> Opaque -> Result Model * Owned;
  forward_model :
    DeepDetector -> SampledData.t Sampled ->
    Result (LossOut Loss * list Q) * Owned;
  sub_attr : Sub -> string -> Attr Q
}.

(** What the run of a method leaves behind besides the detector: the
    optimizer calls and the reports to the logger, in order. *)
Inductive Event : Type :=
| ZeroGrad (o : ParamGroup)
| Backward (component : option nat)
| Step (o : ParamGroup)
| Logger (epoch : option nat) (loss : option (LossOut Q))
    (score : Attr (list Q)) (target : option (list Z)) (verbose : Attr Z)
    (train : bool).

Record World : Type := mkWorld {
  self : DeepDetector;
  trace : list Event
}.

End Objects.

(** ** Detector *)

Local Open Scope string_scope.

(** [Detector.__init__] *)
Definition Detector__init__ (contamination : Q) (verbose : Z)
  : M Detector unit :=
  if negb (Qgtb contamination 0 && Qle_bool contamination (1 # 2)) then
    raise (ValueError "contamination must be in (0, 0.5]")
  else
    modify (set_contamination (Bound contamination)) ;;
    modify (set_verbose (Bound verbose)) ;;
    modify (set_decision_score_ PyNone).

(** [Detector._process_decision_score] *)
Definition _process_decision_score : M Detector unit :=
  d <- get ;;
  score <- lift (getval "decision_score_" (decision_score_ d)) ;;
  c <- lift (getval "contamination" (contamination d)) ;;
  t <- lift (of_option (ValueError "percentile")
               (Numpy.percentile score (100 * (1 - c)))) ;;
  modify (set_threshold_ (Bound t)) ;;
  d <- get ;;
  score <- lift (getval "decision_score_" (decision_score_ d)) ;;
  thr <- lift (getval "threshold_" (threshold_ d)) ;;
  modify (set_label_ (Bound (Tensor.gt_long score thr))).

Section Statistics.
Context {B : Backend}.

Definition mean (t : list Q) : Q :=
  Tensor.sum t / inject_Z (Z.of_nat (length t)).

(** [torch.std], with Bessel's correction. *)
Definition std (t : list Q) : Q :=
  let mu := mean t in
  sqrt (Tensor.sum (map (fun x => (x - mu) * (x - mu)) t)
        / (inject_Z (Z.of_nat (length t)) - 1)).

(** [Detector._predict_prob]. The quotients are those of the rationals;
    where a divisor is zero (all training scores equal under "linear"; a
    single training score or no deviation under "unify") torch gives an
    infinity or a NaN, which the rationals do not have, and the theorems
    about this method assume divisors other than zero. *)
Definition _predict_prob (score : list Q) (method : string)
  : M Detector (list Q) :=
  d <- get ;;
  if String.eqb method "linear" then
    train_score <- lift (getobj "decision_score_" (decision_score_ d)) ;;
    lo <- lift (of_option (RuntimeError "min") (Tensor.min train_score)) ;;
    let prob := map (fun s => s - lo) score in
    hi <- lift (of_option (RuntimeError "max") (Tensor.max train_score)) ;;
    lo' <- lift (of_option (RuntimeError "min") (Tensor.min train_score)) ;;
    let prob := map (fun p => p / (hi - lo')) prob in
    ret (Tensor.clamp 0 1 prob)
  else if String.eqb method "unify" then
    train_score <- lift (getval "decision_score_" (decision_score_ d)) ;;
    let mu := mean train_score in
    let sigma := std train_score in
    let pre_erf_score := map (fun s => (s - mu) / (sigma * sqrt 2)) score in
    let erf_score := map erf pre_erf_score in
    ret (Tensor.clamp 0 1 erf_score)
  else
    raise (ValueError method).

(** [Detector._predict_conf]. The product [n * self.contamination] is a
    product of Python floats and its rounding decides the integer [k], so
    it is taken as the float product [fmul]. *)
Definition _predict_conf (score : list Q) : M Detector (list Q) :=
  d <- get ;;
  train_score <- lift (getval "decision_score_" (decision_score_ d)) ;;
  let n := length train_score in
  c <- lift (getval "contamination" (contamination d)) ;;
  let k := (Z.of_nat n - int (fmul (inject_Z (Z.of_nat n)) c))%Z in
  let n_ins :=
    Tensor.count_nonzero_dim0 (length score)
      (Tensor.le_matrix train_score score) in
  let post_prob :=
    map (fun c => (1 + inject_Z (Z.of_nat c)) / (2 + inject_Z (Z.of_nat n)))
      n_ins in
  let conf := map (fun p => 1 - Scipy.binom_cdf k n p) post_prob in
  thr <- lift (getval "threshold_" (threshold_ d)) ;;
  let pred := Tensor.gt_long score thr in
  ret (Tensor.where_ (map (Z.eqb 0) pred) (map (fun x => 1 - x) conf) conf).

End Statistics.

(** An attribute that is set and not [None]. *)
Definition present {A} (a : Attr A) : bool :=
  match a with
  | Bound _ => true
  | _ => false
  end.

(** [hasattr(d, name) and d.name is not None], for the attributes of
    [Detector]. *)
Definition has_value (d : Detector) (name : string) : bool :=
  if String.eqb name "decision_score_" then present (decision_score_ d)
  else if String.eqb name "threshold_" then present (threshold_ d)
  else if String.eqb name "label_" then present (label_ d)
  else if String.eqb name "contamination" then present (contamination d)
  else if String.eqb name "verbose" then present (verbose d)
  else false.

(** Modelled from the spec: [is_fitted] of [pygod.utils] is not among the
    sources. By the spec a call fails with a "not fitted" condition if
    Threshold, Label or DecisionScore are absent; an attribute counts as
    absent when it is not set or is [None]. *)
Definition is_fitted (d : Detector) (attributes : list string) : Result unit :=
  if forallb (has_value d) attributes then Ok tt else Raise NotFittedError.

(** ** DeepDetector *)

Section Deep.
Context {B : Backend} {H : Hooks}.

(** [DeepDetector.__init__]; [sub0] holds the attributes the subclass adds
    after the call. *)
Definition DeepDetector__init__
  (hid_dim : HidDim) (num_layers : Z) (dropout weight_decay : Q)
  (act backbone : Opaque) (contamination lr : Q) (epoch gpu batch_size : Z)
  (num_neigh : NumNeigh) (verbose : Z) (gan save_emb compile_model : bool)
  (kwargs : Opaque) (sub0 : Sub) : Result DeepDetector :=
  match Detector__init__ contamination verbose blank with
  | (Raise e, _) => Raise e
  | (Ok _, base) =>
      let device := validate_device gpu in
      let make neigh :=
        mkDeep base PyNone PyNone hid_dim num_layers dropout weight_decay act
          backbone kwargs lr epoch device batch_size gan neigh save_emb
          compile_model
          (mkOwned PyNone (if save_emb then PyNone else Missing) sub0) in
      match num_neigh with
      | NeighInt n => Ok (make (repeat n (Z.to_nat num_layers)))
      | NeighList l =>
          if negb (Z.of_nat (length l) =? num_layers)%Z then
            Raise (ValueError "Number of neighbors should have the same length")
          else Ok (make l)
      | NeighOther =>
          Raise (ValueError "Number of neighbors must be int or list of int")
      end
  end.

(** *** Access to [self] *)

Definition on_self (f : DeepDetector -> DeepDetector) : M World unit :=
  modify (fun w => mkWorld (f (self w)) (trace w)).

Definition read {A} (f : DeepDetector -> A) : M World A :=
  fun w => (Ok (f (self w)), w).

(** A method of the base class, run on this object. *)
Definition on_super {A} (m : M Detector A) : M World A :=
  fun w => let (r, d) := m (super (self w)) in
           (r, mkWorld (set_super d (self w)) (trace w)).

Definition emit (e : Event) : M World unit :=
  modify (fun w => mkWorld (self w) (trace w ++ [e])).

(** A call of one of the abstract methods. *)
Definition call {X A} (hook : DeepDetector -> X -> Result A * Owned) (x : X)
  : M World A :=
  fun w => let (r, o) := hook (self w) x in
           (r, mkWorld (set_owned o (self w)) (trace w)).

(** [self.model], to call one of its methods. *)
Definition the_model : M World Model :=
  m <- read (fun d => model (owned d)) ;; lift (getobj "model" m).

Definition set_the_model (m : Model) : M World unit :=
  on_self (fun d => set_owned (set_model (Bound m) (owned d)) d).

Definition set_the_emb (e : Attr (Emb Row)) : M World unit :=
  on_self (fun d => set_owned (set_emb e (owned d)) d).

(** [a / n] for a Python float and an int. *)
Definition py_div {S} (a : Q) (n : nat) : M S Q :=
  match n with
  | O => raise ZeroDivisionError
  | _ => ret (a / inject_Z (Z.of_nat n))
  end.

(** *** The optimizer calls *)

Definition opt_zero_grad (g : ParamGroup) (o : Optimizer) : M World unit :=
  m <- the_model ;;
  set_the_model (zero_grad o m) ;;
  emit (ZeroGrad g).

Definition loss_backward (component : option nat) (l : Loss) : M World unit :=
  m <- the_model ;;
  m' <- lift (backward l m) ;;
  set_the_model m' ;;
  emit (Backward component).

Definition opt_step (g : ParamGroup) (o : Optimizer) : M World Optimizer :=
  m <- the_model ;;
  let (o', m') := step o m in
  set_the_model m' ;;
  emit (Step g) ;;
  ret o'.

(** [loss[i]] of what [forward_model] returned. *)
Definition loss_at {S} (loss : LossOut Loss) (i : nat) : M S Loss :=
  match loss, i with
  | Pair l0 _, O => ret l0
  | Pair _ l1, S O => ret l1
  | _, _ => raise IndexError
  end.

(** [loss.item()] of a loss that is one tensor. *)
Definition loss_item {S} (loss : LossOut Loss) : M S Q :=
  match loss with
  | Single l => ret (item l)
  | Pair _ _ => raise (AttributeError "item")
  end.

(** *** Saving the embedding of a batch *)

Definition put_rows (buf : list Row) (idx : list nat) (rows : list Row)
  : M World (list Row) :=
  lift (of_option IndexError (Tensor.index_put buf idx rows)).

(** [self.emb[0][idx] = self.model.emb[0][:batch_size]] and the same for
    the second matrix. *)
Definition save_emb_tuple (idx : list nat) (batch_size : nat) : M World unit :=
  e <- read (fun d => emb (owned d)) ;;
  e <- lift (getval "emb" e) ;;
  m <- the_model ;;
  me <- lift (model_emb m) ;;
  match e, me with
  | EmbTuple b0 b1, EmbTuple m0 m1 =>
      b0' <- put_rows b0 idx (firstn batch_size m0) ;;
      set_the_emb (Bound (EmbTuple b0' b1)) ;;
      b1' <- put_rows b1 idx (firstn batch_size m1) ;;
      set_the_emb (Bound (EmbTuple b0' b1'))
  | _, _ => raise (TypeError "emb")
  end.

(** [self.emb[idx] = self.model.emb[:batch_size]] *)
Definition save_emb_one (idx : list nat) (batch_size : nat) : M World unit :=
  e <- read (fun d => emb (owned d)) ;;
  e <- lift (getval "emb" e) ;;
  m <- the_model ;;
  me <- lift (model_emb m) ;;
  match e, me with
  | EmbOne b, EmbOne rows =>
      b' <- put_rows b idx (firstn batch_size rows) ;;
      set_the_emb (Bound (EmbOne b'))
  | _, _ => raise (TypeError "emb")
  end.

Definition is_tuple {R} (e : Attr (Emb R)) : bool :=
  match e with
  | Bound (EmbTuple _ _) => true
  | _ => false
  end.

(** *** fit *)

(** The local variables of [fit] that live across the batches; which of
    them are bound depends on [gan]. [decision_function] has the same
    ones, with its accumulators called [test_loss], [test_loss_g] and
    [test_loss_d]. *)
Record Locals : Type := mkLocals {
  optimizer : option Optimizer;
  opt_g : option Optimizer;
  opt_d : option Optimizer;
  epoch_loss : option Q;
  epoch_loss_g : option Q;
  epoch_loss_d : option Q
}.

Definition no_locals : Locals := mkLocals None None None None None None.

Definition local {S A} (name : string) (v : option A) : M S A :=
  lift (of_option (UnboundLocalError name) v).

Definition bind_opts (o g d : option Optimizer) (l : Locals) : Locals :=
  mkLocals o g d (epoch_loss l) (epoch_loss_g l) (epoch_loss_d l).
Definition bind_loss (a g d : option Q) (l : Locals) : Locals :=
  mkLocals (optimizer l) (opt_g l) (opt_d l) a g d.

(** Modelled from the spec: [logger] of [pygod.utils] is not among the
    sources. By the spec it is a reporting function that takes the named
    fields epoch, loss, score, target, time, verbosity and the train flag,
    and whose return value is not used; a call is recorded in the trace.
    The elapsed time is not modelled. *)
Definition logger (epoch : option nat) (loss : option (LossOut Q))
  (score : Attr (list Q)) (target : option (list Z)) (train : bool)
  : M World unit :=
  v <- read (fun d => verbose (super d)) ;;
  v <- lift (getattr "verbose" v) ;;
  emit (Logger epoch loss score target v train).

(** The body of [for sampled_data in loader] in [fit]. *)
Definition fit_batch (l : Locals) (sampled_data : SampledData.t Sampled)
  : M World Locals :=
  let batch_size := SampledData.batch_size sampled_data in
  let node_idx := SampledData.n_id sampled_data in
  let bs := inject_Z (Z.of_nat batch_size) in
  '(loss, score) <- call forward_model sampled_data ;;
  g <- read gan ;;
  l <- (if g : bool then
          eg <- local "epoch_loss_g" (epoch_loss_g l) ;;
          l0 <- loss_at loss 0 ;;
          let eg := eg + item l0 * bs in
          ed <- local "epoch_loss_d" (epoch_loss_d l) ;;
          l1 <- loss_at loss 1 ;;
          ret (bind_loss (epoch_loss l) (Some eg) (Some (ed + item l1 * bs)) l)
        else
          e <- local "epoch_loss" (epoch_loss l) ;;
          x <- loss_item loss ;;
          ret (bind_loss (Some (e + x * bs)) (epoch_loss_g l) (epoch_loss_d l) l)) ;;
  se <- read save_emb ;;
  (if se : bool then
     e <- read (fun d => emb (owned d)) ;;
     e <- lift (getattr "emb" e) ;;
     if is_tuple e then save_emb_tuple (firstn batch_size node_idx) batch_size
     else save_emb_one (firstn batch_size node_idx) batch_size
   else ret tt) ;;
  ds <- read (fun d => decision_score_ (super d)) ;;
  ds <- lift (getval "decision_score_" ds) ;;
  ds <- lift (of_option IndexError
                (Tensor.index_put ds (firstn batch_size node_idx) score)) ;;
  on_super (modify (set_decision_score_ (Bound ds))) ;;
  g <- read gan ;;
  if g : bool then
    og <- local "opt_g" (opt_g l) ;;
    opt_zero_grad Generator og ;;
    l0 <- loss_at loss 0 ;;
    loss_backward (Some 0%nat) l0 ;;
    og <- opt_step Generator og ;;
    od <- local "opt_d" (opt_d l) ;;
    opt_zero_grad Discriminator od ;;
    l0 <- loss_at loss 0 ;;
    loss_backward (Some 0%nat) l0 ;;
    od <- opt_step Discriminator od ;;
    ret (bind_opts (optimizer l) (Some og) (Some od) l)
  else
    o <- local "optimizer" (optimizer l) ;;
    opt_zero_grad AllParams o ;;
    x <- match loss with
         | Single x => ret x
         | Pair _ _ => raise (AttributeError "backward")
         end ;;
    loss_backward None x ;;
    o <- opt_step AllParams o ;;
    ret (bind_opts (Some o) (opt_g l) (opt_d l) l).

(** The body of [for epoch in range(self.epoch)] in [fit]; [n] is
    [data.x.shape[0]]. Under [gan] the loss reported is read from the
    attributes [self.epoch_loss_g] and [self.epoch_loss_d], not from the
    locals of those names; [DeepDetector] never sets these attributes, so
    the read fails unless a subclass has them. *)
Definition fit_epoch (n : nat) (label : option (list Z))
  (loader : nat -> list (SampledData.t Sampled)) (l : Locals) (epoch : nat)
  : M World Locals :=
  g <- read gan ;;
  let l := if g : bool then bind_loss (epoch_loss l) (Some 0) (Some 0) l
           else bind_loss (Some 0) (epoch_loss_g l) (epoch_loss_d l) l in
  l <- for_each (loader epoch) fit_batch l ;;
  g <- read gan ;;
  loss_value <-
    (if g : bool then
       s <- read (fun d => sub (owned d)) ;;
       eg <- lift (getval "epoch_loss_g" (sub_attr s "epoch_loss_g")) ;;
       vg <- py_div eg n ;;
       ed <- lift (getval "epoch_loss_d" (sub_attr s "epoch_loss_d")) ;;
       vd <- py_div ed n ;;
       ret (Pair vg vd)
     else
       e <- local "epoch_loss" (epoch_loss l) ;;
       v <- py_div e n ;;
       ret (Single v)) ;;
  ds <- read (fun d => decision_score_ (super d)) ;;
  ds <- lift (getattr "decision_score_" ds) ;;
  logger (Some epoch) (Some loss_value) ds label true ;;
  ret l.

(** [DeepDetector.fit]; the detector returned is [self]. *)
Definition fit (data : Data) (label : option (list Z)) : M World unit :=
  data <- call process_graph data ;;
  let '(n, dim) := x_shape data in
  on_self (set_shape n dim) ;;
  bs <- read batch_size ;;
  (if (bs =? 0)%Z then on_self (set_batch_size (Z.of_nat n)) else ret tt) ;;
  nn <- read num_neigh ;;
  bs <- read batch_size ;;
  loader <- lift (NeighborLoader data nn bs) ;;
  kw <- read kwargs ;;
  m <- call init_model kw ;;
  set_the_model m ;;
  cm <- read compile_model ;;
  (if cm : bool then m <- the_model ;; set_the_model (compile m) else ret tt) ;;
  g <- read gan ;;
  rate <- read lr ;;
  wd <- read weight_decay ;;
  l <- (if g : bool then
          m <- the_model ;;
          og <- lift (Adam m Generator rate wd) ;;
          m <- the_model ;;
          od <- lift (Adam m Discriminator rate wd) ;;
          ret (bind_opts None (Some og) (Some od) no_locals)
        else
          m <- the_model ;;
          o <- lift (Adam m AllParams rate wd) ;;
          ret (bind_opts (Some o) None None no_locals)) ;;
  m <- the_model ;;
  set_the_model (model_train m) ;;
  on_super (modify (set_decision_score_ (Bound (Tensor.zeros n)))) ;;
  ep <- read epoch ;;
  for_each (seq 0 (Z.to_nat ep)) (fit_epoch n label loader) l ;;
  on_super _process_decision_score.

(** *** decision_function *)

Definition zeros2 (n : nat) (h : Z) : list Row := repeat (zero_row h) n.

(** The body of [for sampled_data in loader] in [decision_function]; the
    local [outlier_score] travels with the loss accumulators. *)
Definition decision_batch (st : Locals * list Q)
  (sampled_data : SampledData.t Sampled) : M World (Locals * list Q) :=
  let '(l, outlier_score) := st in
  '(loss, score) <- call forward_model sampled_data ;;
  let batch_size := SampledData.batch_size sampled_data in
  let node_idx := SampledData.n_id sampled_data in
  let bs := inject_Z (Z.of_nat batch_size) in
  se <- read save_emb ;;
  (if se : bool then
     h <- read hid_dim ;;
     match h with
     | HidTuple _ _ =>
         save_emb_tuple (firstn batch_size node_idx) batch_size
     | HidInt _ => save_emb_one (firstn batch_size node_idx) batch_size
     end
   else ret tt) ;;
  g <- read gan ;;
  l <- (if g : bool then
          tg <- local "test_loss_g" (epoch_loss_g l) ;;
          l0 <- loss_at loss 0 ;;
          let tg := tg + item l0 * bs in
          l1 <- loss_at loss 1 ;;
          ret (bind_loss (epoch_loss l) (Some tg) (Some (item l1 * bs)) l)
        else
          x <- loss_item loss ;;
          ret (bind_loss (Some (x * bs)) (epoch_loss_g l) (epoch_loss_d l) l)) ;;
  outlier_score <-
    lift (of_option IndexError
            (Tensor.index_put outlier_score (firstn batch_size node_idx)
               score)) ;;
  ret (l, outlier_score).

(** [DeepDetector.decision_function] *)
Definition decision_function (data : Data) (label : option (list Z))
  : M World (list Q) :=
  data <- call process_graph data ;;
  nn <- read num_neigh ;;
  bs <- read batch_size ;;
  loader <- lift (NeighborLoader data nn bs) ;;
  m <- the_model ;;
  set_the_model (model_eval m) ;;
  let n := fst (x_shape data) in
  let outlier_score := Tensor.zeros n in
  se <- read save_emb ;;
  (if se : bool then
     h <- read hid_dim ;;
     match h with
     | HidTuple h0 h1 =>
         set_the_emb (Bound (EmbTuple (zeros2 n h0) (zeros2 n h1)))
     | HidInt h => set_the_emb (Bound (EmbOne (zeros2 n h)))
     end
   else ret tt) ;;
  g <- read gan ;;
  let l := if g : bool then bind_loss None (Some 0) (Some 0) no_locals
           else bind_loss (Some 0) None None no_locals in
  '(l, outlier_score) <- for_each (loader O) decision_batch (l, outlier_score) ;;
  g <- read gan ;;
  loss_value <-
    (if g : bool then
       tg <- local "test_loss_g" (epoch_loss_g l) ;;
       vg <- py_div tg n ;;
       td <- local "test_loss_d" (epoch_loss_d l) ;;
       vd <- py_div td n ;;
       ret (Pair vg vd)
     else
       t <- local "test_loss" (epoch_loss l) ;;
       v <- py_div t n ;;
       ret (Single v)) ;;
  logger None (Some loss_value) (Bound outlier_score) label false ;;
  ret outlier_score.

(** *** predict *)

(** One of the values [predict] can return. *)
Inductive Out : Type :=
| OutPred (pred : list Z)
| OutScore (score : list Q)
| OutProb (prob : list Q)
| OutConf (conf : list Q)
| OutEmb (e : Attr (Emb Row)).

(** What [predict] returns: one value, or a tuple. *)
Inductive Returned : Type :=
| One (o : Out)
| Tuple (l : list Out).

(** [Detector.predict], with the [decision_function] of [DeepDetector]. *)
Definition Detector_predict (data : option Data) (label : option (list Z))
  (return_pred return_score return_prob : bool) (prob_method : string)
  (return_conf : bool) : M World Returned :=
  d <- read super ;;
  lift (is_fitted d ["decision_score_"; "threshold_"; "label_"]) ;;
  let output := [] in
  score <- match data with
           | None =>
               ds <- read (fun d => decision_score_ (super d)) ;;
               ds <- lift (getattr "decision_score_" ds) ;;
               logger None None ds label false ;;
               lift (getval "decision_score_" ds)
           | Some data => decision_function data label
           end ;;
  output <- (if return_pred then
               thr <- read (fun d => threshold_ (super d)) ;;
               thr <- lift (getval "threshold_" thr) ;;
               ret (output ++ [OutPred (Tensor.gt_long score thr)])
             else ret output) ;;
  let output := if return_score then output ++ [OutScore score] else output in
  output <- (if return_prob then
               prob <- on_super (_predict_prob score prob_method) ;;
               ret (output ++ [OutProb prob])
             else ret output) ;;
  output <- (if return_conf then
               conf <- on_super (_predict_conf score) ;;
               ret (output ++ [OutConf conf])
             else ret output) ;;
  match output with
  | [o] => ret (One o)
  | _ => ret (Tuple output)
  end.

(** [DeepDetector.predict] *)
Definition predict (data : option Data) (label : option (list Z))
  (return_pred return_score return_prob : bool) (prob_method : string)
  (return_conf return_emb : bool) : M World Returned :=
  (if return_emb then on_self (set_save_emb true) else ret tt) ;;
  output <- Detector_predict data label return_pred return_score return_prob
              prob_method return_conf ;;
  if return_emb then
    e <- read (fun d => emb (owned d)) ;;
    e <- lift (getattr "emb" e) ;;
    match output with
    | Tuple l => ret (Tuple (l ++ [OutEmb e]))
    | One o => ret (Tuple [o; OutEmb e])
    end
  else ret output.

End Deep.

(** ** GADNR, as the methods of [DeepDetector] meet it

    [GADNR.forward_model] returns five values. The [fit] of GADNR, which
    replaces that of the base class, unpacks five; [decision_function] and
    [predict] are inherited and unpack two. The network and its loss
    function are outside the sources. *)

Section GADNR.
Context {B : Backend}.

(** [loss, loss_per_node, h_loss, degree_loss, feature_loss] *)
Record FiveValues : Type := mkFive {
  loss5 : Loss;
  loss_per_node : list Q;
  h_loss : list Q;
  degree_loss : list Q;
  feature_loss : list Q
}.

(** [loss, score = v] for a tuple [v] of five values. *)
Definition unpack_two (v : FiveValues) : Result (LossOut Loss * list Q) :=
  Raise (ValueError "too many values to unpack (expected 2)").

Variable GADNR_process_graph : DeepDetector -> Data -> Result Data * Owned.
Variable GADNR_init_model : DeepDetector -> Opaque -> Result Model * Owned.
Variable GADNR_forward_model :
  DeepDetector -> SampledData.t Sampled -> Result FiveValues * Owned.
Variable GADNR_sub_attr : Sub -> string -> Attr Q.

Definition GADNR_hooks : Hooks := {|
  process_graph := GADNR_process_graph;
  init_model := GADNR_init_model;
  forward_model := fun d sampled_data =>
    let (r, o) := GADNR_forward_model d sampled_data in
    (match r with
     | Ok v => unpack_two v
     | Raise e => Raise e
     end, o);
  sub_attr := GADNR_sub_attr
|}.

End GADNR.

(** * DOMINANTBase, of [pygod/nn/dominant.py]: the constructor

    The backbone and the dot product decoder are built by constructors
    from outside the file, which may fail; the activation, the keyword
    arguments and the loss function are handed on as they are. *)

Module Dominant.

Inductive Failure : Type := AssertionError (msg : string).

Section Dominant.
Variables Act Kwargs LossFunc Net Decoder : Type.

(** The arguments of [backbone(...)]. *)
Record BackboneArgs : Type := mkBackboneArgs {
  in_channels : Z;
  hidden_channels : Z;
  num_layers : Z;
  out_channels : Z;
  dropout : Q;
  act : Act;
  kwargs : Kwargs
}.

(** The arguments of [DotProductDecoder(...)]. *)
Record DecoderArgs : Type := mkDecoderArgs {
  dec_in_dim : Z;
  dec_hid_dim : Z;
  dec_num_layers : Z;
  dec_dropout : Q;
  dec_act : Act;
  sigmoid_s : bool;
  dec_backbone : BackboneArgs -> Failure + Net;
  dec_kwargs : Kwargs
}.

Variable double_mse_loss : LossFunc.
Variable DotProductDecoder : DecoderArgs -> Failure + Decoder.

Record DOMINANTBase : Type := mkDOMINANTBase {
  shared_encoder : Net;
  attr_decoder : Net;
  struct_decoder : Decoder;
  loss_func : LossFunc
}.

(** [DOMINANTBase.__init__]; [num_layers / 2] is the true division. *)
Definition DOMINANTBase__init__ (in_dim hid_dim num_layers : Z) (dropout : Q)
  (act : Act) (sigmoid_s : bool) (backbone : BackboneArgs -> Failure + Net)
  (kwargs : Kwargs) : Failure + DOMINANTBase :=
  if (num_layers <? 2)%Z then
    inl (AssertionError
           "Number of layers must be greater than or equal to 2.")
  else
    let encoder_layers := Qfloor (inject_Z num_layers / 2) in
    let decoder_layers := Qceiling (inject_Z num_layers / 2) in
    match backbone (mkBackboneArgs in_dim hid_dim encoder_layers hid_dim
                      dropout act kwargs) with
    | inl e => inl e
    | inr shared_encoder =>
        match backbone (mkBackboneArgs hid_dim hid_dim decoder_layers in_dim
                          dropout act kwargs) with
        | inl e => inl e
        | inr attr_decoder =>
            match DotProductDecoder
                    (mkDecoderArgs hid_dim hid_dim (decoder_layers - 1)
                       dropout act sigmoid_s backbone kwargs) with
            | inl e => inl e
            | inr struct_decoder =>
                inr (mkDOMINANTBase shared_encoder attr_decoder
                       struct_decoder double_mse_loss)
            end
        end
    end.

End Dominant.

(** Constructors that keep the arguments they were given, to look at what
    [DOMINANTBase] asks for. *)
Definition recording_backbone
  : BackboneArgs unit unit -> Failure + BackboneArgs unit unit := inr.

Definition recording_decoder
  : DecoderArgs unit unit (BackboneArgs unit unit)
    -> Failure + DecoderArgs unit unit (BackboneArgs unit unit) := inr.

End Dominant.

(** * A small detector to run the methods on

    Graphs are lists of node features, the loader gives the whole graph as
    one batch, the model counts the optimizer steps taken, the subclass
    counts the calls of [process_graph], and the score of a node is its
    feature. *)

Module Toy.

Definition full_batch (data : list Q) : SampledData.t (list Q) :=
  SampledData.make (length data) (seq 0 (length data)) data.

#[export] Instance backend : Backend := {
  Data := list Q;
  Sampled := list Q;
  Model := nat;
  Loss := Q;
  Optimizer := ParamGroup;
  Row := Q;
  Opaque := unit;
  Sub := nat;
  x_shape := fun data => (length data, 1%nat);
  NeighborLoader := fun data _ bs =>
    if (bs <=? 0)%Z then Raise (ValueError "batch_size")
    else Ok (fun _ => [full_batch data]);
  compile := fun m => m;
  model_train := fun m => m;
  model_eval := fun m => m;
  model_emb := fun _ => Ok (EmbOne []);
  zero_row := fun _ => 0;
  Adam := fun _ g _ _ => Ok g;
  zero_grad := fun _ m => m;
  backward := fun _ m => Ok m;
  step := fun o m => (o, S m);
  item := fun l => l;
  erf := fun x => x;
  sqrt := fun x => x
}.

#[export] Instance hooks : Hooks := {
  process_graph := fun d data =>
    (Ok data,
     mkOwned (model (owned d)) (emb (owned d)) (S (sub (owned d))));
  init_model := fun d _ => (Ok O, owned d);
  forward_model := fun d sampled_data =>
    (Ok (if gan d then Pair 1 2 else Single 1,
         firstn (SampledData.batch_size sampled_data)
           (SampledData.payload sampled_data)),
     owned d);
  sub_attr := fun _ _ => Missing
}.

(** A graph with the given node features. *)
Definition graph (x : list Q) : Data := x.

(** [Toy(contamination=c, epoch=epoch, batch_size=batch_size, gan=gan)] *)
Definition construct (c : Q) (epoch batch_size : Z) (gan : bool)
  : Result DeepDetector :=
  DeepDetector__init__ (HidInt 64) 2 0 0 tt tt c (4 # 1000) epoch (-1)
    batch_size (NeighInt (-1)) 0 gan false false tt O.

(** A detector with [gan] set, as [fit] has it when the first batch
    arrives: the model is built and the scores are zeroed. *)
Definition gan_detector : DeepDetector :=
  mkDeep
    (mkDetector (Bound (1 # 10)) (Bound 0%Z) (Bound (Tensor.zeros 5)) Missing
       Missing)
    (Bound 1%nat) (Bound 5%nat) (HidInt 64) 2 0 0 tt tt tt (4 # 1000) 1 Cpu 5
    true [(-1)%Z; (-1)%Z] false false (mkOwned (Bound O) Missing O).

(** The locals of [fit] under [gan] at the start of an epoch. *)
Definition gan_locals : Locals :=
  mkLocals None (Some Generator) (Some Discriminator) None (Some 0) (Some 0).

(** Running a method on an object, from an empty trace. *)
Definition run {A} (d : Result DeepDetector) (m : M World A)
  : option (Result A * World) :=
  match d with
  | Ok d => Some (m (mkWorld d []))
  | Raise _ => None
  end.

(** The object a run leaves behind, to call the next method on. *)
Definition after {A} (x : option (Result A * World)) : Result DeepDetector :=
  match x with
  | Some (_, w) => Ok (self w)
  | None => Raise (RuntimeError "no object")
  end.

End Toy.

(** * What the theorems speak about *)

Section Keeps.
Context {S T : Type} (f : S -> T).

(** [keeps f m]: however a run of [m] ends, by a return or by a raise, the
    observation [f] of the state is what it was. *)
Definition keeps {A} (m : M S A) : Prop :=
  forall s r s', m s = (r, s') -> f s' = f s.

End Keeps.

(** The confidence of one test score [s] against [n] training scores when
    [k] of them are taken to be inliers: [n_ins] training scores are at
    most [s], the posterior is [(1 + n_ins) / (2 + n)], and the confidence
    is that of the label the threshold gives. *)
Definition confidence_at (k : Z) (train : list Q) (thr s : Q) : Q :=
  let n := length train in
  let n_ins := length (filter (fun t => Qle_bool t s) train) in
  let post := (1 + inject_Z (Z.of_nat n_ins)) / (2 + inject_Z (Z.of_nat n)) in
  let conf := 1 - Scipy.binom_cdf k n post in
  if Qgtb s thr then conf else 1 - conf.

(** The confidence in the words of the specification:
    [k = n - floor(n * contamination)], the product being that of the
    numbers. *)
Definition confidence_of (train : list Q) (c thr s : Q) : Q :=
  let n := Z.of_nat (length train) in
  confidence_at (n - Qfloor (inject_Z n * c)) train thr s.

(** The confidence with the product of [n] and the contamination taken on
    floats, as Python multiplies them. *)
Definition confidence_float (train : list Q) (c thr s : Q) : Q :=
  let n := Z.of_nat (length train) in
  confidence_at (n - Qfloor (fmul (inject_Z n) c)) train thr s.

(** A fitted detector of five training scores, contamination 0.1. *)
Definition five_scores : Detector :=
  mkDetector (Bound (1 # 10)) (Bound 0%Z) (Bound [3; 1; 2; 5; 4])
    (Bound (23 # 5)) (Bound [0; 0; 0; 1; 0]%Z).

(** One of the three fitted attributes is absent. *)
Definition not_fitted (d : Detector) : Prop :=
  present (decision_score_ d) && present (threshold_ d) && present (label_ d)
  = false.

(** [t] is the [q]-th percentile of the data [a] by linear interpolation
    between order statistics: with the data in ascending order [s] and the
    virtual index [v = (n - 1) * q / 100], [t] lies between the entries of
    [s] at [floor v] and at the next index, at the fraction [v - floor v]
    of the way. *)
Definition interpolates (a : list Q) (q t : Q) : Prop :=
  exists s,
    Permutation s a /\ Sorted Qle s
    /\ let n := Z.of_nat (length a) in
       let v := (inject_Z n - 1) * (q / 100) in
       let lo := Qfloor v in
       let hi := Z.min (lo + 1) (n - 1) in
       t = nth (Z.to_nat lo) s (hd 0 s)
           + (nth (Z.to_nat hi) s (hd 0 s) - nth (Z.to_nat lo) s (hd 0 s))
             * (v - inject_Z lo).

(** The scores 1, 2, ..., 100. *)
Definition one_to_hundred : list Q :=
  map (fun n => inject_Z (Z.of_nat n)) (seq 1 100).

(** A detector with these hundred training scores and contamination 0.29,
    its threshold and labels computed by [_process_decision_score]. *)
Definition hundred_scores : Detector :=
  Eval vm_compute in
    snd (_process_decision_score
           (mkDetector (Bound (29 # 100)) (Bound 0%Z) (Bound one_to_hundred)
              Missing Missing)).

Section Observations.
Context {B : Backend} {H : Hooks}.

(** What the optimizer calls see of the world: the trace and the [gan]
    flag. *)
Definition trace_gan (w : World) : list Event * bool := (trace w, gan (self w)).

(** [emits es m]: on a detector with [gan] set, a run of [m] that returns
    has appended exactly the events [es] and left [gan] set. *)
Definition emits {A} (es : list Event) (m : M World A) : Prop :=
  forall w a w', gan (self w) = true -> m w = (Ok a, w') ->
                 trace w' = trace w ++ es /\ gan (self w') = true.

(** The events of one training batch under [gan], as the code produces
    them. *)
Definition gan_batch_events : list Event :=
  [ZeroGrad Generator; Backward (Some 0%nat); Step Generator;
   ZeroGrad Discriminator; Backward (Some 0%nat); Step Discriminator].

(** The observations of a world that the frame theorems follow. *)
Definition contamination_of (w : World) : Attr Q :=
  contamination (super (self w)).

Definition fitted_frame (w : World) : Attr Q * Attr (list Z) :=
  (threshold_ (super (self w)), label_ (super (self w))).

Definition stored_score (w : World) : Attr (list Q) :=
  decision_score_ (super (self w)).

(** A call that can follow the construction of a detector. *)
Inductive Call : Type :=
| CallFit (data : Data) (label : option (list Z))
| CallDecision (data : Data) (label : option (list Z))
| CallPredict (data : option Data) (label : option (list Z))
    (return_pred return_score return_prob : bool) (prob_method : string)
    (return_conf return_emb : bool).

Definition run_call (c : Call) : M World unit :=
  match c with
  | CallFit data label => fit data label
  | CallDecision data label => decision_function data label ;; ret tt
  | CallPredict data label rp rs rpr pm rc re =>
      predict data label rp rs rpr pm rc re ;; ret tt
  end.

(** The construction parameters that no method assigns. *)
Definition config (w : World)
  : HidDim * Z * Q * Q * Q * Z * list Z * bool * Device :=
  let d := self w in
  (hid_dim d, num_layers d, dropout d, weight_decay d, lr d, epoch d,
   num_neigh d, gan d, device d).

Definition batch_size_of (w : World) : Z := batch_size (self w).
Definition save_emb_of (w : World) : bool := save_emb (self w).

End Observations.

(** The world in which the small detector, constructed with contamination
    0.1, one epoch and full-batch training, starts its [fit]. *)
Definition toy_start : World (B := Toy.backend) :=
  Eval vm_compute in
    match Toy.construct (1 # 10) 1 0 false with
    | Ok d => mkWorld d []
    | Raise _ => mkWorld Toy.gan_detector []
    end.

(** The same detector after [fit] on a graph of five nodes. *)
Definition toy_fitted : World (B := Toy.backend) :=
  Eval vm_compute in
    snd (fit (H := Toy.hooks) (Toy.graph [3; 1; 2; 5; 4]) None toy_start).

(** The fitted small detector after [decision_function] on a graph of two
    other nodes. *)
Definition toy_scored : World (B := Toy.backend) :=
  Eval vm_compute in
    snd (decision_function (H := Toy.hooks) (Toy.graph [7; 8]) None toy_fitted).

(** The small detector, constructed with a batch size of 2 and not fitted. *)
Definition toy_fresh : World (B := Toy.backend) :=
  Eval vm_compute in
    match Toy.construct (1 # 10) 1 2 false with
    | Ok d => mkWorld d []
    | Raise _ => mkWorld Toy.gan_detector []
    end.

(** ** Vocabulary of the further properties *)

Section MoreObservations.
Context {B : Backend}.

(** [raise_keeps f m]: a run of [m] that raises has left the observation
    [f] of the state as it was. *)
Definition raise_keeps {S T A} (f : S -> T) (m : M S A) : Prop :=
  forall s e s', m s = (Raise e, s') -> f s' = f s.

(** [ok_keeps f m]: a run of [m] that returns has left the observation
    [f] of the state as it was. *)
Definition ok_keeps {S T A} (f : S -> T) (m : M S A) : Prop :=
  forall s a s', m s = (Ok a, s') -> f s' = f s.

Definition trace_of (w : World) : list Event := trace w.
Definition gan_of (w : World) : bool := gan (self w).
Definition self_of (w : World) : DeepDetector := self w.
Definition gan_epoch (w : World) : bool * Z := (gan (self w), epoch (self w)).
Definition epoch_trace (w : World) : Z * list Event :=
  (epoch (self w), trace w).

(** The number of stored scores, when there are any. *)
Definition score_count (w : World) : option nat :=
  match decision_score_ (super (self w)) with
  | Bound s => Some (length s)
  | _ => None
  end.

Definition shape_of (w : World) : Attr nat * Attr nat :=
  (num_nodes (self w), in_dim (self w)).

(** No quotient of [_predict_prob] has the divisor zero: under "linear"
    the training scores are not all equal; under "unify" there are at
    least two of them and their deviation is not zero. (Where a divisor
    is zero torch gives an infinity or a NaN, which the rationals do not
    have.) *)
Definition nonzero_divisors (method : string) (d : Detector) : Prop :=
  match decision_score_ d with
  | Bound train =>
      if String.eqb method "linear" then
        match Tensor.min train, Tensor.max train with
        | Some lo, Some hi => ~ hi - lo == 0
        | _, _ => True
        end
      else (2 <= length train)%nat /\ ~ std train * sqrt 2 == 0
  | _ => True
  end.

(** The values [predict] returned, in order. *)
Definition items (r : Returned) : list Out :=
  match r with
  | One o => [o]
  | Tuple l => l
  end.

Inductive OutKind : Type := KPred | KScore | KProb | KConf | KEmb.

Definition kind_of (o : Out) : OutKind :=
  match o with
  | OutPred _ => KPred
  | OutScore _ => KScore
  | OutProb _ => KProb
  | OutConf _ => KConf
  | OutEmb _ => KEmb
  end.

(** The kinds of value the flags of [predict] ask for, in the order of
    the result. *)
Definition asked (return_pred return_score return_prob return_conf
  return_emb : bool) : list OutKind :=
  (if return_pred then [KPred] else [])
  ++ (if return_score then [KScore] else [])
  ++ (if return_prob then [KProb] else [])
  ++ (if return_conf then [KConf] else [])
  ++ (if return_emb then [KEmb] else []).

End MoreObservations.

(** GADNR on the small backend: the graph is processed and the model
    built as by the small detector, and [forward_model] returns its five
    values. *)
Definition toy_forward_five (d : @DeepDetector Toy.backend)
  (sampled_data : SampledData.t (list Q))
  : Result (@FiveValues Toy.backend) * @Owned Toy.backend :=
  let s := firstn (SampledData.batch_size sampled_data)
             (SampledData.payload sampled_data) in
  (Ok (@mkFive Toy.backend 1 s s s s), owned d).

Definition toy_gadnr : @Hooks Toy.backend :=
  GADNR_hooks (B := Toy.backend)
    (@process_graph Toy.backend Toy.hooks)
    (@init_model Toy.backend Toy.hooks)
    toy_forward_five
    (fun _ _ => Missing).

(** The small detector with [gan] set, as the constructor returns it. *)
Definition toy_gan_start : World (B := Toy.backend) :=
  Eval vm_compute in
    match Toy.construct (1 # 10) 1 0 true with
    | Ok d => mkWorld d []
    | Raise _ => mkWorld Toy.gan_detector []
    end.

(** The small detector constructed with [epoch=0]. *)
Definition toy_idle : World (B := Toy.backend) :=
  Eval vm_compute in
    match Toy.construct (1 # 10) 0 0 false with
    | Ok d => mkWorld d []
    | Raise _ => mkWorld Toy.gan_detector []
    end.

(** A batch of the small detector with the seed nodes 3 and 1 and one
    neighbour, node 0. *)
Definition toy_batch : SampledData.t (list Q) :=
  SampledData.make 2 [3; 1; 0]%nat [30; 10; 99].

(** The locals of [decision_function] after batches that gave the loss 7. *)
Definition toy_test_locals : Locals (B := Toy.backend) :=
  bind_loss (Some 7) None None no_locals.

(** [written t idx v t']: [t'] is [t] after the assignment [t[idx] = v] of
    one value per index. No index is past the end, the length is kept,
    the entries at other positions are those of [t], and, the indices
    being distinct, the entry at the [k]-th index is the [k]-th value. *)
Definition written (t : list Q) (idx : list nat) (v t' : list Q) : Prop :=
  length t' = length t
  /\ Forall (fun i => (i < length t)%nat) idx
  /\ (forall j, ~ In j idx -> nth_error t' j = nth_error t j)
  /\ (NoDup idx -> length v = length idx ->
      forall k i, nth_error idx k = Some i ->
                  nth_error t' i = nth_error v k).

(** The seed nodes of a batch: [node_idx[:batch_size]]. *)
Definition seeds {X} (sampled_data : SampledData.t X) : list nat :=
  firstn (SampledData.batch_size sampled_data)
    (SampledData.n_id sampled_data).

Section Scoring.
Context {B : Backend} {H : Hooks}.

(** A world up to what the subclass owns: the world with the model, the
    embedding and the attributes of the subclass replaced. *)
Definition frame_of (w : World) : Owned -> World :=
  fun o => mkWorld (set_owned o (self w)) (trace w).

(** [scored batches w out out']: from the state [w] and the score vector
    [out], the batches in turn have had the scores [forward_model]
    returned for them, in the state each batch found, assigned at their
    seed nodes, giving [out']. From one batch to the next only what the
    subclass owns may have changed. *)
Inductive scored
  : list (SampledData.t Sampled) -> World -> list Q -> list Q -> Prop :=
| scored_nil w out : scored [] w out out
| scored_cons b r w out loss score o out1 out' :
    fst (forward_model (self w) b) = Ok (loss, score) ->
    written out (seeds b) score out1 ->
    scored r (mkWorld (set_owned o (self w)) (trace w)) out1 out' ->
    scored (b :: r) w out out'.

End Scoring.


(** * Reasoning about method bodies *)

(** ** Numbers and tensors *)

Lemma Qgtb_lt a b : Qgtb a b = true <-> b < a.
Proof.
  unfold Qgtb. rewrite negb_true_iff. split; intros H.
  - apply Qnot_le_lt. intros Hle. apply Qle_bool_iff in Hle. congruence.
  - destruct (Qle_bool a b) eqn:E; [|reflexivity].
    apply Qle_bool_iff in E. exfalso. exact (Qlt_not_le _ _ H E).
Qed.

Lemma Qgtb_le a b : Qgtb a b = false <-> a <= b.
Proof.
  unfold Qgtb. rewrite negb_false_iff. apply Qle_bool_iff.
Qed.

(** On a number that is not negative, Python's [int] is the floor. *)
Lemma int_floor x : 0 <= x -> int x = Qfloor x.
Proof.
  destruct x as [n d]. unfold Qle, int, Qfloor. simpl. intros H.
  apply Z.quot_div_nonneg; lia.
Qed.

Lemma round_half_even_nonneg x : 0 <= x -> (0 <= round_half_even x)%Z.
Proof.
  intros Hx. unfold round_half_even.
  assert (Hf : (0 <= Qfloor x)%Z).
  { change 0%Z with (Qfloor 0). apply Qfloor_resp_le. exact Hx. }
  destruct (Qcompare (x - inject_Z (Qfloor x)) (1 # 2));
    [destruct (Z.even (Qfloor x))| |]; lia.
Qed.

(** Rounding to a float keeps the sign of a number that is not negative. *)
Lemma round64_nonneg x : 0 <= x -> 0 <= round64 x.
Proof.
  intros Hx. unfold round64.
  destruct (Qeq_bool x 0); [apply Qle_refl|].
  cbv zeta.
  assert (Hb : Qle_bool 0 x = true) by (apply Qle_bool_iff; exact Hx).
  rewrite Hb.
  set (e := Z.max (binade (Qabs x) - 52) (-1074)).
  assert (Hp : 0 < 2 ^ e) by (apply Qpower_0_lt; reflexivity).
  apply Qmult_le_0_compat; [|apply Qlt_le_weak; exact Hp].
  change 0 with (inject_Z 0). rewrite <- Zle_Qle.
  apply round_half_even_nonneg.
  apply Qle_shift_div_l; [exact Hp|].
  rewrite Qmult_0_l. apply Qabs_nonneg.
Qed.

Lemma fmul_nonneg a b : 0 <= a -> 0 <= b -> 0 <= fmul a b.
Proof.
  intros Ha Hb. unfold fmul. apply round64_nonneg.
  apply Qmult_le_0_compat; apply round64_nonneg; assumption.
Qed.

(** The two products of 100 and 0.29: the floats give a number just below
    29, which [int] truncates to 28. *)
Lemma fmul_hundred :
  int (fmul 100 (29 # 100)) = 28%Z /\ Qfloor (100 * (29 # 100)) = 29%Z.
Proof. split; vm_compute; reflexivity. Qed.

Section TensorFacts.
Variable A : Type.

Lemma set_nth_length (t : list A) i v t' :
  Tensor.set_nth t i v = Some t' -> length t' = length t.
Proof.
  revert i t'. induction t as [|x r IH]; intros [|j] t' H; simpl in H;
    try discriminate.
  - injection H as <-. reflexivity.
  - destruct (Tensor.set_nth r j v) eqn:E; simpl in H; [|discriminate].
    injection H as <-. simpl. f_equal. eauto.
Qed.

Lemma put_all_length (iv : list (nat * A)) : forall t t',
    Tensor.put_all t iv = Some t' -> length t' = length t.
Proof.
  induction iv as [|[i v] r IH]; simpl; intros t t' H.
  - injection H as <-. reflexivity.
  - destruct (Tensor.set_nth t i v) eqn:E; [|discriminate].
    rewrite (IH _ _ H). eapply set_nth_length; eauto.
Qed.

(** An assignment by index keeps the length of the tensor. *)
Lemma index_put_length (t : list A) idx v t' :
  Tensor.index_put t idx v = Some t' -> length t' = length t.
Proof.
  unfold Tensor.index_put. destruct (Nat.eqb _ _).
  - apply put_all_length.
  - destruct v as [|x [|y r]]; try discriminate. apply put_all_length.
Qed.

End TensorFacts.

Lemma zeros_length n : length (Tensor.zeros n) = n.
Proof. apply repeat_length. Qed.

Lemma gt_long_length t thr : length (Tensor.gt_long t thr) = length t.
Proof. apply length_map. Qed.

(** ** The order statistics of the percentile *)

Lemma insert_perm x l : Permutation (Numpy.insert x l) (x :: l).
Proof.
  induction l as [|y r IH]; simpl; [reflexivity|].
  destruct (Qle_bool x y); [reflexivity|].
  rewrite IH. apply perm_swap.
Qed.

Lemma sort_perm l : Permutation (Numpy.sort l) l.
Proof.
  induction l as [|x r IH]; simpl; [reflexivity|].
  rewrite insert_perm. constructor. exact IH.
Qed.

Lemma insert_hdrel x y r :
  y <= x -> HdRel Qle y r -> HdRel Qle y (Numpy.insert x r).
Proof.
  intros Hyx Hr. destruct r as [|z r]; simpl; [constructor; exact Hyx|].
  destruct (Qle_bool x z); constructor; [exact Hyx|].
  inversion Hr. assumption.
Qed.

Lemma insert_sorted x l : Sorted Qle l -> Sorted Qle (Numpy.insert x l).
Proof.
  induction 1 as [|y r Hs IH Hd]; simpl.
  - repeat constructor.
  - destruct (Qle_bool x y) eqn:E.
    + apply Qle_bool_iff in E. repeat constructor; assumption.
    + constructor; [exact IH|]. apply insert_hdrel; [|exact Hd].
      apply Qlt_le_weak. apply Qgtb_lt. unfold Qgtb. rewrite E. reflexivity.
Qed.

(** [Numpy.sort] gives the scores in ascending order. *)
Lemma sort_sorted l : Sorted Qle (Numpy.sort l).
Proof.
  induction l as [|x r IH]; simpl; [constructor|].
  apply insert_sorted. exact IH.
Qed.

(** [Numpy.percentile] interpolates linearly between the order statistics
    of the data, for a [q] between 0 and 100. *)
Lemma percentile_order_statistics (a : list Q) (q t : Q) :
  Numpy.percentile a q = Some t ->
  0 <= q /\ q <= 100 /\ interpolates a q t.
Proof.
  unfold Numpy.percentile, interpolates. intros E.
  destruct (Qle_bool 0 q) eqn:E0; [|discriminate].
  destruct (Qle_bool q 100) eqn:E1; [|discriminate]. simpl in E.
  apply Qle_bool_iff in E0. apply Qle_bool_iff in E1.
  pose proof (sort_perm a) as Hp. pose proof (sort_sorted a) as Hs.
  destruct (Numpy.sort a) as [|x r] eqn:Es; [discriminate|].
  injection E as <-. split; [exact E0|]. split; [exact E1|].
  exists (x :: r). split; [exact Hp|]. split; [exact Hs|].
  rewrite <- (Permutation_length Hp). reflexivity.
Qed.

Lemma bind_ok {S A B} (m : M S A) (k : A -> M S B) s b s' :
  bind m k s = (Ok b, s') ->
  exists a s1, m s = (Ok a, s1) /\ k a s1 = (Ok b, s').
Proof.
  unfold bind. destruct (m s) as [[a|e] s1]; intros E.
  - eauto.
  - discriminate.
Qed.

Lemma lift_ok {S A} (r : Result A) (s : S) a s' :
  lift r s = (Ok a, s') -> r = Ok a /\ s' = s.
Proof. unfold lift. intros E. injection E as -> ->. auto. Qed.

Lemma of_option_ok {A} e (o : option A) v : of_option e o = Ok v -> o = Some v.
Proof. destruct o; simpl; congruence. Qed.

(** ** What a method leaves unchanged *)

Section Frame.
Context {S T : Type} (f : S -> T).

Lemma keeps_ret {A} (a : A) : keeps f (ret a).
Proof. intros s r s' E. injection E as _ <-. reflexivity. Qed.

Lemma keeps_raise {A} e : keeps f (@raise S A e).
Proof. intros s r s' E. injection E as _ <-. reflexivity. Qed.

Lemma keeps_lift {A} (x : Result A) : keeps f (lift x).
Proof. intros s r s' E. injection E as _ <-. reflexivity. Qed.

Lemma keeps_get : keeps f get.
Proof. intros s r s' E. injection E as _ <-. reflexivity. Qed.

Lemma keeps_modify g : (forall s, f (g s) = f s) -> keeps f (modify g).
Proof. intros Hg s r s' E. injection E as _ <-. apply Hg. Qed.

Lemma keeps_bind {A C} (m : M S A) (k : A -> M S C) :
  keeps f m -> (forall a, keeps f (k a)) -> keeps f (bind m k).
Proof.
  intros Hm Hk s r s' E. unfold bind in E.
  destruct (m s) as [[a|e] s1] eqn:Em.
  - rewrite (Hk _ _ _ _ E). eauto.
  - injection E as _ <-. eauto.
Qed.

Lemma keeps_for_each {X L} (body : L -> X -> M S L) xs :
  (forall l x, keeps f (body l x)) -> forall acc, keeps f (for_each xs body acc).
Proof.
  intros Hb. induction xs as [|x r IH]; intros acc; simpl.
  - apply keeps_ret.
  - apply keeps_bind; auto.
Qed.

Lemma keeps_local {A} name (v : option A) : keeps f (local name v).
Proof. apply keeps_lift. Qed.

Lemma keeps_py_div a n : keeps f (py_div a n).
Proof. destruct n; [apply keeps_raise | apply keeps_ret]. Qed.

End Frame.

Section FrameWorld.
Context {B : Backend} {H : Hooks} {T : Type} (f : World -> T).

Lemma keeps_read {A} (g : DeepDetector -> A) : keeps f (read g).
Proof. intros s r s' E. injection E as _ <-. reflexivity. Qed.

Lemma keeps_loss_at l i : keeps f (loss_at l i).
Proof.
  destruct l as [x|x y], i as [|[|i]]; first [apply keeps_ret | apply keeps_raise].
Qed.

Lemma keeps_loss_item l : keeps f (loss_item l).
Proof. destruct l; [apply keeps_ret | apply keeps_raise]. Qed.

Lemma keeps_on_self g :
  (forall w, f (mkWorld (g (self w)) (trace w)) = f w) -> keeps f (on_self g).
Proof. intros Hg. apply keeps_modify. exact Hg. Qed.

Lemma keeps_emit e :
  (forall w, f (mkWorld (self w) (trace w ++ [e])) = f w) -> keeps f (emit e).
Proof. intros Hg. apply keeps_modify. exact Hg. Qed.

Lemma keeps_call {X A} (hook : DeepDetector -> X -> Result A * Owned) x :
  (forall w o, f (mkWorld (set_owned o (self w)) (trace w)) = f w) ->
  keeps f (call hook x).
Proof.
  intros Hg s r s' E. unfold call in E.
  destruct (hook (self s) x) as [r0 o]. injection E as _ <-. apply Hg.
Qed.

Lemma keeps_on_super {A} (m : M Detector A) :
  (forall w d r, m (super (self w)) = (r, d) ->
                 f (mkWorld (set_super d (self w)) (trace w)) = f w) ->
  keeps f (on_super m).
Proof.
  intros Hg s r s' E. unfold on_super in E.
  destruct (m (super (self s))) as [r0 d] eqn:Em. injection E as _ <-.
  eapply Hg; eauto.
Qed.

End FrameWorld.

(** One step of a frame proof: split the method along its structure, and
    close the side conditions that hold by computation. *)
Ltac keeps_step :=
  match goal with
  | |- keeps _ (bind _ _) => apply keeps_bind; [|intros ?]
  | |- keeps _ (ret _) => apply keeps_ret
  | |- keeps _ (raise _) => apply keeps_raise
  | |- keeps _ (lift _) => apply keeps_lift
  | |- keeps _ get => apply keeps_get
  | |- keeps _ (modify _) => apply keeps_modify; try (intros ?; reflexivity)
  | |- keeps _ (local _ _) => apply keeps_local
  | |- keeps _ (py_div _ _) => apply keeps_py_div
  | |- keeps _ (read _) => apply keeps_read
  | |- keeps _ (loss_at _ _) => apply keeps_loss_at
  | |- keeps _ (loss_item _) => apply keeps_loss_item
  | |- keeps _ (for_each _ _ _) => apply keeps_for_each; intros ? ?
  | |- keeps _ (on_self _) => apply keeps_on_self; try (intros ?; reflexivity)
  | |- keeps _ (emit _) => apply keeps_emit; try (intros ?; reflexivity)
  | |- keeps _ (call _ _) => apply keeps_call; try (intros ? ?; reflexivity)
  | |- keeps _ (on_super _) =>
      apply keeps_on_super; try (intros ? ? ? ?; reflexivity)
  | |- keeps _ (if ?b then _ else _) => destruct b
  | |- keeps _ (match ?x with _ => _ end) => destruct x
  | |- keeps _ _ =>
      progress unfold the_model, set_the_model, set_the_emb, opt_zero_grad,
        loss_backward, opt_step, put_rows, save_emb_tuple, save_emb_one,
        logger, fit_batch, fit_epoch, decision_batch
  end.

Ltac keeps_tac := repeat keeps_step.

(** From a run [E : m s = (r, s')] to what it has kept of [f]. *)
Ltac keeps_in f E :=
  match type of E with
  | ?m ?s = _ =>
      let K := fresh "K" in
      assert (K : keeps f m) by keeps_tac; apply K in E; clear K
  end.

(** * The statistics *)

(** ** Construction *)

Lemma Detector_init_in_range (c : Q) (v : Z) (o : Detector) :
  0 < c /\ c <= 1 # 2 ->
  Detector__init__ c v o =
    (Ok tt, mkDetector (Bound c) (Bound v) PyNone (threshold_ o) (label_ o)).
Proof.
  unfold Detector__init__. intros [Hlo Hhi].
  apply Qgtb_lt in Hlo. apply Qle_bool_iff in Hhi. rewrite Hlo, Hhi.
  reflexivity.
Qed.

Lemma Detector_init_out_of_range (c : Q) (v : Z) (o : Detector) :
  c <= 0 \/ 1 # 2 < c ->
  exists msg, Detector__init__ c v o = (Raise (ValueError msg), o).
Proof.
  unfold Detector__init__. intros Hout.
  assert (E : Qgtb c 0 && Qle_bool c (1 # 2) = false).
  { apply andb_false_iff. destruct Hout as [Hle|Hgt].
    - left. apply Qgtb_le. exact Hle.
    - right. destruct (Qle_bool c (1 # 2)) eqn:E; [|reflexivity].
      apply Qle_bool_iff in E. exfalso. exact (Qlt_not_le _ _ Hgt E). }
  rewrite E. simpl. eexists. reflexivity.
Qed.

(** C4. [Detector.__init__] accepts every contamination in (0, 0.5] and
    binds the three attributes of a new detector; for a contamination that
    is at most 0 or above 0.5 it raises a [ValueError], and the object is
    then exactly as it was handed in: the check comes before every
    assignment. *)
Theorem Detector_init_contamination (c : Q) (v : Z) (o : Detector) :
  (0 < c /\ c <= 1 # 2 ->
   Detector__init__ c v o =
     (Ok tt, mkDetector (Bound c) (Bound v) PyNone (threshold_ o) (label_ o)))
  /\ (c <= 0 \/ 1 # 2 < c ->
      exists msg, Detector__init__ c v o = (Raise (ValueError msg), o)).
Proof.
  split; [apply Detector_init_in_range | apply Detector_init_out_of_range].
Qed.

Lemma Detector_init_contamination_witness :
  Detector__init__ (1 # 10) 0 blank =
    (Ok tt, mkDetector (Bound (1 # 10)) (Bound 0%Z) PyNone Missing Missing)
  /\ (exists msg, Detector__init__ 0 0 blank = (Raise (ValueError msg), blank))
  /\ (exists msg,
        Detector__init__ (6 # 10) 0 blank = (Raise (ValueError msg), blank)).
Proof.
  split; [|split].
  - apply (proj1 (Detector_init_contamination (1 # 10) 0 blank)).
    split; [reflexivity | discriminate].
  - apply (proj2 (Detector_init_contamination 0 0 blank)).
    left. discriminate.
  - apply (proj2 (Detector_init_contamination (6 # 10) 0 blank)).
    right. reflexivity.
Defined.

Section Construction.
Context {B : Backend} {H : Hooks}.

(** The constructor of [DeepDetector] runs the check of [Detector] first:
    a contamination out of range is reported whatever the other arguments
    are, and with a well-formed [num_neigh] a contamination in range gives
    a detector. *)
Lemma DeepDetector_init_contamination hd nl dr wd a bb c rate ep gpu bs nn v g
  se cm kw s0 :
  (c <= 0 \/ 1 # 2 < c ->
   exists msg,
     DeepDetector__init__ hd nl dr wd a bb c rate ep gpu bs nn v g se cm kw s0
     = Raise (ValueError msg))
  /\ (0 < c /\ c <= 1 # 2 -> forall n, nn = NeighInt n ->
      exists d,
        DeepDetector__init__ hd nl dr wd a bb c rate ep gpu bs nn v g se cm kw
          s0 = Ok d
        /\ contamination (super d) = Bound c).
Proof.
  unfold DeepDetector__init__. split.
  - intros Hout.
    destruct (Detector_init_out_of_range v blank Hout) as [msg E].
    rewrite E. eauto.
  - intros Hin n ->.
    rewrite (Detector_init_in_range v blank Hin).
    eexists. split; reflexivity.
Qed.

End Construction.

(** ** Vectorised operations, entry by entry *)

Lemma add_row_map {X} (c : X -> bool) (k : X -> nat) (xs : list X) :
  Tensor.add_row (map c xs) (map k xs)
  = map (fun x => if c x then S (k x) else k x) xs.
Proof.
  unfold Tensor.add_row. induction xs as [|x r IH]; simpl.
  - reflexivity.
  - f_equal. exact IH.
Qed.

(** Counting down the columns of the comparison matrix counts, for each
    test score, the training scores that are at most that score. *)
Lemma count_nonzero_le_matrix (train score : list Q) :
  Tensor.count_nonzero_dim0 (length score) (Tensor.le_matrix train score)
  = map (fun s => length (filter (fun t => Qle_bool t s) train)) score.
Proof.
  unfold Tensor.count_nonzero_dim0, Tensor.le_matrix.
  induction train as [|x r IH]; simpl.
  - induction score as [|s q IHs]; simpl; [reflexivity | f_equal; exact IHs].
  - rewrite IH, add_row_map. apply map_ext. intros s.
    destruct (Qle_bool x s); reflexivity.
Qed.

Lemma where_map {X} (c : X -> bool) (a b : X -> Q) (xs : list X) :
  Tensor.where_ (map c xs) (map a xs) (map b xs)
  = map (fun x => if c x then a x else b x) xs.
Proof.
  unfold Tensor.where_. induction xs as [|x r IH]; simpl.
  - reflexivity.
  - f_equal. exact IH.
Qed.

(** ** Confidence *)

Lemma inject_nat_nonneg (n : nat) : 0 <= inject_Z (Z.of_nat n).
Proof. change 0 with (inject_Z 0). rewrite <- Zle_Qle. lia. Qed.

(** What [_predict_conf] returns on a detector that has its three
    attributes, entry by entry. *)
Lemma predict_conf_run (d : Detector) (train : list Q) (c thr : Q)
  (score : list Q) :
  decision_score_ d = Bound train ->
  contamination d = Bound c ->
  threshold_ d = Bound thr ->
  _predict_conf score d
  = (Ok (map (confidence_at
                (Z.of_nat (length train)
                 - int (fmul (inject_Z (Z.of_nat (length train))) c))
                train thr) score), d).
Proof.
  intros Hds Hc Hthr.
  unfold _predict_conf, bind, get, lift, ret.
  rewrite Hds, Hc, Hthr. simpl.
  rewrite count_nonzero_le_matrix.
  unfold Tensor.gt_long. rewrite !map_map.
  rewrite (where_map
             (fun s => (0 =? (if Qgtb s thr then 1 else 0))%Z)
             (fun s => 1 - (1 - Scipy.binom_cdf _ (length train) _))
             (fun s => 1 - Scipy.binom_cdf _ (length train) _) score).
  f_equal. f_equal. apply map_ext. intros s. unfold confidence_at.
  destruct (Qgtb s thr); reflexivity.
Qed.

(** C5 (amended). On a fitted detector [_predict_conf] returns, for every
    entry [s] of the test scores, the confidence the specification
    describes, with the product [n * contamination] taken on floats:
    [k = n - floor(fmul n contamination)], [n_ins] the number of training
    scores at most [s], [post = (1 + n_ins) / (2 + n)],
    [conf = 1 - BinomialCDF(k; n, post)], and [conf] itself for a score
    above the threshold, [1 - conf] otherwise. The detector is not
    changed. *)
Theorem predict_conf_entry (d : Detector) (train : list Q) (c thr : Q)
  (score : list Q) :
  decision_score_ d = Bound train ->
  contamination d = Bound c ->
  threshold_ d = Bound thr ->
  0 <= c ->
  exists conf,
    _predict_conf score d = (Ok conf, d)
    /\ length conf = length score
    /\ forall i s, nth_error score i = Some s ->
         nth_error conf i = Some (confidence_float train c thr s)
         /\ (thr < s ->
             nth_error conf i =
               Some (1 - Scipy.binom_cdf
                           (Z.of_nat (length train)
                            - Qfloor (fmul (inject_Z (Z.of_nat (length train)))
                                        c))
                           (length train)
                           ((1 + inject_Z (Z.of_nat (length
                               (filter (fun t => Qle_bool t s) train))))
                            / (2 + inject_Z (Z.of_nat (length train))))))
         /\ (s <= thr ->
             nth_error conf i =
               Some (1 - (1 - Scipy.binom_cdf
                           (Z.of_nat (length train)
                            - Qfloor (fmul (inject_Z (Z.of_nat (length train)))
                                        c))
                           (length train)
                           ((1 + inject_Z (Z.of_nat (length
                               (filter (fun t => Qle_bool t s) train))))
                            / (2 + inject_Z (Z.of_nat (length train))))))).
Proof.
  intros Hds Hc Hthr Hc0.
  assert (Hint : int (fmul (inject_Z (Z.of_nat (length train))) c)
                 = Qfloor (fmul (inject_Z (Z.of_nat (length train))) c)).
  { apply int_floor. apply fmul_nonneg; [apply inject_nat_nonneg | exact Hc0]. }
  rewrite (@predict_conf_run d train c thr score Hds Hc Hthr), Hint.
  eexists. split; [reflexivity|]. split; [apply length_map|].
  intros i s Hi.
  assert (Hn : nth_error
                 (map (confidence_at
                         (Z.of_nat (length train)
                          - Qfloor (fmul (inject_Z (Z.of_nat (length train))) c))
                         train thr) score) i
               = Some (confidence_float train c thr s)).
  { rewrite nth_error_map, Hi. reflexivity. }
  split; [exact Hn|].
  split; intros Hcmp; rewrite Hn; unfold confidence_float, confidence_at;
    cbv zeta.
  - apply Qgtb_lt in Hcmp. rewrite Hcmp. reflexivity.
  - apply Qgtb_le in Hcmp. rewrite Hcmp. reflexivity.
Qed.

Lemma predict_conf_entry_witness :
  exists conf,
    _predict_conf [7; 2] five_scores = (Ok conf, five_scores)
    /\ nth_error conf 0
       = Some (confidence_float [3; 1; 2; 5; 4] (1 # 10) (23 # 5) 7)
    /\ nth_error conf 1
       = Some (confidence_float [3; 1; 2; 5; 4] (1 # 10) (23 # 5) 2).
Proof.
  destruct (@predict_conf_entry five_scores [3; 1; 2; 5; 4] (1 # 10) (23 # 5)
              [7; 2] eq_refl eq_refl eq_refl)
    as (conf & E & _ & Hent).
  - discriminate.
  - exists conf. split; [exact E|]. split.
    + exact (proj1 (Hent 0%nat 7 eq_refl)).
    + exact (proj1 (Hent 1%nat 2 eq_refl)).
Defined.

(** *** The product of the numbers is not the product of the floats *)

Lemma choose_pos n : forall k, (k <= n)%nat -> (0 < Scipy.choose n k)%Z.
Proof.
  induction n as [|n IH]; intros [|k] Hk; simpl; try lia.
  destruct (Nat.eq_dec k n) as [->|Hne].
  - pose proof (IH n (Nat.le_refl n)).
    assert (Hz : (0 <= Scipy.choose n (S n))%Z).
    { clear. revert n. assert (G : forall m j, (0 <= Scipy.choose m j)%Z).
      { induction m as [|m IHm]; intros [|j]; simpl; try lia.
        pose proof (IHm j). pose proof (IHm (S j)). lia. }
      intros n. apply G. }
    lia.
  - pose proof (IH k ltac:(lia)). pose proof (IH (S k) ltac:(lia)). lia.
Qed.

Lemma pmf_pos n p i :
  0 < p -> p < 1 -> (i <= n)%nat -> 0 < Scipy.pmf n p i.
Proof.
  intros H0 H1 Hi. unfold Scipy.pmf.
  assert (Hc : 0 < inject_Z (Scipy.choose n i)).
  { pose proof (@choose_pos n i Hi). unfold Qlt. simpl. lia. }
  assert (Hp : 0 < p ^ Z.of_nat i) by (apply Qpower_0_lt; exact H0).
  assert (Hq : 0 < (1 - p) ^ Z.of_nat (n - i)) by (apply Qpower_0_lt; lra).
  assert (Hcp : 0 < inject_Z (Scipy.choose n i) * p ^ Z.of_nat i)
    by (apply Qmult_lt_0_compat; assumption).
  apply Qmult_lt_0_compat; assumption.
Qed.

(** One more success allowed adds the probability of exactly that
    many. *)
Lemma binom_cdf_succ (k : nat) n p :
  (S k <= n)%nat ->
  Scipy.binom_cdf (Z.of_nat (S k)) n p
  = Scipy.binom_cdf (Z.of_nat k) n p + Scipy.pmf n p (S k).
Proof.
  intros Hk. unfold Scipy.binom_cdf.
  assert (E1 : (Z.of_nat (S k) <? 0)%Z = false) by (apply Z.ltb_ge; lia).
  assert (E2 : (Z.of_nat k <? 0)%Z = false) by (apply Z.ltb_ge; lia).
  rewrite E1, E2, !Nat2Z.id.
  rewrite (Nat.min_l (S k) n) by lia. rewrite (Nat.min_l k n) by lia.
  reflexivity.
Qed.

(** The claim as it is written fails on a detector with a hundred
    training scores and contamination 0.29: Python gets
    [int(100 * 0.29) = 28], so [k] is 72, where the product of the
    numbers gives 29 and [k = 71]; the confidence returned for the score
    50 is not the one the formula of the claim gives. *)
Lemma predict_conf_exact_product_fails :
  exists thr conf,
    threshold_ hundred_scores = Bound thr
    /\ _predict_conf [50] hundred_scores = (Ok [conf], hundred_scores)
    /\ ~ conf == confidence_of one_to_hundred (29 # 100) thr 50.
Proof.
  eexists. eexists. split; [reflexivity|].
  split;
    [exact (@predict_conf_run hundred_scores one_to_hundred (29 # 100) _ [50]
              eq_refl eq_refl eq_refl)|].
  assert (Hlen : length one_to_hundred = 100%nat) by reflexivity.
  unfold confidence_of. rewrite Hlen.
  assert (Hk1 : (Z.of_nat 100 - int (fmul (inject_Z (Z.of_nat 100)) (29 # 100))
                 = Z.of_nat 72)%Z) by (vm_compute; reflexivity).
  assert (Hk2 : (Z.of_nat 100
                 - Qfloor (inject_Z (Z.of_nat 100) * (29 # 100))
                 = Z.of_nat 71)%Z) by (vm_compute; reflexivity).
  rewrite Hk1, Hk2. unfold confidence_at. cbv zeta. rewrite Hlen.
  match goal with
  | |- context [Qgtb 50 ?t] =>
      assert (Hg : Qgtb 50 t = false) by (vm_compute; reflexivity);
      rewrite Hg
  end.
  set (post := (1 + inject_Z (Z.of_nat (length
                  (filter (fun t => Qle_bool t 50) one_to_hundred))))
               / (2 + inject_Z (Z.of_nat 100))).
  assert (Hp0 : 0 < post) by (vm_compute; reflexivity).
  assert (Hp1 : post < 1) by (vm_compute; reflexivity).
  rewrite (@binom_cdf_succ 71 100 post) by lia.
  pose proof (@pmf_pos 100 post 72 Hp0 Hp1 ltac:(lia)) as Hpos.
  intros Heq. lra.
Qed.

(** ** Linear probability *)

Lemma fold_min_spec r : forall x,
  (fold_left Qmin' r x <= x
   /\ forall y, In y r -> fold_left Qmin' r x <= y)
  /\ (fold_left Qmin' r x = x \/ In (fold_left Qmin' r x) r).
Proof.
  induction r as [|y r IH]; intros x; simpl.
  - split; [split; [apply Qle_refl | tauto] | auto].
  - destruct (IH (Qmin' x y)) as [[H1 H2] H3].
    assert (Hm : Qmin' x y <= x /\ Qmin' x y <= y
                 /\ (Qmin' x y = x \/ Qmin' x y = y)).
    { unfold Qmin'. destruct (Qle_bool x y) eqn:E.
      - apply Qle_bool_iff in E. repeat split; auto; apply Qle_refl.
      - repeat split; auto; try apply Qle_refl.
        apply Qlt_le_weak. apply Qgtb_lt. unfold Qgtb. rewrite E. reflexivity. }
    destruct Hm as (Hx & Hy & Hsel).
    split; [split|].
    + eapply Qle_trans; eauto.
    + intros z [<-|Hz]; [eapply Qle_trans; eauto | auto].
    + destruct H3 as [H3|H3]; [|auto].
      rewrite H3. destruct Hsel as [->| ->]; auto.
Qed.

Lemma fold_max_spec r : forall x,
  (x <= fold_left Qmax' r x
   /\ forall y, In y r -> y <= fold_left Qmax' r x)
  /\ (fold_left Qmax' r x = x \/ In (fold_left Qmax' r x) r).
Proof.
  induction r as [|y r IH]; intros x; simpl.
  - split; [split; [apply Qle_refl | tauto] | auto].
  - destruct (IH (Qmax' x y)) as [[H1 H2] H3].
    assert (Hm : x <= Qmax' x y /\ y <= Qmax' x y
                 /\ (Qmax' x y = x \/ Qmax' x y = y)).
    { unfold Qmax'. destruct (Qle_bool x y) eqn:E.
      - apply Qle_bool_iff in E. repeat split; auto; apply Qle_refl.
      - repeat split; auto; try apply Qle_refl.
        apply Qlt_le_weak. apply Qgtb_lt. unfold Qgtb. rewrite E. reflexivity. }
    destruct Hm as (Hx & Hy & Hsel).
    split; [split|].
    + eapply Qle_trans; eauto.
    + intros z [<-|Hz]; [eapply Qle_trans; eauto | auto].
    + destruct H3 as [H3|H3]; [|auto].
      rewrite H3. destruct Hsel as [->| ->]; auto.
Qed.

(** [Tensor.min] is an entry of the tensor below all its entries. *)
Lemma tensor_min_spec t lo :
  Tensor.min t = Some lo -> In lo t /\ forall x, In x t -> lo <= x.
Proof.
  destruct t as [|x r]; simpl; [discriminate|]. intros E. injection E as <-.
  destruct (fold_min_spec r x) as [[H1 H2] H3]. split.
  - destruct H3 as [->|H3]; auto.
  - intros y [<-|Hy]; auto.
Qed.

(** [Tensor.max] is an entry of the tensor above all its entries. *)
Lemma tensor_max_spec t hi :
  Tensor.max t = Some hi -> In hi t /\ forall x, In x t -> x <= hi.
Proof.
  destruct t as [|x r]; simpl; [discriminate|]. intros E. injection E as <-.
  destruct (fold_max_spec r x) as [[H1 H2] H3]. split.
  - destruct H3 as [->|H3]; auto.
  - intros y [<-|Hy]; auto.
Qed.

(** The clamp keeps a value between its bounds and moves it to the nearer
    bound otherwise. *)
Lemma clamp1_spec x :
  (x <= 0 -> Tensor.clamp1 0 1 x == 0)
  /\ (0 <= x /\ x <= 1 -> Tensor.clamp1 0 1 x == x)
  /\ (1 <= x -> Tensor.clamp1 0 1 x == 1).
Proof.
  unfold Tensor.clamp1, Qmax', Qmin'.
  destruct (Qle_bool x 0) eqn:E0.
  - apply Qle_bool_iff in E0. simpl. repeat split; intros; lra.
  - assert (H0 : 0 < x) by (apply Qgtb_lt; unfold Qgtb; rewrite E0; reflexivity).
    destruct (Qle_bool x 1) eqn:E1.
    + apply Qle_bool_iff in E1. repeat split; intros; lra.
    + assert (H1 : 1 < x)
        by (apply Qgtb_lt; unfold Qgtb; rewrite E1; reflexivity).
      repeat split; intros; lra.
Qed.

Section LinearProbability.
Context {B : Backend}.

Lemma predict_prob_linear_run (d : Detector) (train score : list Q) lo hi :
  decision_score_ d = Bound train ->
  Tensor.min train = Some lo ->
  Tensor.max train = Some hi ->
  _predict_prob score "linear" d
  = (Ok (map (fun s => Tensor.clamp1 0 1 ((s - lo) / (hi - lo))) score), d).
Proof.
  intros Hds Hlo Hhi. unfold _predict_prob, bind, get, lift, ret. simpl.
  rewrite Hds. simpl. rewrite Hlo, Hhi. simpl.
  unfold Tensor.clamp. rewrite !map_map. reflexivity.
Qed.

(** C6. On a fitted detector whose training scores are not all equal, the
    linear probability of every score [s] is
    [clamp((s - lo) / (hi - lo), 0, 1)], where [lo] and [hi] are the least
    and the greatest of the stored training scores; and with the training
    scores [0, 10] the scores 5, -5 and 15 get the probabilities 0.5, 0
    and 1. Where all training scores are equal the quotient has the
    divisor zero and torch returns an infinity or a NaN, which is outside
    the rationals: the theorem does not speak of that case. *)
Theorem predict_prob_linear (d : Detector) (train score : list Q) :
  decision_score_ d = Bound train ->
  (exists x y, In x train /\ In y train /\ x < y) ->
  (exists lo hi,
     (In lo train /\ forall x, In x train -> lo <= x)
     /\ (In hi train /\ forall x, In x train -> x <= hi)
     /\ lo < hi
     /\ _predict_prob score "linear" d
        = (Ok (map (fun s => Tensor.clamp1 0 1 ((s - lo) / (hi - lo))) score),
           d))
  /\ (train = [0; 10] ->
      exists p,
        _predict_prob [5; -5 # 1; 15] "linear" d = (Ok p, d)
        /\ map Qred p = [1 # 2; 0; 1]).
Proof.
  intros Hds (x & y & Hx & Hy & Hxy). split.
  - destruct (Tensor.min train) as [lo|] eqn:Hlo;
      [|destruct train; [contradiction | discriminate]].
    destruct (Tensor.max train) as [hi|] eqn:Hhi;
      [|destruct train; [contradiction | discriminate]].
    exists lo, hi.
    pose proof (tensor_min_spec _ Hlo) as Hmin.
    pose proof (tensor_max_spec _ Hhi) as Hmax.
    split; [exact Hmin|]. split; [exact Hmax|]. split.
    + apply Qle_lt_trans with x; [apply Hmin; exact Hx|].
      apply Qlt_le_trans with y; [exact Hxy | apply Hmax; exact Hy].
    + exact (@predict_prob_linear_run d train score lo hi Hds Hlo Hhi).
  - intros ->. eexists. split.
    + exact (@predict_prob_linear_run d [0; 10] _ 0 10 Hds eq_refl eq_refl).
    + reflexivity.
Qed.

End LinearProbability.

Lemma predict_prob_linear_witness :
  exists p,
    _predict_prob (B := Toy.backend) [5; -5 # 1; 15] "linear"
      (set_decision_score_ (Bound [0; 10]) five_scores)
    = (Ok p, set_decision_score_ (Bound [0; 10]) five_scores)
    /\ map Qred p = [1 # 2; 0; 1].
Proof.
  apply (proj2 (@predict_prob_linear Toy.backend
                  (set_decision_score_ (Bound [0; 10]) five_scores)
                  [0; 10] [5; -5 # 1; 15] eq_refl
                  ltac:(exists 0, 10; simpl; repeat split; auto;
                        reflexivity))).
  reflexivity.
Defined.

(** * The training loop *)

Section Training.
Context {B : Backend} {H : Hooks}.

Lemma emits_keeps {A} (m : M World A) : keeps trace_gan m -> emits [] m.
Proof.
  intros K w a w' Hg E. apply K in E. unfold trace_gan in E.
  injection E as Et Eg. rewrite app_nil_r. split; congruence.
Qed.

Lemma emits_bind {A C} es1 es2 (m : M World A) (k : A -> M World C) :
  emits es1 m -> (forall a, emits es2 (k a)) -> emits (es1 ++ es2) (bind m k).
Proof.
  intros Hm Hk w c w' Hg E. apply bind_ok in E.
  destruct E as (a & w1 & E1 & E2).
  destruct (Hm _ _ _ Hg E1) as [T1 G1].
  destruct (Hk a _ _ _ G1 E2) as [T2 G2].
  split; [|exact G2]. rewrite T2, T1, app_assoc. reflexivity.
Qed.

Lemma emits_bind_keeps {A C} es (m : M World A) (k : A -> M World C) :
  keeps trace_gan m -> (forall a, emits es (k a)) -> emits es (bind m k).
Proof.
  intros Hm Hk. apply (@emits_bind A C [] es); [apply emits_keeps; exact Hm|].
  exact Hk.
Qed.

Lemma emits_read_gan {C} es (k : bool -> M World C) :
  emits es (k true) -> emits es (bind (read gan) k).
Proof.
  intros Hk w c w' Hg E. unfold bind, read in E. rewrite Hg in E.
  exact (Hk _ _ _ Hg E).
Qed.

Lemma emits_emit e : emits [e] (emit e).
Proof.
  intros w a w' Hg E. unfold emit, modify in E. injection E as _ <-.
  split; [reflexivity | exact Hg].
Qed.

Lemma emits_ret {A} (a : A) : emits [] (ret a).
Proof. apply emits_keeps. apply keeps_ret. Qed.

Lemma emits_opt_zero_grad g o : emits [ZeroGrad g] (opt_zero_grad g o).
Proof.
  unfold opt_zero_grad.
  apply emits_bind_keeps; [keeps_tac | intros m].
  apply emits_bind_keeps; [keeps_tac | intros _]. apply emits_emit.
Qed.

Lemma emits_loss_backward c l : emits [Backward c] (loss_backward c l).
Proof.
  unfold loss_backward.
  apply emits_bind_keeps; [keeps_tac | intros m].
  apply emits_bind_keeps; [keeps_tac | intros m'].
  apply emits_bind_keeps; [keeps_tac | intros _]. apply emits_emit.
Qed.

Lemma emits_opt_step g o : emits [Step g] (opt_step g o).
Proof.
  unfold opt_step.
  apply emits_bind_keeps; [keeps_tac | intros m].
  destruct (step o m) as [o' m'].
  apply emits_bind_keeps; [keeps_tac | intros _].
  apply (@emits_bind _ _ [Step g] []); [apply emits_emit | intros _].
  apply emits_ret.
Qed.

(** C1 (fails on the code). On a detector with [gan] set, every training
    batch that completes has made exactly these optimizer calls: the
    generator optimizer is zeroed, [loss[0]] is back-propagated, the
    generator optimizer steps; the discriminator optimizer is zeroed,
    [loss[0]] is back-propagated once more, and the discriminator optimizer
    steps. The discriminator loss [loss[1]] is never back-propagated. *)
Theorem fit_batch_gan_trace (l : Locals) (sampled_data : SampledData.t Sampled)
  (w w' : World) (l' : Locals) :
  gan (self w) = true ->
  fit_batch l sampled_data w = (Ok l', w') ->
  trace w' = trace w ++ gan_batch_events
  /\ ~ In (Backward (Some 1%nat)) gan_batch_events.
Proof.
  intros Hg E. split.
  - assert (Hem : emits gan_batch_events (fit_batch l sampled_data)).
    { unfold fit_batch.
      apply emits_bind_keeps; [keeps_tac | intros [loss score]].
      apply emits_read_gan.
      apply emits_bind_keeps; [keeps_tac | intros l1].
      apply emits_bind_keeps; [keeps_tac | intros se].
      apply emits_bind_keeps; [keeps_tac | intros _].
      apply emits_bind_keeps; [keeps_tac | intros ds].
      apply emits_bind_keeps; [keeps_tac | intros ds1].
      apply emits_bind_keeps; [keeps_tac | intros ds2].
      apply emits_bind_keeps; [keeps_tac | intros _].
      apply emits_read_gan.
      apply emits_bind_keeps; [keeps_tac | intros og].
      apply (@emits_bind _ _ [ZeroGrad Generator]);
        [apply emits_opt_zero_grad | intros _].
      apply emits_bind_keeps; [keeps_tac | intros l0].
      apply (@emits_bind _ _ [Backward (Some 0%nat)]);
        [apply emits_loss_backward | intros _].
      apply (@emits_bind _ _ [Step Generator]);
        [apply emits_opt_step | intros og'].
      apply emits_bind_keeps; [keeps_tac | intros od].
      apply (@emits_bind _ _ [ZeroGrad Discriminator]);
        [apply emits_opt_zero_grad | intros _].
      apply emits_bind_keeps; [keeps_tac | intros l0'].
      apply (@emits_bind _ _ [Backward (Some 0%nat)]);
        [apply emits_loss_backward | intros _].
      apply (@emits_bind _ _ [Step Discriminator] []);
        [apply emits_opt_step | intros od'].
      apply emits_ret. }
    exact (proj1 (Hem _ _ _ Hg E)).
  - unfold gan_batch_events. simpl. intros Hin.
    repeat (destruct Hin as [Hin|Hin]; [discriminate|]). exact Hin.
Qed.

End Training.

Lemma fit_batch_gan_trace_witness :
  exists l' w',
    fit_batch (H := Toy.hooks) Toy.gan_locals (Toy.full_batch [3; 1; 2; 5; 4])
      (mkWorld Toy.gan_detector []) = (Ok l', w')
    /\ trace w' = gan_batch_events
    /\ decision_score_ (super (self w')) = Bound [3; 1; 2; 5; 4].
Proof.
  eexists. eexists.
  assert (E : fit_batch (H := Toy.hooks) Toy.gan_locals (Toy.full_batch [3; 1; 2; 5; 4])
                (mkWorld Toy.gan_detector [])
              = (Ok (@mkLocals Toy.backend None (Some Generator) (Some Discriminator) None
                       (Some (0 + 1 * inject_Z 5)) (Some (0 + 2 * inject_Z 5))),
                 mkWorld
                   (set_owned (@mkOwned Toy.backend (Bound 2%nat) Missing O)
                      (set_super
                         (set_decision_score_ (Bound [3; 1; 2; 5; 4])
                            (super Toy.gan_detector)) Toy.gan_detector))
                   gan_batch_events)) by reflexivity.
  split; [exact E|]. split.
  - exact (proj1 (fit_batch_gan_trace (H := Toy.hooks) _ _
                  (mkWorld Toy.gan_detector []) eq_refl E)).
  - reflexivity.
Defined.

(** * Threshold and labels *)

(** What a completed [_process_decision_score] has done. *)
Lemma process_decision_score_ok (d d' : Detector) :
  _process_decision_score d = (Ok tt, d') ->
  exists score c t,
    decision_score_ d = Bound score
    /\ contamination d = Bound c
    /\ Numpy.percentile score (100 * (1 - c)) = Some t
    /\ d' = mkDetector (Bound c) (verbose d) (Bound score) (Bound t)
              (Bound (Tensor.gt_long score t)).
Proof.
  unfold _process_decision_score, bind, get, lift, modify. simpl.
  destruct (decision_score_ d) as [| |score] eqn:Es; simpl; try discriminate.
  destruct (contamination d) as [| |c] eqn:Ec; simpl; try discriminate.
  destruct (Numpy.percentile score (100 * (1 - c))) as [t|] eqn:Et; simpl;
    try discriminate.
  try rewrite Es. simpl. intros E. injection E as <-.
  exists score, c, t. repeat split; auto.
  unfold set_label_, set_threshold_. simpl. rewrite Es, Ec. reflexivity.
Qed.

Lemma keeps_contamination_process :
  keeps contamination _process_decision_score.
Proof. unfold _process_decision_score. keeps_tac. Qed.

(** Entry by entry, the labels compare the scores with the threshold. *)
Lemma gt_long_entry (score : list Q) (thr : Q) (i : nat) (s : Q) :
  nth_error score i = Some s ->
  (nth_error (Tensor.gt_long score thr) i = Some 1%Z <-> thr < s)
  /\ (nth_error (Tensor.gt_long score thr) i = Some 0%Z <-> s <= thr).
Proof.
  intros Hi. unfold Tensor.gt_long. rewrite nth_error_map, Hi. simpl.
  destruct (Qgtb s thr) eqn:E.
  - apply Qgtb_lt in E as Hlt. split; split; intros Hx; auto; try discriminate.
    exfalso. exact (Qlt_not_le _ _ Hlt Hx).
  - apply Qgtb_le in E as Hle. split; split; intros Hx; auto; try discriminate.
    exfalso. exact (Qlt_not_le _ _ Hx Hle).
Qed.

Section Fitted.
Context {B : Backend} {H : Hooks}.

(** A [fit] that returns has ended in [_process_decision_score]. *)
Lemma fit_ends_in_process data label w w' :
  fit data label w = (Ok tt, w') ->
  exists w1 d',
    _process_decision_score (super (self w1)) = (Ok tt, d')
    /\ w' = mkWorld (set_super d' (self w1)) (trace w1).
Proof.
  unfold fit. intros E.
  apply bind_ok in E. destruct E as (data' & s0 & _ & E). cbv beta in E.
  destruct (x_shape data') as [n dim].
  repeat (apply bind_ok in E; destruct E as (? & ? & _ & E); cbv beta in E).
  unfold on_super in E.
  match type of E with
  | (let (_, _) := _process_decision_score (super (self ?s)) in _) = _ =>
      destruct (_process_decision_score (super (self s))) as [r d'] eqn:Ep;
      exists s, d'
  end.
  injection E as -> <-. auto.
Qed.

Lemma fit_keeps_contamination data label :
  keeps contamination_of (fit data label).
Proof.
  unfold fit. keeps_tac; intros w d r E; unfold contamination_of; simpl;
    first [ injection E as _ <-; reflexivity
          | exact (keeps_contamination_process _ E) ].
Qed.

(** The fitted state a [fit] that returns has left. *)
Lemma fit_ok data label w w' :
  fit data label w = (Ok tt, w') ->
  exists score c t,
    contamination (super (self w)) = Bound c
    /\ contamination (super (self w')) = Bound c
    /\ decision_score_ (super (self w')) = Bound score
    /\ Numpy.percentile score (100 * (1 - c)) = Some t
    /\ threshold_ (super (self w')) = Bound t
    /\ label_ (super (self w')) = Bound (Tensor.gt_long score t).
Proof.
  intros E. pose proof (fit_keeps_contamination data label _ E) as Hc.
  unfold contamination_of in Hc.
  apply fit_ends_in_process in E. destruct E as (w1 & d' & Ep & ->).
  apply process_decision_score_ok in Ep.
  destruct Ep as (score & c & t & _ & _ & Ht & ->).
  simpl in *. exists score, c, t. rewrite <- Hc. auto 10.
Qed.

(** C2. After a [fit] that returns, whatever state the detector was in
    before, [threshold_] is the percentile [100 * (1 - contamination)] of
    the stored [decision_score_], interpolated linearly between order
    statistics; for the scores 1, ..., 100 and contamination 0.1 that
    percentile is 90.1. *)
Theorem fit_threshold data label w w' :
  fit data label w = (Ok tt, w') ->
  (exists score c t,
     contamination (super (self w)) = Bound c
     /\ decision_score_ (super (self w')) = Bound score
     /\ threshold_ (super (self w')) = Bound t
     /\ Numpy.percentile score (100 * (1 - c)) = Some t
     /\ interpolates score (100 * (1 - c)) t)
  /\ option_map Qred (Numpy.percentile one_to_hundred (100 * (1 - (1 # 10))))
     = Some (901 # 10).
Proof.
  intros E. split; [|vm_compute; reflexivity].
  apply fit_ok in E. destruct E as (score & c & t & H1 & _ & H3 & H4 & H5 & _).
  exists score, c, t. repeat split; auto.
  apply percentile_order_statistics in H4. tauto.
Qed.

(** C3. After a [fit] that returns, [label_] has an entry for every node,
    1 exactly where the score is strictly above [threshold_] and 0 exactly
    where it is at most the threshold. *)
Theorem fit_label data label w w' :
  fit data label w = (Ok tt, w') ->
  exists score thr lab,
    decision_score_ (super (self w')) = Bound score
    /\ threshold_ (super (self w')) = Bound thr
    /\ label_ (super (self w')) = Bound lab
    /\ length lab = length score
    /\ forall i s, nth_error score i = Some s ->
         (nth_error lab i = Some 1%Z <-> thr < s)
         /\ (nth_error lab i = Some 0%Z <-> s <= thr).
Proof.
  intros E.
  apply fit_ok in E. destruct E as (score & c & t & _ & _ & H3 & _ & H5 & H6).
  exists score, t, (Tensor.gt_long score t).
  split; [exact H3|]. split; [exact H5|]. split; [exact H6|].
  split; [apply gt_long_length|].
  intros i s Hi. apply gt_long_entry. exact Hi.
Qed.

End Fitted.

Lemma toy_fit_run :
  fit (H := Toy.hooks) (Toy.graph [3; 1; 2; 5; 4]) None toy_start
  = (Ok tt, toy_fitted).
Proof. vm_compute. reflexivity. Qed.

Lemma fit_threshold_witness :
  (exists score c t,
     contamination (super (self toy_start)) = Bound c
     /\ decision_score_ (super (self toy_fitted)) = Bound score
     /\ threshold_ (super (self toy_fitted)) = Bound t
     /\ Numpy.percentile score (100 * (1 - c)) = Some t
     /\ interpolates score (100 * (1 - c)) t)
  /\ option_map Qred (Numpy.percentile one_to_hundred (100 * (1 - (1 # 10))))
     = Some (901 # 10).
Proof.
  apply (fit_threshold (H := Toy.hooks) (Toy.graph [3; 1; 2; 5; 4]) None
           toy_start).
  vm_compute. reflexivity.
Defined.

Lemma fit_label_witness :
  exists score thr lab,
    decision_score_ (super (self toy_fitted)) = Bound score
    /\ threshold_ (super (self toy_fitted)) = Bound thr
    /\ label_ (super (self toy_fitted)) = Bound lab
    /\ length lab = length score
    /\ forall i s, nth_error score i = Some s ->
         (nth_error lab i = Some 1%Z <-> thr < s)
         /\ (nth_error lab i = Some 0%Z <-> s <= thr).
Proof.
  apply (fit_label (H := Toy.hooks) (Toy.graph [3; 1; 2; 5; 4]) None
           toy_start).
  vm_compute. reflexivity.
Defined.

(** * What the calls on a detector change *)

Lemma read_ok {B : Backend} {A} (g : DeepDetector -> A) w a w' :
  read g w = (Ok a, w') -> a = g (self w) /\ w' = w.
Proof. unfold read. intros E. injection E as <- <-. auto. Qed.

Lemma call_ok {B : Backend} {X A}
  (hook : DeepDetector -> X -> Result A * Owned) x w a w' :
  call hook x w = (Ok a, w') -> fst (hook (self w) x) = Ok a.
Proof.
  unfold call. destruct (hook (self w) x) as [r o]. intros E.
  injection E as -> _. reflexivity.
Qed.

Lemma bind_inv {S A C} (m : M S A) (k : A -> M S C) s r s' :
  bind m k s = (r, s') ->
  (exists a s1, m s = (Ok a, s1) /\ k a s1 = (r, s'))
  \/ (exists e, m s = (Raise e, s') /\ r = Raise e).
Proof.
  unfold bind. destruct (m s) as [[a|e] s1]; intros E.
  - left. eauto.
  - right. injection E as <- <-. eauto.
Qed.

Section Calls.
Context {B : Backend} {H : Hooks}.

(** ** decision_function *)

(** A batch of [decision_function] writes into the score vector in
    place: its length stays. *)
Lemma decision_batch_length l score sampled_data w l' score' w' :
  decision_batch (l, score) sampled_data w = (Ok (l', score'), w') ->
  length score' = length score.
Proof.
  unfold decision_batch. intros E.
  apply bind_ok in E. destruct E as ([loss sc] & s0 & _ & E). cbv beta iota in E.
  do 3 (apply bind_ok in E; destruct E as (? & ? & _ & E); cbv beta in E).
  apply bind_ok in E. destruct E as (l1 & s4 & _ & E). cbv beta in E.
  apply bind_ok in E. destruct E as (out & s5 & E1 & E). cbv beta in E.
  apply lift_ok in E1. destruct E1 as [E1 _]. apply of_option_ok in E1.
  apply index_put_length in E1.
  unfold ret in E. injection E as _ <- _. exact E1.
Qed.

Lemma decision_loop_length batches : forall l score w l' score' w',
  for_each batches decision_batch (l, score) w = (Ok (l', score'), w') ->
  length score' = length score.
Proof.
  induction batches as [|b r IH]; simpl; intros l score w l' score' w' E.
  - unfold ret in E. injection E as _ <- _. reflexivity.
  - apply bind_ok in E. destruct E as ([l1 score1] & w1 & E1 & E).
    apply decision_batch_length in E1. apply IH in E. congruence.
Qed.

(** The vector a completed [decision_function] returns has one entry per
    node of the graph handed in, as [process_graph] left it. *)
Lemma decision_function_length data label w score w' :
  decision_function data label w = (Ok score, w') ->
  exists data',
    fst (process_graph (self w) data) = Ok data'
    /\ length score = fst (x_shape data').
Proof.
  unfold decision_function. intros E.
  apply bind_ok in E. destruct E as (data' & s0 & E0 & E). cbv beta in E.
  apply call_ok in E0. exists data'. split; [exact E0|].
  do 8 (apply bind_ok in E; destruct E as (? & ? & _ & E); cbv beta zeta in E).
  apply bind_ok in E. destruct E as ([l1 out] & s8 & Eloop & E).
  cbv beta iota in E.
  apply decision_loop_length in Eloop. rewrite zeros_length in Eloop.
  do 3 (apply bind_ok in E; destruct E as (? & ? & _ & E); cbv beta in E).
  unfold ret in E. injection E as <- _. exact Eloop.
Qed.

Lemma decision_function_keeps_fitted data label :
  keeps fitted_frame (decision_function data label).
Proof. unfold decision_function. keeps_tac. Qed.

Lemma keeps_detector_predict_prob {Bk : Backend} score method :
  keeps (fun d : Detector => d) (_predict_prob score method).
Proof. unfold _predict_prob. keeps_tac. Qed.

Lemma keeps_detector_predict_conf score :
  keeps (fun d : Detector => d) (_predict_conf score).
Proof. unfold _predict_conf. keeps_tac. Qed.

(** C9 (amended). However a call of [decision_function] ends, the stored
    [decision_score_] is what it was before the call: the scores of the new
    graph are returned to the caller and not kept in the detector. *)
Theorem decision_function_keeps_score data label w r w' :
  decision_function data label w = (r, w') ->
  decision_score_ (super (self w')) = decision_score_ (super (self w)).
Proof.
  intros E.
  assert (K : keeps stored_score (decision_function data label))
    by (unfold decision_function; keeps_tac).
  exact (K _ _ _ E).
Qed.

End Calls.

(** ** decision_function on a GADNR *)

Section NoScores.
Context {B : Backend} {H : Hooks}.

(** Where [forward_model] gives the base class no pair of a loss and
    scores, a [decision_function] whose loader yields a batch does not
    return. *)
Lemma decision_function_needs_forward data label w r w' data' loader b rest :
  (forall d sampled_data,
     exists e o, forward_model d sampled_data = (Raise e, o)) ->
  decision_function data label w = (r, w') ->
  fst (process_graph (self w) data) = Ok data' ->
  NeighborLoader data' (num_neigh (self w)) (batch_size (self w)) = Ok loader ->
  loader 0%nat = b :: rest ->
  exists e, r = Raise e.
Proof.
  intros Hfw E Hpg Hload Hb. unfold decision_function in E.
  apply bind_inv in E. destruct E as [(d2 & w1 & E1 & E) | (e & _ & ->)];
    [|eauto].
  unfold call in E1.
  destruct (process_graph (self w) data) as [r0 o0]. simpl in Hpg. subst r0.
  injection E1 as <- <-. cbv beta in E.
  apply bind_inv in E. destruct E as [(nn & w2 & E2 & E) | (e & _ & ->)];
    [|eauto].
  apply read_ok in E2. destruct E2 as [-> ->]. cbv beta in E.
  apply bind_inv in E. destruct E as [(bs & w3 & E3 & E) | (e & _ & ->)];
    [|eauto].
  apply read_ok in E3. destruct E3 as [-> ->]. cbv beta in E.
  apply bind_inv in E. destruct E as [(ld & w4 & E4 & E) | (e & _ & ->)];
    [|eauto].
  apply lift_ok in E4. destruct E4 as [E4 ->]. simpl in E4.
  rewrite Hload in E4. injection E4 as <-. cbv beta in E.
  do 5 (apply bind_inv in E;
        destruct E as [(? & ? & _ & E) | (? & _ & ->)]; [|eauto];
        cbv beta zeta in E).
  apply bind_inv in E. destruct E as [(st & w5 & E5 & _) | (e & _ & ->)];
    [|eauto].
  exfalso. rewrite Hb in E5. simpl in E5.
  apply bind_ok in E5. destruct E5 as (st1 & w6 & E6 & _).
  unfold decision_batch in E6.
  apply bind_ok in E6. destruct E6 as (ls & w7 & E7 & _).
  apply call_ok in E7.
  match type of E7 with
  | fst (forward_model ?d ?x) = _ => destruct (Hfw d x) as (e & o & He)
  end.
  rewrite He in E7. discriminate E7.
Qed.

End NoScores.

Section GadnrCalls.
Context {B : Backend}.
Variable GADNR_process_graph : DeepDetector -> Data -> Result Data * Owned.
Variable GADNR_init_model : DeepDetector -> Opaque -> Result Model * Owned.
Variable GADNR_forward_model :
  DeepDetector -> SampledData.t Sampled -> Result FiveValues * Owned.
Variable GADNR_sub_attr : Sub -> string -> Attr Q.

(** C8. On a GADNR the claim fails: [decision_function], which GADNR
    inherits, unpacks two values from a [forward_model] that returns
    five, so a call whose loader yields a batch never returns the scores
    of the graph; it raises. [threshold_] and [label_] are then what they
    were, which is the part of the claim that holds however a call
    ends. *)
Theorem GADNR_decision_function_raises data label w r w' data' loader b rest :
  decision_function
    (H := GADNR_hooks GADNR_process_graph GADNR_init_model
            GADNR_forward_model GADNR_sub_attr) data label w = (r, w') ->
  fst (GADNR_process_graph (self w) data) = Ok data' ->
  NeighborLoader data' (num_neigh (self w)) (batch_size (self w)) = Ok loader ->
  loader 0%nat = b :: rest ->
  (exists e, r = Raise e)
  /\ threshold_ (super (self w')) = threshold_ (super (self w))
  /\ label_ (super (self w')) = label_ (super (self w)).
Proof.
  intros E Hpg Hload Hb. split.
  - refine (@decision_function_needs_forward B
              (GADNR_hooks GADNR_process_graph GADNR_init_model
                 GADNR_forward_model GADNR_sub_attr)
              data label w r w' data' loader b rest _ E Hpg Hload Hb).
    intros d sampled_data. simpl.
    destruct (GADNR_forward_model d sampled_data) as [[v|e] o];
      do 2 eexists; reflexivity.
  - pose proof (@decision_function_keeps_fitted B
                  (GADNR_hooks GADNR_process_graph GADNR_init_model
                     GADNR_forward_model GADNR_sub_attr)
                  data label _ _ _ E) as K.
    unfold fitted_frame in K. injection K as Kt Kl. auto.
Qed.

End GadnrCalls.

Section Parameters.
Context {B : Backend} {H : Hooks}.

Lemma decision_function_keeps {T} (f : World -> T) data label :
  (forall w o, f (mkWorld (set_owned o (self w)) (trace w)) = f w) ->
  (forall w e, f (mkWorld (self w) (trace w ++ [e])) = f w) ->
  keeps f (decision_function data label).
Proof.
  intros Ho He. unfold decision_function.
  keeps_tac; solve [ intros; apply Ho | intros; apply He ].
Qed.

Lemma detector_predict_keeps {T} (f : World -> T) data label rp rs rpr pm rc :
  (forall w o, f (mkWorld (set_owned o (self w)) (trace w)) = f w) ->
  (forall w e, f (mkWorld (self w) (trace w ++ [e])) = f w) ->
  (forall w, f (mkWorld (set_super (super (self w)) (self w)) (trace w)) = f w) ->
  keeps f (Detector_predict data label rp rs rpr pm rc).
Proof.
  intros Ho He Hs. unfold Detector_predict.
  keeps_tac;
    try solve [ intros; apply Ho | intros; apply He
              | apply decision_function_keeps; assumption ].
  - intros w d r E. apply keeps_detector_predict_prob in E. subst d. apply Hs.
  - intros w d r E. apply keeps_detector_predict_conf in E. subst d. apply Hs.
Qed.

Lemma fit_keeps_config data label : keeps config (fit data label).
Proof. unfold fit. keeps_tac. Qed.

Lemma fit_keeps_save_emb data label : keeps save_emb_of (fit data label).
Proof. unfold fit. keeps_tac. Qed.

(** [fit] assigns [batch_size] in one case: it was 0 and becomes the
    number of nodes. *)
Lemma fit_batch_size data label w r w' :
  fit data label w = (r, w') ->
  batch_size (self w') = batch_size (self w)
  \/ (batch_size (self w) = 0%Z
      /\ exists data',
           fst (process_graph (self w) data) = Ok data'
           /\ batch_size (self w') = Z.of_nat (fst (x_shape data'))).
Proof.
  unfold fit. intros E.
  apply bind_inv in E. destruct E as [(data' & w1 & E1 & E) | (e & E1 & _)].
  2: { left. keeps_in batch_size_of E1. exact E1. }
  pose proof (call_ok _ _ _ E1) as Hpg.
  keeps_in batch_size_of E1.
  cbv beta in E. destruct (x_shape data') as [n dim] eqn:Eshape.
  apply bind_inv in E. destruct E as [(? & w2 & E2 & E) | (e & E2 & _)];
    [|discriminate E2].
  unfold on_self, modify in E2. injection E2 as _ <-. cbv beta in E.
  apply bind_inv in E. destruct E as [(bs & w3 & E3 & E) | (e & E3 & _)];
    [|discriminate E3].
  apply read_ok in E3. destruct E3 as [-> ->]. cbv beta in E. simpl in E.
  apply bind_inv in E. destruct E as [(? & w4 & E4 & E) | (e & E4 & _)].
  - cbv beta in E.
    keeps_in batch_size_of E. unfold batch_size_of in E, E1. rewrite E.
    destruct (batch_size (self w1) =? 0)%Z eqn:Ez.
    + right. apply Z.eqb_eq in Ez. split; [congruence|].
      exists data'. rewrite Eshape. split; [exact Hpg|].
      unfold on_self, modify in E4. injection E4 as _ <-. reflexivity.
    + left. unfold ret in E4. injection E4 as _ <-. simpl. exact E1.
  - destruct (batch_size (self w1) =? 0)%Z; discriminate E4.
Qed.

(** [predict] assigns [save_emb] in one case: the embedding is asked
    for. *)
Lemma predict_save_emb data label rp rs rpr pm rc re w r w' :
  predict data label rp rs rpr pm rc re w = (r, w') ->
  save_emb (self w') = (save_emb (self w) || re)%bool
  /\ (re = true -> save_emb (self w') = true).
Proof.
  unfold predict. intros E.
  apply bind_inv in E. destruct E as [(? & w1 & E1 & E) | (e & E1 & _)].
  - cbv beta in E.
    match type of E with
    | ?m ?s = _ =>
        assert (K : keeps save_emb_of m)
          by (keeps_tac; apply detector_predict_keeps; intros; reflexivity)
    end.
    apply K in E. unfold save_emb_of in E. rewrite E.
    destruct re.
    + unfold on_self, modify in E1. injection E1 as _ <-. simpl.
      rewrite orb_true_r. auto.
    + unfold ret in E1. injection E1 as _ <-. rewrite orb_false_r. split;
        [reflexivity | discriminate].
  - destruct re; discriminate E1.
Qed.

Lemma predict_keeps_config data label rp rs rpr pm rc re :
  keeps config (predict data label rp rs rpr pm rc re).
Proof.
  unfold predict. keeps_tac; apply detector_predict_keeps; intros; reflexivity.
Qed.

Lemma predict_keeps_batch_size data label rp rs rpr pm rc re :
  keeps batch_size_of (predict data label rp rs rpr pm rc re).
Proof.
  unfold predict. keeps_tac; apply detector_predict_keeps; intros; reflexivity.
Qed.

(** C10 (amended). No [fit], [decision_function] or [predict] call,
    however it ends, changes [hid_dim], [num_layers], [dropout],
    [weight_decay], [lr], [epoch], [num_neigh], [gan] or [device].
    [batch_size] is changed by [fit] alone, and only from 0 to the number
    of nodes of the training graph; [save_emb] is changed by [predict]
    alone, which sets it when the embedding is asked for. *)
Theorem construction_parameters_frame (c : Call) w r w' :
  run_call c w = (r, w') ->
  config w' = config w
  /\ (batch_size (self w') = batch_size (self w)
      \/ exists data label data',
           c = CallFit data label
           /\ batch_size (self w) = 0%Z
           /\ fst (process_graph (self w) data) = Ok data'
           /\ batch_size (self w') = Z.of_nat (fst (x_shape data')))
  /\ (save_emb (self w') = save_emb (self w)
      \/ exists data label rp rs rpr pm rc,
           c = CallPredict data label rp rs rpr pm rc true
           /\ save_emb (self w') = true).
Proof.
  destruct c as [data label | data label | data label rp rs rpr pm rc re];
    simpl; intros E.
  - split; [exact (fit_keeps_config data label _ E)|]. split.
    + destruct (fit_batch_size _ _ _ E) as [K | (Hz & data' & Hpg & K)];
        [left; exact K | right; exists data, label, data'; auto].
    + left. exact (fit_keeps_save_emb data label _ E).
  - assert (K : forall T (f : World -> T),
               (forall w o, f (mkWorld (set_owned o (self w)) (trace w)) = f w) ->
               (forall w e, f (mkWorld (self w) (trace w ++ [e])) = f w) ->
               f w' = f w).
    { intros T f Ho He.
      assert (Kf : keeps f (decision_function data label ;; ret tt))
        by (keeps_tac; apply decision_function_keeps; assumption).
      exact (Kf _ _ _ E). }
    split; [apply (K _ config); reflexivity|]. split; left.
    + apply (K _ batch_size_of); reflexivity.
    + apply (K _ save_emb_of); reflexivity.
  - apply bind_inv in E.
    assert (E' : exists r0, predict data label rp rs rpr pm rc re w = (r0, w')).
    { destruct E as [(a & w1 & E1 & E) | (e & E1 & _)]; [|eauto].
      unfold ret in E. injection E as _ <-. eauto. }
    destruct E' as [r0 E'].
    split; [exact (predict_keeps_config _ _ _ _ _ _ _ _ _ E')|]. split.
    + left. exact (predict_keeps_batch_size _ _ _ _ _ _ _ _ _ E').
    + destruct (predict_save_emb _ _ _ _ _ _ _ _ _ E') as [K1 K2].
      destruct re.
      * right. exists data, label, rp, rs, rpr, pm, rc. auto.
      * left. rewrite K1. apply orb_false_r.
Qed.

End Parameters.

(** * The calls on the small detector *)

Lemma toy_decision_run :
  decision_function (H := Toy.hooks) (Toy.graph [7; 8]) None toy_fitted
  = (Ok [7; 8], toy_scored).
Proof. vm_compute. reflexivity. Qed.

Lemma GADNR_decision_function_raises_witness :
  exists w',
    decision_function (H := toy_gadnr) (Toy.graph [7; 8]) None toy_fitted
    = (Raise (ValueError "too many values to unpack (expected 2)"), w')
    /\ threshold_ (super (self w')) = threshold_ (super (self toy_fitted))
    /\ label_ (super (self w')) = label_ (super (self toy_fitted)).
Proof.
  assert (E : decision_function (H := toy_gadnr) (Toy.graph [7; 8]) None
                toy_fitted
              = (Raise (ValueError "too many values to unpack (expected 2)"),
                 snd (decision_function (H := toy_gadnr) (Toy.graph [7; 8])
                        None toy_fitted)))
    by (vm_compute; reflexivity).
  eexists. split; [exact E|].
  refine (proj2 (@GADNR_decision_function_raises Toy.backend
                   (@process_graph Toy.backend Toy.hooks)
                   (@init_model Toy.backend Toy.hooks)
                   toy_forward_five (fun _ _ => Missing)
                   (Toy.graph [7; 8]) None toy_fitted _ _ [7; 8]
                   (fun _ => [Toy.full_batch [7; 8]]) (Toy.full_batch [7; 8])
                   [] E _ _ _));
    reflexivity.
Defined.

(** C9 fails on the code: the fitted detector, asked for the scores of a
    new graph, returns them and still holds the scores of its training
    graph. *)
Lemma decision_function_score_not_stored :
  decision_function (H := Toy.hooks) (Toy.graph [7; 8]) None toy_fitted
  = (Ok [7; 8], toy_scored)
  /\ decision_score_ (super (self toy_scored)) = Bound [3; 1; 2; 5; 4]
  /\ decision_score_ (super (self toy_scored)) <> Bound [7; 8].
Proof.
  split; [exact toy_decision_run|]. split; [reflexivity|].
  simpl. intros E. discriminate E.
Qed.

Lemma decision_function_keeps_score_witness :
  decision_score_ (super (self toy_scored))
  = decision_score_ (super (self toy_fitted)).
Proof.
  exact (decision_function_keeps_score (H := Toy.hooks) (Toy.graph [7; 8])
           None toy_fitted toy_decision_run).
Defined.

(** C10 fails on the code: [fit] has replaced the [batch_size] 0 the small
    detector was constructed with by the number of nodes, and a [predict]
    that asks for the embedding sets [save_emb]. *)
Lemma parameters_not_immutable :
  (fit (H := Toy.hooks) (Toy.graph [3; 1; 2; 5; 4]) None toy_start
   = (Ok tt, toy_fitted)
   /\ batch_size (self toy_start) = 0%Z
   /\ batch_size (self toy_fitted) = 5%Z)
  /\ (exists r w',
        predict (H := Toy.hooks) None None true false false "linear" false true
          toy_fitted = (r, w')
        /\ save_emb (self toy_fitted) = false
        /\ save_emb (self w') = true).
Proof.
  split.
  - split; [exact toy_fit_run|]. split; reflexivity.
  - eexists. eexists. split; [vm_compute; reflexivity|]. split; reflexivity.
Qed.

Lemma construction_parameters_frame_witness :
  config toy_fitted = config toy_start
  /\ save_emb (self toy_fitted) = save_emb (self toy_start)
  /\ batch_size (self toy_fitted) = 5%Z.
Proof.
  destruct (construction_parameters_frame (H := Toy.hooks)
              (CallFit (Toy.graph [3; 1; 2; 5; 4]) None) toy_start
              toy_fit_run) as (Hc & Hb & Hs).
  split; [exact Hc|]. split.
  - destruct Hs as [Hs | (? & ? & ? & ? & ? & ? & ? & Hcall & _)];
      [exact Hs | discriminate Hcall].
  - reflexivity.
Defined.

(** * Calls before fit *)

Lemma is_fitted_not_fitted d :
  not_fitted d ->
  is_fitted d ["decision_score_"; "threshold_"; "label_"] = Raise NotFittedError.
Proof.
  unfold not_fitted, is_fitted, has_value. simpl. intros E.
  rewrite andb_true_r, andb_assoc, E. reflexivity.
Qed.

Section BeforeFit.
Context {B : Backend} {H : Hooks}.

(** A detector the constructor has just returned is not fitted. *)
Lemma fresh_not_fitted hd nl dr wd a bb c rate ep gpu bs nn v g se cm kw s0 d :
  DeepDetector__init__ hd nl dr wd a bb c rate ep gpu bs nn v g se cm kw s0
  = Ok d ->
  decision_score_ (super d) = PyNone
  /\ threshold_ (super d) = Missing
  /\ label_ (super d) = Missing
  /\ model (owned d) = PyNone
  /\ not_fitted (super d).
Proof.
  unfold DeepDetector__init__, Detector__init__.
  destruct (negb _); [discriminate|].
  unfold bind, modify, blank. simpl.
  destruct nn as [n | l |]; [| destruct (negb _) |]; try discriminate;
    intros E; injection E as <-; simpl; repeat split; reflexivity.
Qed.

(** C7 (amended). On a detector that is not fitted, every [predict] call
    raises the not-fitted error at its check: no hook has been called, no
    score computed and nothing logged. The one thing done before the
    check is that a [predict] asked for the embedding has set
    [save_emb]. *)
Theorem predict_not_fitted data label rp rs rpr pm rc re w :
  not_fitted (super (self w)) ->
  predict data label rp rs rpr pm rc re w
  = (Raise NotFittedError,
     mkWorld (if re then set_save_emb true (self w) else self w) (trace w)).
Proof.
  intros Hnf. apply is_fitted_not_fitted in Hnf.
  unfold predict, Detector_predict, bind, read, lift.
  destruct re; simpl; rewrite Hnf; [reflexivity|].
  destruct w; reflexivity.
Qed.

End BeforeFit.

Lemma predict_not_fitted_witness :
  predict (H := Toy.hooks) (Some (Toy.graph [7; 8])) None true false false
    "linear" false false toy_fresh
  = (Raise NotFittedError, toy_fresh).
Proof.
  exact (predict_not_fitted (H := Toy.hooks) (Some (Toy.graph [7; 8])) None
           true false false "linear" false false toy_fresh eq_refl).
Defined.

(** C7 fails on the code for the calls other than [predict]: on the
    detector just constructed, [decision_function] has no check; it calls
    [process_graph], builds the loader and then fails on the model that is
    still [None], with an attribute error. And a [predict] asked for the
    embedding has set [save_emb] when it raises. *)
Lemma decision_function_unguarded :
  not_fitted (super (self toy_fresh))
  /\ (exists w',
        decision_function (H := Toy.hooks) (Toy.graph [7; 8]) None toy_fresh
        = (Raise (AttributeError "model"), w')
        /\ sub (owned (self toy_fresh)) = 0%nat
        /\ sub (owned (self w')) = 1%nat)
  /\ (exists w',
        predict (H := Toy.hooks) None None true false false "linear" false true
          toy_fresh = (Raise NotFittedError, w')
        /\ save_emb (self toy_fresh) = false
        /\ save_emb (self w') = true).
Proof.
  split; [reflexivity|]. split.
  - eexists. split; [vm_compute; reflexivity|]. split; reflexivity.
  - eexists. split; [vm_compute; reflexivity|]. split; reflexivity.
Qed.

(** * Further properties of the code *)

(** ** The constructor and its neighbour counts *)

Section MoreConstruction.
Context {B : Backend} {H : Hooks}.

(** X1. A detector the constructor returns has one neighbour count per
    layer: an integer [num_neigh] is repeated [num_layers] times, a list is
    taken as it is and has been checked to have that length. *)
Theorem DeepDetector_init_num_neigh hd nl dr wd a bb c rate ep gpu bs nn v g
  se cm kw s0 d :
  DeepDetector__init__ hd nl dr wd a bb c rate ep gpu bs nn v g se cm kw s0
  = Ok d ->
  (0 <= nl)%Z ->
  Z.of_nat (length (num_neigh d)) = nl
  /\ (forall n, nn = NeighInt n -> num_neigh d = repeat n (Z.to_nat nl))
  /\ (forall l, nn = NeighList l -> num_neigh d = l).
Proof.
  unfold DeepDetector__init__. intros E Hnl.
  destruct (Detector__init__ c v blank) as [[u|e] base]; [|discriminate].
  destruct nn as [n | l |]; [| |discriminate].
  - injection E as <-. simpl. rewrite repeat_length. split; [lia|].
    split; [intros n' Hn; injection Hn as <-; reflexivity | discriminate].
  - destruct (Z.of_nat (length l) =? nl)%Z eqn:El; simpl in E; [|discriminate].
    injection E as <-. simpl. apply Z.eqb_eq in El. split; [exact El|].
    split; [discriminate | intros l' Hl; injection Hl as <-; reflexivity].
Qed.

(** X2. With a contamination in range, a [num_neigh] that is a list of
    another length than [num_layers], or neither an integer nor a list,
    makes the constructor raise a [ValueError]. *)
Theorem DeepDetector_init_malformed hd nl dr wd a bb c rate ep gpu bs nn v g se
  cm kw s0 :
  0 < c /\ c <= 1 # 2 ->
  (nn = NeighOther
   \/ exists l, nn = NeighList l /\ Z.of_nat (length l) <> nl) ->
  exists msg,
    DeepDetector__init__ hd nl dr wd a bb c rate ep gpu bs nn v g se cm kw s0
    = Raise (ValueError msg).
Proof.
  intros Hc Hnn. unfold DeepDetector__init__.
  rewrite (Detector_init_in_range v blank Hc).
  destruct Hnn as [-> | (l & -> & Hl)].
  - eexists. reflexivity.
  - apply Z.eqb_neq in Hl. rewrite Hl. simpl. eexists. reflexivity.
Qed.

End MoreConstruction.

Lemma DeepDetector_init_num_neigh_witness :
  exists d,
    Toy.construct (1 # 10) 1 0 false = Ok d
    /\ Z.of_nat (length (num_neigh d)) = 2%Z
    /\ num_neigh d = [(-1)%Z; (-1)%Z].
Proof.
  eexists. split; [reflexivity|].
  destruct (@DeepDetector_init_num_neigh Toy.backend (HidInt 64) 2 0 0
              tt tt (1 # 10) (4 # 1000) 1 (-1) 0 (NeighInt (-1)) 0 false false
              false tt O _ eq_refl) as (Hlen & Hint & _).
  - discriminate.
  - split; [exact Hlen | exact (Hint _ eq_refl)].
Defined.

Lemma DeepDetector_init_malformed_witness :
  exists msg,
    DeepDetector__init__ (B := Toy.backend) (HidInt 64) 2 0 0 tt tt (1 # 10)
      (4 # 1000) 1 (-1) 0 (NeighList [5%Z]) 0 false false false tt O
    = Raise (ValueError msg).
Proof.
  apply DeepDetector_init_malformed.
  - split; [reflexivity | discriminate].
  - right. exists [5%Z]. split; [reflexivity | discriminate].
Defined.

(** ** Runs that raise *)

Lemma raise_keeps_bind {S T A C} (f : S -> T) (m : M S A) (k : A -> M S C) :
  keeps f m -> (forall a, raise_keeps f (k a)) -> raise_keeps f (bind m k).
Proof.
  intros Hm Hk s e s' E. apply bind_inv in E.
  destruct E as [(a & s1 & E1 & E) | (e' & E1 & _)].
  - rewrite (Hk _ _ _ _ E). exact (Hm _ _ _ E1).
  - exact (Hm _ _ _ E1).
Qed.

(** [_process_decision_score] raises before it assigns anything. *)
Lemma process_decision_score_raise (d d' : Detector) e :
  _process_decision_score d = (Raise e, d') -> d' = d.
Proof.
  unfold _process_decision_score, bind, get, lift, modify. simpl.
  destruct (decision_score_ d) as [| |score] eqn:Es; simpl;
    try (intros E; injection E as _ <-; reflexivity).
  destruct (contamination d) as [| |c] eqn:Ec; simpl;
    try (intros E; injection E as _ <-; reflexivity).
  destruct (Numpy.percentile score (100 * (1 - c))) as [t|] eqn:Et; simpl;
    try (intros E; injection E as _ <-; reflexivity).
  try rewrite Es. simpl. discriminate.
Qed.

(** The frame side conditions that [keeps_tac] leaves at an assignment to
    an attribute of [Detector]. *)
Ltac keeps_assign :=
  keeps_tac; try (intros ? ? ? ?E; injection E as _ <-; reflexivity).

Section Raising.
Context {B : Backend} {H : Hooks}.

Lemma fit_raise_keeps_fitted data label :
  raise_keeps fitted_frame (fit data label).
Proof.
  unfold fit.
  apply raise_keeps_bind; [keeps_assign | intros data'].
  destruct (x_shape data') as [n dim].
  repeat (apply raise_keeps_bind; [keeps_assign | intros ?]).
  intros s e s' E. unfold on_super in E.
  destruct (_process_decision_score (super (self s))) as [r d] eqn:Ep.
  injection E as -> <-. apply process_decision_score_raise in Ep. subst d.
  reflexivity.
Qed.

(** X3. A [fit] that raises, wherever it does, leaves [threshold_] and
    [label_] exactly as they were: the two are assigned in the last step
    only, after everything that can fail. *)
Theorem fit_raise_frame data label w e w' :
  fit data label w = (Raise e, w') ->
  threshold_ (super (self w')) = threshold_ (super (self w))
  /\ label_ (super (self w')) = label_ (super (self w)).
Proof.
  intros E. apply fit_raise_keeps_fitted in E. unfold fitted_frame in E.
  injection E as Et El. auto.
Qed.

(** Under [gan], an epoch of [fit] cannot finish when the detector has no
    attribute [epoch_loss_g]. *)
Lemma fit_epoch_gan_raises n label loader l i w r w' :
  (forall s, sub_attr s "epoch_loss_g" = Missing) ->
  gan (self w) = true ->
  fit_epoch n label loader l i w = (r, w') ->
  exists e, r = Raise e.
Proof.
  intros Hsub Hg E. unfold fit_epoch in E.
  unfold bind at 1 in E. unfold read at 1 in E. rewrite Hg in E.
  apply bind_inv in E. destruct E as [(l1 & w1 & E1 & E) | (e & _ & ->)];
    [|eauto].
  keeps_in gan_of E1. unfold gan_of in E1. rewrite Hg in E1.
  unfold bind at 1 in E. unfold read at 1 in E. rewrite E1 in E.
  apply bind_inv in E. destruct E as [(v & w2 & E2 & E) | (e & _ & ->)];
    [|eauto].
  exfalso. unfold bind at 1 in E2. unfold read at 1 in E2.
  unfold bind at 1 in E2. unfold lift at 1 in E2. rewrite Hsub in E2.
  simpl in E2. discriminate E2.
Qed.

Lemma fit_gan_never_returns data label w r w' :
  (forall s, sub_attr s "epoch_loss_g" = Missing) ->
  gan (self w) = true ->
  (0 < epoch (self w))%Z ->
  fit data label w = (r, w') ->
  exists e, r = Raise e.
Proof.
  intros Hsub Hg Hep E. unfold fit in E.
  assert (Hge : gan_epoch w = (true, epoch (self w)))
    by (unfold gan_epoch; rewrite Hg; reflexivity).
  apply bind_inv in E. destruct E as [(data' & w1 & E1 & E) | (e & _ & ->)];
    [|eauto].
  keeps_in gan_epoch E1. rewrite Hge in E1. clear Hge. cbv beta in E.
  destruct (x_shape data') as [n dim].
  do 18 (apply bind_inv in E;
         destruct E as [(? & ? & E2 & E) | (? & _ & ->)]; [|eauto];
         keeps_in gan_epoch E2; rewrite E1 in E2; clear E1; rename E2 into E1;
         cbv beta in E).
  apply bind_inv in E. destruct E as [(ep & w2 & E2 & E) | (e & _ & ->)];
    [|eauto].
  apply read_ok in E2. destruct E2 as [-> ->].
  unfold gan_epoch in E1. injection E1 as Eg Ee. cbv beta in E.
  apply bind_inv in E. destruct E as [(l2 & w3 & E3 & E) | (e & _ & ->)];
    [|eauto].
  exfalso. rewrite Ee in E3.
  destruct (Z.to_nat (epoch (self w))) as [|k] eqn:Ek; [lia|].
  simpl in E3. apply bind_inv in E3.
  destruct E3 as [(l3 & w4 & E4 & _) | (e & E4 & He)]; [|discriminate He].
  eapply fit_epoch_gan_raises in E4; [|exact Hsub|exact Eg].
  destruct E4 as [e He]. discriminate He.
Qed.

(** X4. Under [gan], with at least one epoch, a [fit] on a detector that
    has no attribute [epoch_loss_g] never returns: at the end of the first
    epoch the loss to report is read from [self.epoch_loss_g], which the
    class never sets. It raises, and [threshold_] and [label_] stay as they
    were. *)
Theorem fit_gan_raises data label w r w' :
  (forall s, sub_attr s "epoch_loss_g" = Missing) ->
  gan (self w) = true ->
  (0 < epoch (self w))%Z ->
  fit data label w = (r, w') ->
  (exists e, r = Raise e)
  /\ threshold_ (super (self w')) = threshold_ (super (self w))
  /\ label_ (super (self w')) = label_ (super (self w)).
Proof.
  intros Hsub Hg Hep E.
  destruct (fit_gan_never_returns data label w Hsub Hg Hep E) as [e ->].
  split; [eauto|]. apply fit_raise_keeps_fitted in E.
  unfold fitted_frame in E. injection E as Et El. auto.
Qed.

End Raising.

Lemma fit_raise_frame_witness :
  exists e w',
    fit (H := Toy.hooks) (Toy.graph []) None toy_fitted = (Raise e, w')
    /\ threshold_ (super (self w')) = threshold_ (super (self toy_fitted))
    /\ label_ (super (self w')) = label_ (super (self toy_fitted))
    /\ decision_score_ (super (self toy_fitted)) = Bound [3; 1; 2; 5; 4]
    /\ decision_score_ (super (self w')) = Bound [].
Proof.
  eexists. eexists.
  assert (E : fit (H := Toy.hooks) (Toy.graph []) None toy_fitted
              = (Raise ZeroDivisionError,
                 snd (fit (H := Toy.hooks) (Toy.graph []) None toy_fitted)))
    by (vm_compute; reflexivity).
  split; [exact E|].
  destruct (fit_raise_frame (H := Toy.hooks) _ _ _ E) as [Ht Hl].
  split; [exact Ht|]. split; [exact Hl|]. split; reflexivity.
Defined.

Lemma fit_gan_raises_witness :
  exists e w',
    fit (H := Toy.hooks) (Toy.graph [3; 1; 2; 5; 4]) None toy_gan_start
    = (Raise e, w')
    /\ threshold_ (super (self w')) = Missing
    /\ label_ (super (self w')) = Missing.
Proof.
  destruct (fit_gan_raises (H := Toy.hooks) (Toy.graph [3; 1; 2; 5; 4]) None
              toy_gan_start
              (r := fst (fit (H := Toy.hooks) (Toy.graph [3; 1; 2; 5; 4]) None
                           toy_gan_start))
              (w' := snd (fit (H := Toy.hooks) (Toy.graph [3; 1; 2; 5; 4])
                            None toy_gan_start)))
    as ((e & He) & Ht & Hl).
  - intros s. reflexivity.
  - reflexivity.
  - reflexivity.
  - vm_compute. reflexivity.
  - exists e. eexists. split; [|split; [exact Ht | exact Hl]].
    rewrite <- He. apply surjective_pairing.
Defined.

(** ** What decision_function reports *)

Section Reports.
Context {B : Backend} {H : Hooks}.

(** A call of the logger appends its report, unless the detector has no
    [verbose] attribute. *)
Lemma logger_spec i loss score target tr w r w' :
  logger i loss score target tr w = (r, w') ->
  match r with
  | Ok _ =>
      exists v, w' = mkWorld (self w)
                       (trace w ++ [Logger i loss score target v tr])
  | Raise _ => w' = w
  end.
Proof.
  unfold logger, bind, read, lift, emit, modify.
  destruct (getattr "verbose" (verbose (super (self w)))) as [v|e]; intros E;
    injection E as <- <-; eauto.
Qed.

Lemma decision_function_trace data label w r w' :
  decision_function data label w = (r, w') ->
  match r with
  | Ok score =>
      exists loss v,
        trace w' = trace w ++ [Logger None (Some loss) (Bound score) label v
                                 false]
  | Raise _ => trace w' = trace w
  end.
Proof.
  unfold decision_function. intros E.
  pose (t0 := trace_of w). assert (Ht : trace_of w = t0) by reflexivity.
  repeat (lazymatch type of E with
          | bind (logger _ _ _ _ _) _ _ = _ => fail
          | bind _ _ _ = _ =>
              apply bind_inv in E;
              destruct E as [(? & ? & E1 & E) | (? & E1 & ->)];
              [ keeps_in (@trace_of B) E1;
                pose proof (eq_trans E1 Ht) as Ht'; clear Ht E1;
                rename Ht' into Ht; cbv beta zeta in E
              | keeps_in (@trace_of B) E1; exact (eq_trans E1 Ht) ]
          | _ =>
              match type of E with
              | context [match ?p with pair _ _ => _ end] => destruct p
              end
          end).
  apply bind_inv in E. destruct E as [(? & w2 & E1 & E) | (? & E1 & ->)].
  - apply logger_spec in E1. destruct E1 as [v ->].
    unfold ret in E. injection E as <- <-. simpl.
    unfold trace_of, t0 in Ht. rewrite Ht. eauto.
  - apply logger_spec in E1. subst. exact Ht.
Qed.

(** X5. A [decision_function] that returns has reported to the logger
    exactly once, after the last batch, with the scores it returns and the
    evaluation flag; it has made no optimizer call. One that raises has
    reported nothing. *)
Theorem decision_function_reports_once data label w r w' :
  decision_function data label w = (r, w') ->
  (forall score, r = Ok score ->
     exists loss v,
       trace w' = trace w ++ [Logger None (Some loss) (Bound score) label v
                                false])
  /\ (forall e, r = Raise e -> trace w' = trace w).
Proof.
  intros E. apply decision_function_trace in E.
  split; [intros score -> | intros e ->]; exact E.
Qed.

End Reports.

Lemma decision_function_reports_once_witness :
  exists loss v,
    trace toy_scored
    = trace toy_fitted ++ [Logger None (Some loss) (Bound [7; 8]) None v false].
Proof.
  exact (proj1 (decision_function_reports_once (H := Toy.hooks)
                  (Toy.graph [7; 8]) None toy_fitted toy_decision_run)
           [7; 8] eq_refl).
Defined.

(** ** The shape of the fitted state *)

Lemma keeps_ok_keeps {S T A} (f : S -> T) (m : M S A) :
  keeps f m -> ok_keeps f m.
Proof. intros K s a s' E. exact (K _ _ _ E). Qed.

Lemma ok_keeps_bind {S T A C} (f : S -> T) (m : M S A) (k : A -> M S C) :
  ok_keeps f m -> (forall a, ok_keeps f (k a)) -> ok_keeps f (bind m k).
Proof.
  intros Hm Hk s c s' E. apply bind_ok in E.
  destruct E as (a & s1 & E1 & E2).
  rewrite (Hk _ _ _ _ E2). exact (Hm _ _ _ E1).
Qed.

Lemma ok_keeps_for_each {S T X L} (f : S -> T) (body : L -> X -> M S L) xs :
  (forall l x, ok_keeps f (body l x)) ->
  forall acc, ok_keeps f (for_each xs body acc).
Proof.
  intros Hb. induction xs as [|x r IH]; intros acc; simpl.
  - apply keeps_ok_keeps. apply keeps_ret.
  - apply ok_keeps_bind; auto.
Qed.

Section Shape.
Context {B : Backend} {H : Hooks}.

(** A training batch that completes has written its scores in place: the
    number of stored scores is what it was. *)
Lemma fit_batch_keeps_count l sampled_data :
  ok_keeps score_count (fit_batch l sampled_data).
Proof.
  unfold fit_batch. intros w l' w' E.
  apply bind_ok in E. destruct E as ([loss score] & w1 & E1 & E).
  keeps_in (@score_count B) E1. cbv beta iota in E.
  apply bind_ok in E. destruct E as (g & w2 & E2 & E).
  keeps_in (@score_count B) E2. cbv beta in E.
  apply bind_ok in E. destruct E as (l1 & w3 & E3 & E).
  keeps_in (@score_count B) E3. cbv beta in E.
  apply bind_ok in E. destruct E as (se & w4 & E4 & E).
  keeps_in (@score_count B) E4. cbv beta in E.
  apply bind_ok in E. destruct E as (u & w5 & E5 & E).
  keeps_in (@score_count B) E5. cbv beta in E.
  apply bind_ok in E. destruct E as (a & w6 & E6 & E).
  apply read_ok in E6. destruct E6 as [-> ->]. cbv beta in E.
  apply bind_ok in E. destruct E as (ds & w7 & E7 & E).
  apply lift_ok in E7. destruct E7 as [E7 ->]. cbv beta in E.
  destruct (decision_score_ (super (self w5))) as [| |ds0] eqn:Eds;
    try discriminate E7.
  simpl in E7. injection E7 as ->.
  apply bind_ok in E. destruct E as (ds' & w8 & E8 & E).
  apply lift_ok in E8. destruct E8 as [E8 ->]. cbv beta in E.
  apply of_option_ok in E8. apply index_put_length in E8.
  apply bind_ok in E. destruct E as (u' & w9 & E9 & E).
  unfold on_super, modify in E9. injection E9 as _ <-. cbv beta in E.
  keeps_in (@score_count B) E. rewrite E.
  transitivity (score_count w5).
  - unfold score_count. simpl. rewrite Eds, E8. reflexivity.
  - rewrite E5, E4, E3, E2, E1. reflexivity.
Qed.

Lemma fit_epoch_keeps_count n label loader l i :
  ok_keeps score_count (fit_epoch n label loader l i).
Proof.
  unfold fit_epoch.
  apply ok_keeps_bind; [apply keeps_ok_keeps; keeps_tac | intros g].
  apply ok_keeps_bind;
    [apply ok_keeps_for_each; intros; apply fit_batch_keeps_count | intros l1].
  apply keeps_ok_keeps. keeps_tac.
Qed.

(** X6. After a [fit] that returns, [num_nodes] and [in_dim] hold the
    shape of the feature matrix of the graph as [process_graph] left it,
    and [decision_score_] and [label_] have one entry for each of its
    nodes. *)
Theorem fit_shape data label w w' :
  fit data label w = (Ok tt, w') ->
  exists data' score lab,
    fst (process_graph (self w) data) = Ok data'
    /\ num_nodes (self w') = Bound (fst (x_shape data'))
    /\ in_dim (self w') = Bound (snd (x_shape data'))
    /\ decision_score_ (super (self w')) = Bound score
    /\ length score = fst (x_shape data')
    /\ label_ (super (self w')) = Bound lab
    /\ length lab = fst (x_shape data').
Proof.
  unfold fit. intros E.
  apply bind_ok in E. destruct E as (data' & w1 & E1 & E).
  apply call_ok in E1. cbv beta in E. exists data'.
  destruct (x_shape data') as [n dim]. simpl.
  apply bind_ok in E. destruct E as (u & w2 & E2 & E).
  unfold on_self, modify in E2. injection E2 as _ <-. cbv beta in E.
  pose proof E as Eshape. keeps_in (@shape_of B) Eshape.
  unfold shape_of in Eshape. simpl in Eshape. injection Eshape as En Ed.
  do 16 (apply bind_ok in E; destruct E as (? & ? & _ & E); cbv beta in E).
  apply bind_ok in E. destruct E as (u3 & w3 & E3 & E).
  unfold on_super, modify in E3. injection E3 as _ <-. cbv beta in E.
  apply bind_ok in E. destruct E as (ep & w4 & E4 & E).
  apply read_ok in E4. destruct E4 as [-> ->]. cbv beta in E.
  apply bind_ok in E. destruct E as (l2 & w5 & E5 & E).
  match type of E5 with
  | ?m ?s = _ =>
      assert (K : ok_keeps score_count m)
        by (apply ok_keeps_for_each; intros; apply fit_epoch_keeps_count)
  end.
  apply K in E5. unfold score_count in E5. simpl in E5.
  rewrite zeros_length in E5.
  unfold on_super in E.
  destruct (_process_decision_score (super (self w5))) as [r d'] eqn:Ep.
  injection E as -> <-. apply process_decision_score_ok in Ep.
  destruct Ep as (score & c & t & Hs & _ & _ & ->).
  rewrite Hs in E5. injection E5 as E5.
  exists score, (Tensor.gt_long score t). simpl in *.
  rewrite gt_long_length. auto 10.
Qed.

End Shape.

Lemma fit_shape_witness :
  exists score lab,
    num_nodes (self toy_fitted) = Bound 5%nat
    /\ in_dim (self toy_fitted) = Bound 1%nat
    /\ decision_score_ (super (self toy_fitted)) = Bound score
    /\ length score = 5%nat
    /\ label_ (super (self toy_fitted)) = Bound lab
    /\ length lab = 5%nat.
Proof.
  destruct (fit_shape (H := Toy.hooks) (Toy.graph [3; 1; 2; 5; 4]) None
              toy_start toy_fit_run)
    as (data' & score & lab & Hd & Hn & Hi & Hs & Hls & Hl & Hll).
  injection Hd as <-. exists score, lab. auto 10.
Defined.

(** ** What predict returns *)

Section Predict.
Context {B : Backend} {H : Hooks}.

(** [predict()] on a detector whose three fitted attributes are bound:
    the stored scores are compared with the threshold, one report goes to
    the logger, and the detector is not touched. *)
Lemma predict_stored_run label pm w ds thr lab v :
  decision_score_ (super (self w)) = Bound ds ->
  threshold_ (super (self w)) = Bound thr ->
  label_ (super (self w)) = Bound lab ->
  verbose (super (self w)) = Bound v ->
  predict None label true false false pm false false w
  = (Ok (One (OutPred (Tensor.gt_long ds thr))),
     mkWorld (self w)
       (trace w ++ [Logger None None (Bound ds) label (Bound v) false])).
Proof.
  intros Hds Hthr Hlab Hv.
  unfold predict, Detector_predict, logger, bind, ret, read, lift, emit, modify,
    is_fitted, has_value.
  simpl.
  repeat (first [rewrite Hds | rewrite Hthr | rewrite Hlab | rewrite Hv];
          simpl).
  destruct w; reflexivity.
Qed.

(** X7. After a [fit] that returns, [predict()] without data returns the
    stored [label_]: the labels of the training nodes. It calls no hook and
    computes no score; it reports the stored scores to the logger once and
    leaves the detector as it is. *)
Theorem predict_after_fit data label w0 w target pm v :
  fit data label w0 = (Ok tt, w) ->
  verbose (super (self w)) = Bound v ->
  exists score lab,
    decision_score_ (super (self w)) = Bound score
    /\ label_ (super (self w)) = Bound lab
    /\ predict None target true false false pm false false w
       = (Ok (One (OutPred lab)),
          mkWorld (self w)
            (trace w ++ [Logger None None (Bound score) target (Bound v)
                           false])).
Proof.
  intros E Hv. apply fit_ok in E.
  destruct E as (score & c & t & _ & _ & Hs & _ & Ht & Hl).
  exists score, (Tensor.gt_long score t).
  split; [exact Hs|]. split; [exact Hl|].
  exact (predict_stored_run target pm w Hs Ht Hl Hv).
Qed.

End Predict.

Lemma predict_after_fit_witness :
  exists score lab,
    decision_score_ (super (self toy_fitted)) = Bound score
    /\ label_ (super (self toy_fitted)) = Bound lab
    /\ predict (H := Toy.hooks) None None true false false "linear" false false
         toy_fitted
       = (Ok (One (OutPred lab)),
          mkWorld (self toy_fitted)
            (trace toy_fitted
             ++ [Logger None None (Bound score) None (Bound 0%Z) false])).
Proof.
  exact (predict_after_fit (H := Toy.hooks) (Toy.graph [3; 1; 2; 5; 4]) None
           toy_start None "linear" toy_fit_run eq_refl).
Defined.

(** Taking a completed method body apart, bind by bind. *)
Ltac ok_all :=
  repeat match goal with
         | E : bind _ _ _ = (Ok _, _) |- _ =>
             apply bind_ok in E; destruct E as (? & ? & ? & E); cbv beta in E
         | E : ret _ _ = (Ok _, _) |- _ =>
             unfold ret in E; injection E as ? ?; subst
         | E : raise _ _ = (Ok _, _) |- _ => discriminate E
         end.

Section PredictShape.
Context {B : Backend} {H : Hooks}.

Lemma detector_predict_items data label rp rs rpr pm rc w out w' :
  Detector_predict data label rp rs rpr pm rc w = (Ok out, w') ->
  map kind_of (items out) = asked rp rs rpr rc false
  /\ (match out with One _ => true | Tuple _ => false end
      = Nat.eqb (length (asked rp rs rpr rc false)) 1).
Proof.
  unfold Detector_predict. intros E.
  apply bind_ok in E. destruct E as (d & w1 & _ & E). cbv beta in E.
  apply bind_ok in E. destruct E as (u & w2 & _ & E). cbv beta in E.
  apply bind_ok in E. destruct E as (score & w3 & _ & E). cbv beta in E.
  destruct rp, rs, rpr, rc; ok_all; simpl in *; ok_all; split; reflexivity.
Qed.

(** X8. What a [predict] that returns gives back follows its flags: the
    values asked for, in the order pred, score, prob, conf, emb. It is a
    single value exactly when one of the first four flags is set and the
    embedding is not asked for, and a tuple otherwise, also the tuple of
    the embedding alone. *)
Theorem predict_shape data label rp rs rpr pm rc re w out w' :
  predict data label rp rs rpr pm rc re w = (Ok out, w') ->
  map kind_of (items out) = asked rp rs rpr rc re
  /\ (match out with One _ => true | Tuple _ => false end
      = (Nat.eqb (length (asked rp rs rpr rc false)) 1 && negb re)%bool).
Proof.
  unfold predict. intros E.
  apply bind_ok in E. destruct E as (u & w1 & _ & E). cbv beta in E.
  apply bind_ok in E. destruct E as (out0 & w2 & E1 & E). cbv beta in E.
  apply detector_predict_items in E1. destruct E1 as [Hk Ho].
  destruct re.
  - ok_all. rewrite andb_false_r.
    assert (Hasked : asked rp rs rpr rc true
                     = asked rp rs rpr rc false ++ [KEmb]).
    { unfold asked. rewrite app_nil_r, !app_assoc. reflexivity. }
    rewrite Hasked, <- Hk.
    destruct out0 as [o|l]; ok_all; simpl; [auto|].
    rewrite map_app. auto.
  - ok_all. rewrite andb_true_r. auto.
Qed.

End PredictShape.

Lemma predict_shape_witness :
  exists out w',
    predict (H := Toy.hooks) (Some (Toy.graph [7; 8; 9])) None true true true
      "linear" true false toy_fitted = (Ok out, w')
    /\ map kind_of (items out) = [KPred; KScore; KProb; KConf].
Proof.
  destruct (predict (H := Toy.hooks) (Some (Toy.graph [7; 8; 9])) None true
              true true "linear" true false toy_fitted)
    as [[out|e] w'] eqn:E.
  - exists out, w'. split; [reflexivity|].
    rewrite (proj1 (predict_shape (H := Toy.hooks) _ _ _ _ _ _ _ _ _ E)).
    reflexivity.
  - vm_compute in E. discriminate E.
Defined.

(** ** Probabilities *)

Lemma clamp1_range x : 0 <= Tensor.clamp1 0 1 x /\ Tensor.clamp1 0 1 x <= 1.
Proof.
  unfold Tensor.clamp1, Qmax', Qmin'.
  destruct (Qle_bool x 0) eqn:E0.
  - simpl. split; [apply Qle_refl | discriminate].
  - destruct (Qle_bool x 1) eqn:E1.
    + apply Qle_bool_iff in E1. split; [|exact E1].
      apply Qlt_le_weak. apply Qgtb_lt. unfold Qgtb. rewrite E0. reflexivity.
    + split; [discriminate | apply Qle_refl].
Qed.

Lemma clamp1_monotone x y :
  x <= y -> Tensor.clamp1 0 1 x <= Tensor.clamp1 0 1 y.
Proof.
  intros Hxy. unfold Tensor.clamp1, Qmax', Qmin'.
  destruct (Qle_bool x 0) eqn:Ex0; destruct (Qle_bool y 0) eqn:Ey0; simpl;
    try (apply Qle_bool_iff in Ex0); try (apply Qle_bool_iff in Ey0);
    try (assert (0 < x) by (apply Qgtb_lt; unfold Qgtb; rewrite Ex0;
                            reflexivity));
    try (assert (0 < y) by (apply Qgtb_lt; unfold Qgtb; rewrite Ey0;
                            reflexivity));
    destruct (Qle_bool x 1) eqn:Ex1; destruct (Qle_bool y 1) eqn:Ey1;
    try (apply Qle_bool_iff in Ex1); try (apply Qle_bool_iff in Ey1);
    try (assert (1 < x) by (apply Qgtb_lt; unfold Qgtb; rewrite Ex1;
                            reflexivity));
    try (assert (1 < y) by (apply Qgtb_lt; unfold Qgtb; rewrite Ey1;
                            reflexivity));
    lra.
Qed.

Lemma clamp_range t : Forall (fun x => 0 <= x /\ x <= 1) (Tensor.clamp 0 1 t).
Proof.
  unfold Tensor.clamp. induction t as [|x r IH]; simpl; constructor;
    [apply clamp1_range | exact IH].
Qed.

Section Probabilities.
Context {B : Backend}.

(** X9. Whatever the method, the probabilities [_predict_prob] returns
    are one for each score and lie between 0 and 1, and the detector is
    not changed. This is said of the runs that divide by no zero, the
    others leaving the rationals. *)
Theorem predict_prob_range score method d p d' :
  nonzero_divisors method d ->
  _predict_prob score method d = (Ok p, d') ->
  d' = d
  /\ length p = length score
  /\ Forall (fun x => 0 <= x /\ x <= 1) p.
Proof.
  unfold _predict_prob. intros _ E.
  apply bind_ok in E. destruct E as (d0 & d1 & E0 & E).
  unfold get in E0. injection E0 as <- <-. cbv beta in E.
  destruct (String.eqb method "linear").
  - apply bind_ok in E. destruct E as (? & ? & E1 & E).
    apply lift_ok in E1. destruct E1 as [_ ->]. cbv beta in E.
    apply bind_ok in E. destruct E as (? & ? & E1 & E).
    apply lift_ok in E1. destruct E1 as [_ ->]. cbv beta zeta in E.
    apply bind_ok in E. destruct E as (? & ? & E1 & E).
    apply lift_ok in E1. destruct E1 as [_ ->]. cbv beta in E.
    apply bind_ok in E. destruct E as (? & ? & E1 & E).
    apply lift_ok in E1. destruct E1 as [_ ->]. cbv beta zeta in E.
    unfold ret in E. injection E as <- <-.
    split; [reflexivity|]. split; [|apply clamp_range].
    unfold Tensor.clamp. rewrite !length_map. reflexivity.
  - destruct (String.eqb method "unify"); [|discriminate E].
    apply bind_ok in E. destruct E as (? & ? & E1 & E).
    apply lift_ok in E1. destruct E1 as [_ ->]. cbv beta zeta in E.
    unfold ret in E. injection E as <- <-.
    split; [reflexivity|]. split; [|apply clamp_range].
    unfold Tensor.clamp. rewrite !length_map. reflexivity.
Qed.

(** X10. With training scores that are not all equal, the linear
    probability grows with the score, is 0 at the least training score and
    1 at the greatest. *)
Theorem predict_prob_linear_monotone (d : Detector) train lo hi s1 s2 :
  decision_score_ d = Bound train ->
  Tensor.min train = Some lo ->
  Tensor.max train = Some hi ->
  lo < hi ->
  s1 <= s2 ->
  exists p1 p2 p_lo p_hi,
    _predict_prob [s1; s2; lo; hi] "linear" d = (Ok [p1; p2; p_lo; p_hi], d)
    /\ p1 <= p2 /\ p_lo == 0 /\ p_hi == 1.
Proof.
  intros Hds Hlo Hhi Hlt Hs.
  rewrite (@predict_prob_linear_run B d train [s1; s2; lo; hi] lo hi Hds Hlo Hhi).
  simpl. do 4 eexists. split; [reflexivity|].
  assert (Hpos : 0 < hi - lo) by lra.
  split; [|split].
  - apply clamp1_monotone. unfold Qdiv.
    apply Qmult_le_compat_r; [lra|].
    apply Qlt_le_weak. apply Qinv_lt_0_compat. exact Hpos.
  - apply (proj1 (clamp1_spec _)).
    assert (E : (lo - lo) / (hi - lo) == 0) by (field; lra).
    rewrite E. apply Qle_refl.
  - apply (proj2 (proj2 (clamp1_spec _))).
    assert (E : (hi - lo) / (hi - lo) == 1) by (field; lra).
    rewrite E. apply Qle_refl.
Qed.

End Probabilities.

Lemma predict_prob_range_witness :
  exists p,
    _predict_prob (B := Toy.backend) [5; -5 # 1; 15] "unify" five_scores
    = (Ok p, five_scores)
    /\ length p = 3%nat
    /\ Forall (fun x => 0 <= x /\ x <= 1) p.
Proof.
  destruct (_predict_prob (B := Toy.backend) [5; -5 # 1; 15] "unify"
              five_scores) as [[p|e] d'] eqn:E.
  - destruct (predict_prob_range (B := Toy.backend) [5; -5 # 1; 15] "unify"
                five_scores) with (2 := E)
      as (-> & Hlen & Hall).
    + split; [simpl; lia | intros Hz; vm_compute in Hz; discriminate Hz].
    + exists p. auto.
  - vm_compute in E. discriminate E.
Defined.

Lemma predict_prob_linear_monotone_witness :
  exists p1 p2 p_lo p_hi,
    _predict_prob (B := Toy.backend) [2; 4; 1; 5] "linear" five_scores
    = (Ok [p1; p2; p_lo; p_hi], five_scores)
    /\ p1 <= p2 /\ p_lo == 0 /\ p_hi == 1.
Proof.
  apply (@predict_prob_linear_monotone Toy.backend five_scores
           [3; 1; 2; 5; 4] 1 5 2 4); try reflexivity.
  discriminate.
Defined.

(** ** Where the threshold lies *)

Lemma sorted_strongly l : Sorted Qle l -> StronglySorted Qle l.
Proof.
  apply Sorted_StronglySorted. intros x y z. apply Qle_trans.
Qed.

(** In ascending data a later entry is at least an earlier one. *)
Lemma sorted_nth_le s : StronglySorted Qle s ->
  forall i j d, (i <= j)%nat -> (j < length s)%nat -> nth i s d <= nth j s d.
Proof.
  induction 1 as [|x r Hs IH Hall]; intros i j d Hij Hj; simpl in Hj; [lia|].
  destruct i as [|i], j as [|j]; simpl; try lia.
  - apply Qle_refl.
  - rewrite Forall_forall in Hall. apply Hall. apply nth_In. lia.
  - apply IH; lia.
Qed.


Lemma lerp_between a b g :
  a <= b -> 0 <= g -> g <= 1 ->
  a <= Numpy.lerp a b g /\ Numpy.lerp a b g <= b.
Proof.
  intros Hab Hg0 Hg1. unfold Numpy.lerp.
  assert (H0 : 0 <= (b - a) * g) by (apply Qmult_le_0_compat; lra).
  assert (H1 : 0 <= (b - a) * (1 - g)) by (apply Qmult_le_0_compat; lra).
  split; nra.
Qed.

(** The percentile lies between two entries of the ascending data: the one
    at the floor of the virtual index and one at or after it. *)
Lemma percentile_position (a : list Q) (q t : Q) :
  Numpy.percentile a q = Some t ->
  exists s k k',
    Permutation s a /\ StronglySorted Qle s
    /\ (k <= k')%nat /\ (k' < length s)%nat
    /\ Z.of_nat k = Qfloor ((inject_Z (Z.of_nat (length a)) - 1) * (q / 100))
    /\ nth k s 0 <= t /\ t <= nth k' s 0.
Proof.
  intros E.
  assert (Hne : a <> []).
  { intros ->. unfold Numpy.percentile in E. simpl in E.
    destruct (Qle_bool 0 q && Qle_bool q 100); discriminate. }
  apply percentile_order_statistics in E.
  destruct E as (E0 & E1 & s & Hp & Hs & Ht). cbv zeta in Ht.
  apply sorted_strongly in Hs.
  remember (Z.of_nat (length a)) as n eqn:Hndef.
  remember ((inject_Z n - 1) * (q / 100)) as v eqn:Hvdef.
  assert (Hn : (1 <= n)%Z) by (subst n; destruct a; [congruence | simpl; lia]).
  assert (Hq0 : 0 <= q / 100) by (apply Qle_shift_div_l; lra).
  assert (Hq1 : q / 100 <= 1) by (apply Qle_shift_div_r; lra).
  assert (Hinj : inject_Z n - 1 == inject_Z (n - 1)).
  { unfold Z.sub. rewrite inject_Z_plus. reflexivity. }
  assert (Hn1 : 0 <= inject_Z n - 1).
  { rewrite Hinj. unfold Qle. simpl. lia. }
  assert (Hv0 : 0 <= v) by (subst v; apply Qmult_le_0_compat; assumption).
  assert (Hv1 : v <= inject_Z (n - 1)).
  { assert (Hp1 : 0 <= (inject_Z n - 1) * (1 - q / 100))
      by (apply Qmult_le_0_compat; lra).
    rewrite <- Hinj. subst v. nra. }
  remember (Qfloor v) as lo eqn:Hlodef.
  assert (Hlo0 : (0 <= lo)%Z).
  { subst lo. change 0%Z with (Qfloor 0). apply Qfloor_resp_le. exact Hv0. }
  assert (Hlo1 : (lo <= n - 1)%Z).
  { subst lo. rewrite <- (Qfloor_Z (n - 1)). apply Qfloor_resp_le. exact Hv1. }
  assert (Hg0 : 0 <= v - inject_Z lo).
  { subst lo. pose proof (Qfloor_le v). lra. }
  assert (Hg1 : v - inject_Z lo <= 1).
  { subst lo. pose proof (Qlt_floor v) as Hf.
    rewrite inject_Z_plus in Hf. change (inject_Z 1) with 1 in Hf. lra. }
  assert (Hlen : length s = Z.to_nat n)
    by (rewrite (Permutation_length Hp); subst n; lia).
  exists s, (Z.to_nat lo), (Z.to_nat (Z.min (lo + 1) (n - 1))).
  split; [exact Hp|]. split; [exact Hs|].
  split; [lia|]. split; [lia|]. split; [lia|].
  rewrite (nth_indep s 0 (hd 0 s)) by lia.
  rewrite (nth_indep s 0 (hd 0 s) (n := Z.to_nat (Z.min (lo + 1) (n - 1))))
    by lia.
  rewrite Ht. apply lerp_between; [|exact Hg0|exact Hg1].
  apply sorted_nth_le; [exact Hs | lia | lia].
Qed.




Section Threshold.
Context {B : Backend} {H : Hooks}.

(** X11. After a [fit] that returns, the threshold lies between the least
    and the greatest of the stored scores. *)
Theorem fit_threshold_between data label w w' :
  fit data label w = (Ok tt, w') ->
  exists score thr lo hi,
    decision_score_ (super (self w')) = Bound score
    /\ threshold_ (super (self w')) = Bound thr
    /\ Tensor.min score = Some lo
    /\ Tensor.max score = Some hi
    /\ lo <= thr /\ thr <= hi.
Proof.
  intros E. apply fit_ok in E.
  destruct E as (score & c & t & _ & _ & Hs & Hp & Ht & _).
  apply percentile_position in Hp.
  destruct Hp as (s & k & k' & Hperm & Hsort & Hkk & Hk' & _ & Hlo & Hhi).
  assert (Hin : In (nth k s 0) score)
    by (apply (Permutation_in _ Hperm); apply nth_In; lia).
  assert (Hin' : In (nth k' s 0) score)
    by (apply (Permutation_in _ Hperm); apply nth_In; lia).
  destruct (Tensor.min score) as [lo|] eqn:Emin;
    [|destruct score; [contradiction | discriminate]].
  destruct (Tensor.max score) as [hi|] eqn:Emax;
    [|destruct score; [contradiction | discriminate]].
  exists score, t, lo, hi. repeat split; auto.
  - apply (Qle_trans _ (nth k s 0)); [|exact Hlo].
    apply (tensor_min_spec _ Emin). exact Hin.
  - apply (Qle_trans _ (nth k' s 0)); [exact Hhi|].
    apply (tensor_max_spec _ Emax). exact Hin'.
Qed.


End Threshold.

Lemma fit_threshold_between_witness :
  exists score thr lo hi,
    decision_score_ (super (self toy_fitted)) = Bound score
    /\ threshold_ (super (self toy_fitted)) = Bound thr
    /\ Tensor.min score = Some lo
    /\ Tensor.max score = Some hi
    /\ lo <= thr /\ thr <= hi.
Proof.
  exact (fit_threshold_between (H := Toy.hooks) (Toy.graph [3; 1; 2; 5; 4])
           None toy_start toy_fit_run).
Defined.


(** ** The range of the confidence *)

Lemma choose_nonneg n k : (0 <= Scipy.choose n k)%Z.
Proof.
  revert k. induction n as [|n IH]; intros [|k]; simpl; try lia.
  pose proof (IH k). pose proof (IH (S k)). lia.
Qed.

Lemma choose_zero n : Scipy.choose n 0 = 1%Z.
Proof. destruct n; reflexivity. Qed.

Lemma choose_gt n k : (n < k)%nat -> Scipy.choose n k = 0%Z.
Proof.
  revert k. induction n as [|n IH]; intros [|k] Hk; simpl; try lia.
  rewrite (IH k), (IH (S k)) by lia. reflexivity.
Qed.

Lemma Qpower_succ (a : Q) (i : nat) :
  a ^ Z.of_nat (S i) == a * a ^ Z.of_nat i.
Proof.
  rewrite Nat2Z.inj_succ. unfold Z.succ.
  rewrite Qpower_plus' by lia.
  change (a ^ 1) with a. ring.
Qed.

Lemma pmf_nonneg n p i : 0 <= p -> p <= 1 -> 0 <= Scipy.pmf n p i.
Proof.
  intros H0 H1. unfold Scipy.pmf.
  repeat apply Qmult_le_0_compat.
  - pose proof (choose_nonneg n i). unfold Qle. simpl. lia.
  - apply Qpower_0_le. exact H0.
  - apply Qpower_0_le. lra.
Qed.

(** Pascal's rule, on the probabilities. *)
Lemma pmf_zero_step n p :
  Scipy.pmf (S n) p 0 == (1 - p) * Scipy.pmf n p 0.
Proof.
  unfold Scipy.pmf. rewrite !Nat.sub_0_r, Qpower_succ, !choose_zero.
  set (b := (1 - p) ^ Z.of_nat n). ring.
Qed.

Lemma pmf_step n p i :
  Scipy.pmf (S n) p (S i)
  == p * Scipy.pmf n p i + (1 - p) * Scipy.pmf n p (S i).
Proof.
  unfold Scipy.pmf.
  change (Scipy.choose (S n) (S i))
    with (Scipy.choose n i + Scipy.choose n (S i))%Z.
  change (S n - S i)%nat with (n - i)%nat.
  rewrite inject_Z_plus, Qpower_succ.
  destruct (le_lt_dec n i) as [Hle|Hlt].
  - rewrite (choose_gt (n := n) (k := S i)) by lia.
    replace (n - S i)%nat with 0%nat by lia.
    replace (n - i)%nat with 0%nat by lia.
    set (a := p ^ Z.of_nat i). set (b := (1 - p) ^ Z.of_nat 0).
    set (u := inject_Z (Scipy.choose n i)).
    change (inject_Z 0) with 0. ring.
  - replace (n - i)%nat with (S (n - S i)) by lia.
    rewrite Qpower_succ.
    set (a := p ^ Z.of_nat i). set (b := (1 - p) ^ Z.of_nat (n - S i)).
    set (u := inject_Z (Scipy.choose n i)).
    set (v := inject_Z (Scipy.choose n (S i))).
    ring.
Qed.

Lemma pmf_upto_step n p k :
  Scipy.pmf_upto (S n) p (S k)
  == p * Scipy.pmf_upto n p k + (1 - p) * Scipy.pmf_upto n p (S k).
Proof.
  induction k as [|k IH].
  - simpl. rewrite pmf_zero_step, pmf_step. ring.
  - change (Scipy.pmf_upto (S n) p (S (S k)))
      with (Scipy.pmf_upto (S n) p (S k) + Scipy.pmf (S n) p (S (S k))).
    rewrite IH, pmf_step.
    change (Scipy.pmf_upto n p (S (S k)))
      with (Scipy.pmf_upto n p (S k) + Scipy.pmf n p (S (S k))).
    change (Scipy.pmf_upto n p (S k))
      with (Scipy.pmf_upto n p k + Scipy.pmf n p (S k)).
    ring.
Qed.

Lemma pmf_upto_no_trial p k : Scipy.pmf_upto 0 p k == 1.
Proof.
  induction k as [|k IH].
  - simpl. unfold Scipy.pmf. simpl. ring.
  - simpl. rewrite IH. unfold Scipy.pmf. simpl Scipy.choose.
    change (inject_Z 0) with 0. ring.
Qed.

Lemma pmf_upto_range n p k :
  0 <= p -> p <= 1 ->
  0 <= Scipy.pmf_upto n p k /\ Scipy.pmf_upto n p k <= 1.
Proof.
  intros H0 H1. revert k. induction n as [|n IH]; intros k.
  - rewrite pmf_upto_no_trial. lra.
  - destruct k as [|k].
    + destruct (IH 0%nat) as [Ha Hb]. simpl in *.
      rewrite pmf_zero_step. split; nra.
    + destruct (IH k) as [Ha Hb]. destruct (IH (S k)) as [Hc Hd].
      rewrite pmf_upto_step. split; nra.
Qed.

Lemma binom_cdf_range k n p :
  0 <= p -> p <= 1 ->
  0 <= Scipy.binom_cdf k n p /\ Scipy.binom_cdf k n p <= 1.
Proof.
  intros H0 H1. unfold Scipy.binom_cdf.
  destruct (k <? 0)%Z; [lra | apply pmf_upto_range; assumption].
Qed.

Lemma post_prob_range (c n : nat) :
  (c <= n)%nat ->
  0 <= (1 + inject_Z (Z.of_nat c)) / (2 + inject_Z (Z.of_nat n))
  /\ (1 + inject_Z (Z.of_nat c)) / (2 + inject_Z (Z.of_nat n)) <= 1.
Proof.
  intros Hcn.
  assert (Hc : 0 <= inject_Z (Z.of_nat c)).
  { change 0 with (inject_Z 0). rewrite <- Zle_Qle. lia. }
  assert (Hn : inject_Z (Z.of_nat c) <= inject_Z (Z.of_nat n)).
  { rewrite <- Zle_Qle. lia. }
  split.
  - apply Qle_shift_div_l; lra.
  - apply Qle_shift_div_r; lra.
Qed.

(** X13. On a fitted detector every confidence [_predict_conf] returns is
    a probability: it lies between 0 and 1, whatever the contamination
    and the threshold are; there is one confidence per test score and the
    detector is not changed. *)
Theorem predict_conf_range (d : Detector) (train : list Q) (c thr : Q)
  (score : list Q) :
  decision_score_ d = Bound train ->
  contamination d = Bound c ->
  threshold_ d = Bound thr ->
  exists conf,
    _predict_conf score d = (Ok conf, d)
    /\ length conf = length score
    /\ Forall (fun x => 0 <= x /\ x <= 1) conf.
Proof.
  intros Hds Hc Hthr.
  unfold _predict_conf, bind, get, lift, ret.
  rewrite Hds, Hc, Hthr. simpl.
  rewrite count_nonzero_le_matrix.
  unfold Tensor.gt_long. rewrite !map_map.
  rewrite (where_map
             (fun s => (0 =? (if Qgtb s thr then 1 else 0))%Z)
             (fun s => 1 - (1 - Scipy.binom_cdf _ (length train) _))
             (fun s => 1 - Scipy.binom_cdf _ (length train) _) score).
  eexists. split; [reflexivity|]. split; [apply length_map|].
  apply Forall_forall. intros x Hx.
  apply in_map_iff in Hx. destruct Hx as (s & <- & _).
  destruct (post_prob_range (c := length (filter (fun t => Qle_bool t s) train))
              (n := length train)) as [Hp0 Hp1].
  { apply filter_length_le. }
  destruct (binom_cdf_range
              (Z.of_nat (length train)
               - int (fmul (inject_Z (Z.of_nat (length train))) c))
              (length train) Hp0 Hp1) as [Hb0 Hb1].
  destruct (0 =? (if Qgtb s thr then 1 else 0))%Z; split; lra.
Qed.

Lemma predict_conf_range_witness :
  exists conf,
    _predict_conf [7; 2] five_scores = (Ok conf, five_scores)
    /\ length conf = 2%nat
    /\ Forall (fun x => 0 <= x /\ x <= 1) conf.
Proof.
  exact (@predict_conf_range five_scores [3; 1; 2; 5; 4] (1 # 10) (23 # 5)
           [7; 2] eq_refl eq_refl eq_refl).
Defined.

(** ** Training without an epoch *)

Lemma percentile_zeros n q t :
  Numpy.percentile (Tensor.zeros n) q = Some t -> t == 0.
Proof.
  intros E. apply percentile_position in E.
  destruct E as (s & k & k' & Hp & _ & _ & _ & _ & Hlo & Hhi).
  assert (Hz : forall i, nth i s 0 = 0).
  { intros i. destruct (Nat.lt_ge_cases i (length s)) as [Hi|Hi].
    - apply (repeat_spec n 0). apply (Permutation_in _ Hp).
      apply nth_In. exact Hi.
    - apply nth_overflow. exact Hi. }
  rewrite Hz in Hlo, Hhi. apply Qle_antisym; assumption.
Qed.

Lemma gt_long_zeros n t : t == 0 -> Tensor.gt_long (Tensor.zeros n) t = repeat 0%Z n.
Proof.
  intros Ht. unfold Tensor.gt_long, Tensor.zeros.
  assert (Hc : Qgtb 0 t = false) by (apply Qgtb_le; rewrite Ht; apply Qle_refl).
  induction n as [|n IH]; simpl; [reflexivity|].
  rewrite Hc, IH. reflexivity.
Qed.

Section NoEpoch.
Context {B : Backend} {H : Hooks}.

(** X14. With [epoch] at most 0 a [fit] that returns has trained nothing:
    no optimizer call and no report is made, every stored score is 0, the
    threshold is 0 and no node is labelled an outlier. *)
Theorem fit_no_epoch data label w w' :
  (epoch (self w) <= 0)%Z ->
  fit data label w = (Ok tt, w') ->
  exists data' t,
    fst (process_graph (self w) data) = Ok data'
    /\ decision_score_ (super (self w'))
       = Bound (Tensor.zeros (fst (x_shape data')))
    /\ threshold_ (super (self w')) = Bound t /\ t == 0
    /\ label_ (super (self w')) = Bound (repeat 0%Z (fst (x_shape data')))
    /\ trace w' = trace w.
Proof.
  intros Hep E. unfold fit in E.
  apply bind_ok in E. destruct E as (data' & w1 & E1 & E).
  pose proof E1 as Ecall. apply call_ok in Ecall.
  keeps_in epoch_trace E1. cbv beta in E. exists data'.
  destruct (x_shape data') as [n dim]. simpl.
  do 17 (apply bind_ok in E; destruct E as (? & ? & E2 & E);
         keeps_in epoch_trace E2; rewrite E1 in E2; clear E1; rename E2 into E1;
         cbv beta in E).
  apply bind_ok in E. destruct E as (u3 & w3 & E3 & E).
  unfold on_super, modify in E3. injection E3 as _ <-. cbv beta in E.
  apply bind_ok in E. destruct E as (ep & w4 & E4 & E).
  apply read_ok in E4. destruct E4 as [-> ->]. cbv beta in E.
  unfold epoch_trace in E1. injection E1 as Ee Et.
  apply bind_ok in E. destruct E as (l2 & w5 & E5 & E).
  simpl in E5. rewrite Ee in E5.
  replace (Z.to_nat (epoch (self w))) with 0%nat in E5 by lia.
  simpl in E5. unfold ret in E5. injection E5 as _ <-.
  unfold on_super in E. simpl in E.
  match type of E with
  | context [_process_decision_score ?d] =>
      destruct (_process_decision_score d) as [r d'] eqn:Ep
  end.
  injection E as -> <-. apply process_decision_score_ok in Ep.
  destruct Ep as (score & c & t & Hs & _ & Hp & ->).
  simpl in Hs. injection Hs as <-.
  apply percentile_zeros in Hp.
  exists t. simpl. rewrite (gt_long_zeros n Hp). auto 10.
Qed.

End NoEpoch.

Lemma fit_no_epoch_witness :
  exists w' t,
    fit (H := Toy.hooks) (Toy.graph [3; 1; 2; 5; 4]) None toy_idle = (Ok tt, w')
    /\ decision_score_ (super (self w')) = Bound [0; 0; 0; 0; 0]
    /\ threshold_ (super (self w')) = Bound t /\ t == 0
    /\ label_ (super (self w')) = Bound [0; 0; 0; 0; 0]%Z
    /\ trace w' = [].
Proof.
  assert (E : fit (H := Toy.hooks) (Toy.graph [3; 1; 2; 5; 4]) None toy_idle
              = (Ok tt,
                 snd (fit (H := Toy.hooks) (Toy.graph [3; 1; 2; 5; 4]) None
                        toy_idle)))
    by (vm_compute; reflexivity).
  destruct (fit_no_epoch (H := Toy.hooks) (Toy.graph [3; 1; 2; 5; 4]) None
              toy_idle) with (2 := E)
    as (data' & t & Hd & Hs & Ht & Ht0 & Hl & Htr).
  - vm_compute. discriminate.
  - injection Hd as <-. eexists. exists t. split; [exact E|]. auto 10.
Defined.

(** ** The scores a batch writes *)

Section Writes.
Variable A : Type.

Lemma set_nth_bound (t : list A) i v t' :
  Tensor.set_nth t i v = Some t' -> (i < length t)%nat.
Proof.
  revert i t'. induction t as [|x r IH]; intros [|j] t' E; simpl in *;
    try discriminate; try lia.
  destruct (Tensor.set_nth r j v) eqn:Er; [|discriminate].
  apply IH in Er. lia.
Qed.

Lemma set_nth_same (t : list A) i v t' :
  Tensor.set_nth t i v = Some t' -> nth_error t' i = Some v.
Proof.
  revert i t'. induction t as [|x r IH]; intros [|j] t' E; simpl in *;
    try discriminate.
  - injection E as <-. reflexivity.
  - destruct (Tensor.set_nth r j v) eqn:Er; [|discriminate].
    injection E as <-. simpl. eauto.
Qed.

Lemma set_nth_other (t : list A) i v t' j :
  Tensor.set_nth t i v = Some t' -> j <> i ->
  nth_error t' j = nth_error t j.
Proof.
  revert i j t'. induction t as [|x r IH]; intros [|i] j t' E Hj; simpl in *;
    try discriminate.
  - injection E as <-. destruct j; [congruence | reflexivity].
  - destruct (Tensor.set_nth r i v) eqn:Er; [|discriminate].
    injection E as <-. destruct j as [|j]; simpl; [reflexivity|].
    eapply IH; eauto.
Qed.

Lemma put_all_spec (iv : list (nat * A)) : forall t t',
  Tensor.put_all t iv = Some t' ->
  Forall (fun i => (i < length t)%nat) (map fst iv)
  /\ (forall j, ~ In j (map fst iv) -> nth_error t' j = nth_error t j)
  /\ (NoDup (map fst iv) ->
      forall i v, In (i, v) iv -> nth_error t' i = Some v).
Proof.
  induction iv as [|[i v] r IH]; simpl; intros t t' E.
  - injection E as <-. split; [constructor|]. split; [reflexivity|].
    intros _ i v [].
  - destruct (Tensor.set_nth t i v) as [t1|] eqn:E1; [|discriminate].
    destruct (IH _ _ E) as (Hb & Ho & Hw).
    pose proof E1 as Hlen. apply set_nth_length in Hlen.
    rewrite Hlen in Hb.
    split; [|split].
    + constructor; [eapply set_nth_bound; eauto | exact Hb].
    + intros j Hj. rewrite Ho by tauto.
      eapply set_nth_other; eauto.
    + intros Hnd i' v' [Hin|Hin].
      * injection Hin as <- <-. inversion Hnd as [|? ? Hni _]; subst.
        rewrite (Ho _ Hni). eapply set_nth_same; eauto.
      * inversion Hnd; subst. eapply Hw; eauto.
Qed.

Lemma combine_fst (l : list nat) : forall (l' : list A),
  length l' = length l -> map fst (combine l l') = l.
Proof.
  induction l as [|x r IH]; intros [|y r'] E; simpl in *; try discriminate;
    [reflexivity|].
  f_equal. apply IH. lia.
Qed.

Lemma combine_in_nth (l : list nat) : forall (l' : list A) k a b,
  nth_error l k = Some a -> nth_error l' k = Some b -> In (a, b) (combine l l').
Proof.
  induction l as [|x r IH]; intros [|y r'] [|k] a b Ha Hb; simpl in *;
    try discriminate.
  - injection Ha as <-. injection Hb as <-. left. reflexivity.
  - right. eapply IH; eauto.
Qed.

End Writes.

Lemma index_put_written (t : list Q) idx v t' :
  Tensor.index_put t idx v = Some t' -> written t idx v t'.
Proof.
  intros E. unfold written.
  split; [pose proof E as Hlen; apply index_put_length in Hlen; exact Hlen|].
  unfold Tensor.index_put in E.
  destruct (Nat.eqb (length v) (length idx)) eqn:El.
  - apply Nat.eqb_eq in El. apply put_all_spec in E.
    rewrite (@combine_fst _ idx v El) in E. destruct E as (Hb & Ho & Hw).
    split; [exact Hb|]. split; [exact Ho|].
    intros Hnd _ k i Hk.
    assert (Hlt : (k < length v)%nat).
    { rewrite El. apply nth_error_Some. congruence. }
    destruct (nth_error v k) as [x|] eqn:Ex;
      [|apply nth_error_None in Ex; lia].
    apply (Hw Hnd). eapply combine_in_nth; eauto.
  - apply Nat.eqb_neq in El.
    destruct v as [|x [|y r]]; try discriminate.
    apply put_all_spec in E.
    rewrite (@combine_fst _ idx (repeat x (length idx))) in E
      by apply repeat_length.
    destruct E as (Hb & Ho & _).
    split; [exact Hb|]. split; [exact Ho|].
    intros _ Hl. contradiction.
Qed.

Section BatchWrites.
Context {B : Backend} {H : Hooks}.

(** X15. A training batch that completes has assigned the scores of
    [forward_model] to [decision_score_] at the seed nodes of the batch,
    [node_idx[:batch_size]]: every seed is a position of the stored
    scores, the scores of all other nodes are what they were, and with
    distinct seeds the [k]-th seed holds the [k]-th score of the batch. *)
Theorem fit_batch_writes l sampled_data w l' w' ds :
  decision_score_ (super (self w)) = Bound ds ->
  fit_batch l sampled_data w = (Ok l', w') ->
  exists loss score ds',
    fst (forward_model (self w) sampled_data) = Ok (loss, score)
    /\ decision_score_ (super (self w')) = Bound ds'
    /\ written ds (seeds sampled_data) score ds'.
Proof.
  intros Hds E. unfold fit_batch in E.
  apply bind_ok in E. destruct E as ([loss score] & w1 & E1 & E).
  pose proof E1 as Hfw. apply call_ok in Hfw.
  keeps_in (@stored_score B) E1. cbv beta iota in E.
  apply bind_ok in E. destruct E as (g & w2 & E2 & E).
  keeps_in (@stored_score B) E2. cbv beta in E.
  apply bind_ok in E. destruct E as (l1 & w3 & E3 & E).
  keeps_in (@stored_score B) E3. cbv beta in E.
  apply bind_ok in E. destruct E as (se & w4 & E4 & E).
  keeps_in (@stored_score B) E4. cbv beta in E.
  apply bind_ok in E. destruct E as (u & w5 & E5 & E).
  keeps_in (@stored_score B) E5. cbv beta in E.
  assert (Hds5 : decision_score_ (super (self w5)) = Bound ds).
  { change (stored_score w5 = Bound ds).
    rewrite E5, E4, E3, E2, E1. exact Hds. }
  apply bind_ok in E. destruct E as (a & w6 & E6 & E).
  apply read_ok in E6. destruct E6 as [-> ->]. cbv beta in E.
  apply bind_ok in E. destruct E as (ds0 & w7 & E7 & E).
  apply lift_ok in E7. destruct E7 as [E7 ->]. cbv beta in E.
  rewrite Hds5 in E7. simpl in E7. injection E7 as <-.
  apply bind_ok in E. destruct E as (ds' & w8 & E8 & E).
  apply lift_ok in E8. destruct E8 as [E8 ->]. cbv beta in E.
  apply of_option_ok in E8. apply index_put_written in E8.
  apply bind_ok in E. destruct E as (u' & w9 & E9 & E).
  unfold on_super, modify in E9. injection E9 as _ <-. cbv beta in E.
  keeps_in (@stored_score B) E.
  exists loss, score, ds'. split; [exact Hfw|]. split; [|exact E8].
  change (stored_score w' = Bound ds'). rewrite E. reflexivity.
Qed.

(** X16. A batch of [decision_function] that completes has assigned the
    scores of [forward_model] to the local [outlier_score] at the seed
    nodes of the batch, in the same way: seeds in range, other entries
    kept, and with distinct seeds the [k]-th seed holds the [k]-th score. *)
Theorem decision_batch_writes l outlier_score sampled_data w l' out' w' :
  decision_batch (l, outlier_score) sampled_data w = (Ok (l', out'), w') ->
  exists loss score,
    fst (forward_model (self w) sampled_data) = Ok (loss, score)
    /\ written outlier_score (seeds sampled_data) score out'.
Proof.
  intros E. unfold decision_batch in E.
  apply bind_ok in E. destruct E as ([loss score] & w1 & E1 & E).
  apply call_ok in E1. cbv beta iota in E.
  do 4 (apply bind_ok in E; destruct E as (? & ? & _ & E); cbv beta in E).
  apply bind_ok in E. destruct E as (o & w2 & E2 & E).
  apply lift_ok in E2. destruct E2 as [E2 ->]. cbv beta in E.
  apply of_option_ok in E2. apply index_put_written in E2.
  unfold ret in E. injection E as _ <- _.
  exists loss, score. split; [exact E1 | exact E2].
Qed.

End BatchWrites.

(** ** The loss decision_function adds up *)

Section TestLoss.
Context {B : Backend} {H : Hooks}.

(** X17. A batch of [decision_function] that completes leaves in
    [test_loss] the loss of this batch alone, [loss.item() * batch_size],
    whatever the batches before it gave: the local is assigned, not added
    to. Under [gan] the same holds of [test_loss_d], while [test_loss_g]
    is added to. *)
Theorem decision_batch_loss l outlier_score sampled_data w l' out' w' :
  decision_batch (l, outlier_score) sampled_data w = (Ok (l', out'), w') ->
  exists loss score,
    fst (forward_model (self w) sampled_data) = Ok (loss, score)
    /\ (gan (self w) = false ->
        exists x,
          loss = Single x
          /\ epoch_loss l'
             = Some (item x
                     * inject_Z (Z.of_nat
                                   (SampledData.batch_size sampled_data))))
    /\ (gan (self w) = true ->
        exists l0 l1 tg,
          loss = Pair l0 l1
          /\ epoch_loss_g l = Some tg
          /\ epoch_loss_g l'
             = Some (tg + item l0
                          * inject_Z (Z.of_nat
                                        (SampledData.batch_size sampled_data)))
          /\ epoch_loss_d l'
             = Some (item l1
                     * inject_Z (Z.of_nat
                                   (SampledData.batch_size sampled_data)))).
Proof.
  intros E. unfold decision_batch in E.
  apply bind_ok in E. destruct E as ([loss score] & w1 & E1 & E).
  pose proof E1 as Hfw. apply call_ok in Hfw.
  keeps_in (@gan_of B) E1. cbv beta iota in E.
  apply bind_ok in E. destruct E as (se & w2 & E2 & E).
  keeps_in (@gan_of B) E2. cbv beta in E.
  apply bind_ok in E. destruct E as (u & w3 & E3 & E).
  keeps_in (@gan_of B) E3. cbv beta in E.
  apply bind_ok in E. destruct E as (g & w4 & E4 & E).
  apply read_ok in E4. destruct E4 as [-> ->]. cbv beta in E.
  assert (Hg : gan (self w3) = gan (self w)).
  { change (gan_of w3 = gan_of w). rewrite E3, E2, E1. reflexivity. }
  rewrite Hg in E.
  apply bind_ok in E. destruct E as (l1 & w5 & E5 & E).
  apply bind_ok in E. destruct E as (o & w6 & _ & E).
  unfold ret in E. injection E as <- _ _.
  exists loss, score. split; [exact Hfw|].
  destruct (gan (self w)); split; intros Hgan; try discriminate Hgan.
  - apply bind_ok in E5. destruct E5 as (tg & w7 & E6 & E5).
    unfold local in E6. apply lift_ok in E6. destruct E6 as [E6 ->].
    apply of_option_ok in E6.
    destruct loss as [x|l0 l1'];
      [unfold bind, loss_at, raise in E5; simpl in E5; discriminate E5|].
    unfold bind, loss_at, ret in E5. simpl in E5. injection E5 as <- _.
    exists l0, l1', tg. auto.
  - destruct loss as [x|l0 l1'];
      [|unfold bind, loss_item, raise in E5; simpl in E5; discriminate E5].
    unfold bind, loss_item, ret in E5. simpl in E5. injection E5 as <- _.
    exists x. auto.
Qed.

End TestLoss.

(** * DOMINANTBase: how the layers are split *)

Lemma half_floor_ceiling (n : Z) :
  Qfloor (inject_Z n / 2) = (n / 2)%Z
  /\ Qceiling (inject_Z n / 2) = (n - n / 2)%Z.
Proof.
  unfold Qceiling, Qfloor, Qdiv, Qopp, Qmult, Qinv, inject_Z. simpl.
  rewrite Z.mul_1_r. split; [reflexivity|].
  pose proof (Z.div_mod n 2). pose proof (Z.mod_pos_bound n 2).
  pose proof (Z.div_mod (- n) 2). pose proof (Z.mod_pos_bound (- n) 2).
  lia.
Qed.

Section DominantLayers.
Variables Act Kwargs LossFunc Net Decoder : Type.
Variable double_mse_loss : LossFunc.
Variable DotProductDecoder
  : Dominant.DecoderArgs Act Kwargs Net -> Dominant.Failure + Decoder.

(** X18. A [DOMINANTBase] is built only from at least two layers, and
    then the layers are split between the encoder and the decoders: the
    shared encoder and the attribute decoder have [num_layers] layers
    together, the encoder the smaller half and at least one, the
    structure decoder one layer less than the attribute decoder; the
    encoder maps [in_dim] to [hid_dim] and the attribute decoder maps
    back to [in_dim]. *)
Theorem DOMINANTBase_layer_split (in_dim hid_dim num_layers : Z) (dropout : Q)
  (act : Act) (sigmoid_s : bool)
  (backbone : Dominant.BackboneArgs Act Kwargs -> Dominant.Failure + Net)
  (kwargs : Kwargs) (m : Dominant.DOMINANTBase LossFunc Net Decoder) :
  Dominant.DOMINANTBase__init__ double_mse_loss DotProductDecoder
    in_dim hid_dim num_layers dropout act sigmoid_s backbone kwargs = inr m ->
  (2 <= num_layers)%Z
  /\ exists e a s,
       backbone e = inr (Dominant.shared_encoder m)
       /\ backbone a = inr (Dominant.attr_decoder m)
       /\ DotProductDecoder s = inr (Dominant.struct_decoder m)
       /\ (Dominant.num_layers e + Dominant.num_layers a = num_layers)%Z
       /\ (1 <= Dominant.num_layers e)%Z
       /\ (Dominant.num_layers e <= Dominant.num_layers a)%Z
       /\ (Dominant.num_layers a <= Dominant.num_layers e + 1)%Z
       /\ Dominant.dec_num_layers s = (Dominant.num_layers a - 1)%Z
       /\ Dominant.in_channels e = in_dim
       /\ Dominant.out_channels e = hid_dim
       /\ Dominant.in_channels a = hid_dim
       /\ Dominant.out_channels a = in_dim
       /\ Dominant.dec_in_dim s = hid_dim.
Proof.
  unfold Dominant.DOMINANTBase__init__. intros E.
  destruct (num_layers <? 2)%Z eqn:Hn; [discriminate E|].
  apply Z.ltb_ge in Hn. split; [exact Hn|].
  cbv zeta in E.
  destruct (half_floor_ceiling num_layers) as [Hf Hc].
  rewrite Hf, Hc in E.
  match type of E with
  | context [backbone ?x] =>
      destruct (backbone x) as [?|enc] eqn:Ee; [discriminate E|]; exists x
  end.
  match type of E with
  | context [backbone ?x] =>
      destruct (backbone x) as [?|att] eqn:Ea; [discriminate E|]; exists x
  end.
  match type of E with
  | context [DotProductDecoder ?x] =>
      destruct (DotProductDecoder x) as [?|str] eqn:Es; [discriminate E|];
      exists x
  end.
  injection E as <-. simpl.
  pose proof (Z.div_mod num_layers 2).
  pose proof (Z.mod_pos_bound num_layers 2).
  repeat split; try assumption; try reflexivity; lia.
Qed.

End DominantLayers.

Lemma DOMINANTBase_layer_split_witness :
  exists m e a s,
    Dominant.DOMINANTBase__init__ tt Dominant.recording_decoder
      16 64 5 0 tt false Dominant.recording_backbone tt = inr m
    /\ Dominant.shared_encoder m = e
    /\ Dominant.attr_decoder m = a
    /\ Dominant.struct_decoder m = s
    /\ Dominant.num_layers e = 2%Z
    /\ Dominant.num_layers a = 3%Z
    /\ Dominant.dec_num_layers s = 2%Z.
Proof.
  destruct (Dominant.DOMINANTBase__init__ tt Dominant.recording_decoder
              16 64 5 0 tt false Dominant.recording_backbone tt)
    as [f|m] eqn:E; [vm_compute in E; discriminate E|].
  destruct (DOMINANTBase_layer_split _ _ _ _ _ _ _ _ _ _ E)
    as (_ & e & a & s & He & Ha & Hs & Hsum & H1 & Hle & Hle' & Hd & _).
  injection He as He. injection Ha as Ha. injection Hs as Hs.
  exists m, e, a, s.
  repeat split; try (symmetry; assumption); lia.
Defined.

(** * The batches of the small detector *)

Lemma fit_batch_writes_witness :
  exists l' w' ds',
    fit_batch (H := Toy.hooks) Toy.gan_locals toy_batch
      (mkWorld Toy.gan_detector []) = (Ok l', w')
    /\ decision_score_ (super (self w')) = Bound ds'
    /\ written (Tensor.zeros 5) [3; 1]%nat [30; 10] ds'.
Proof.
  destruct (fit_batch (H := Toy.hooks) Toy.gan_locals toy_batch
              (mkWorld Toy.gan_detector [])) as [[l'|e] w'] eqn:E;
    [|vm_compute in E; discriminate E].
  destruct (fit_batch_writes (H := Toy.hooks) Toy.gan_locals toy_batch
              (mkWorld Toy.gan_detector []) eq_refl E)
    as (loss & score & ds' & Hfw & Hds & Hw).
  injection Hfw as _ <-.
  exists l', w', ds'. split; [reflexivity|]. split; [exact Hds | exact Hw].
Defined.

Lemma decision_batch_writes_witness :
  exists l' out' w',
    decision_batch (H := Toy.hooks) (toy_test_locals, Tensor.zeros 5) toy_batch
      toy_fitted = (Ok (l', out'), w')
    /\ written (Tensor.zeros 5) [3; 1]%nat [30; 10] out'.
Proof.
  destruct (decision_batch (H := Toy.hooks) (toy_test_locals, Tensor.zeros 5)
              toy_batch toy_fitted) as [[[l' out']|e] w'] eqn:E;
    [|vm_compute in E; discriminate E].
  destruct (decision_batch_writes (H := Toy.hooks) _ _ _ _ E)
    as (loss & score & Hfw & Hw).
  injection Hfw as _ <-.
  exists l', out', w'. split; [reflexivity | exact Hw].
Defined.

Lemma decision_batch_loss_witness :
  exists l' out' w',
    decision_batch (H := Toy.hooks) (toy_test_locals, Tensor.zeros 5) toy_batch
      toy_fitted = (Ok (l', out'), w')
    /\ epoch_loss toy_test_locals = Some 7
    /\ epoch_loss l' = Some (1 * inject_Z 2).
Proof.
  destruct (decision_batch (H := Toy.hooks) (toy_test_locals, Tensor.zeros 5)
              toy_batch toy_fitted) as [[[l' out']|e] w'] eqn:E;
    [|vm_compute in E; discriminate E].
  destruct (decision_batch_loss (H := Toy.hooks) _ _ _ _ E)
    as (loss & score & Hfw & Hplain & _).
  destruct (Hplain eq_refl) as (x & -> & Hl).
  injection Hfw as <- _.
  exists l', out', w'. split; [reflexivity|]. split; [reflexivity | exact Hl].
Defined.

(** * Labels for a new graph *)

Section NewData.
Context {B : Backend} {H : Hooks}.

(** X19. [predict] on a new graph labels its nodes by the threshold of
    the training: with the labels and the scores asked for, it returns
    the scores [decision_function] computes for the graph and, for each
    of them, 1 if it exceeds the stored [threshold_] and 0 if not. The
    call ends in the state [decision_function] leaves, with
    [decision_score_], [threshold_] and [label_] as they were. *)
Theorem predict_new_data data label pm w out w' :
  predict (Some data) label true true false pm false false w = (Ok out, w') ->
  exists score thr,
    decision_function data label w = (Ok score, w')
    /\ threshold_ (super (self w)) = Bound thr
    /\ out = Tuple [OutPred (Tensor.gt_long score thr); OutScore score]
    /\ decision_score_ (super (self w')) = decision_score_ (super (self w))
    /\ threshold_ (super (self w')) = threshold_ (super (self w))
    /\ label_ (super (self w')) = label_ (super (self w)).
Proof.
  intros E. unfold predict in E.
  apply bind_ok in E. destruct E as (u & w1 & E0 & E).
  unfold ret in E0. injection E0 as _ <-.
  apply bind_ok in E. destruct E as (out0 & w2 & E1 & E). cbv beta in E.
  unfold ret in E. injection E as <- <-.
  unfold Detector_predict in E1.
  apply bind_ok in E1. destruct E1 as (d & w3 & Ea & E1).
  apply read_ok in Ea. destruct Ea as [-> ->]. cbv beta in E1.
  apply bind_ok in E1. destruct E1 as (u' & w4 & Eb & E1).
  apply lift_ok in Eb. destruct Eb as [_ ->]. cbv beta in E1.
  apply bind_ok in E1. destruct E1 as (score & w5 & Ec & E1).
  cbv beta in E1.
  pose proof (decision_function_keeps_fitted data label _ Ec) as Kf.
  unfold fitted_frame in Kf. injection Kf as Kt Kl.
  assert (Ks : keeps stored_score (decision_function data label))
    by (unfold decision_function; keeps_tac).
  apply Ks in Ec as Kd. unfold stored_score in Kd.
  apply bind_ok in E1. destruct E1 as (output & w6 & Ed & E1).
  apply bind_ok in Ed. destruct Ed as (a & w7 & Ee & Ed).
  apply read_ok in Ee. destruct Ee as [-> ->]. cbv beta in Ed.
  apply bind_ok in Ed. destruct Ed as (thr & w8 & Ef & Ed).
  apply lift_ok in Ef. destruct Ef as [Ef ->]. cbv beta in Ed.
  unfold ret in Ed. injection Ed as <- <-.
  cbv beta zeta in E1. simpl in E1.
  unfold bind, ret in E1. simpl in E1. injection E1 as <- <-.
  rewrite Kt in Ef.
  destruct (threshold_ (super (self w))) as [| |t] eqn:Et;
    try discriminate Ef.
  simpl in Ef. injection Ef as <-.
  exists score, t. auto 10.
Qed.

End NewData.

Lemma predict_new_data_witness :
  exists score thr w',
    predict (H := Toy.hooks) (Some (Toy.graph [7; 2])) None true true false
      "linear" false false toy_fitted
    = (Ok (Tuple [OutPred (Tensor.gt_long score thr); OutScore score]), w')
    /\ threshold_ (super (self toy_fitted)) = Bound thr
    /\ Tensor.gt_long score thr = [1; 0]%Z
    /\ label_ (super (self w')) = label_ (super (self toy_fitted)).
Proof.
  destruct (predict (H := Toy.hooks) (Some (Toy.graph [7; 2])) None true true
              false "linear" false false toy_fitted) as [[out|e] w'] eqn:E;
    [|vm_compute in E; discriminate E].
  destruct (predict_new_data (H := Toy.hooks) _ _ _ _ E)
    as (score & thr & Hdf & Hthr & -> & _ & _ & Hl).
  exists score, thr, w'. split; [reflexivity|]. split; [exact Hthr|].
  split; [|exact Hl].
  vm_compute in Hthr. injection Hthr as <-.
  vm_compute in Hdf. injection Hdf as <- _.
  vm_compute. reflexivity.
Defined.

(** * The scores decision_function returns *)

Section Scores.
Context {B : Backend} {H : Hooks}.

Lemma frame_of_self (w : World) : w = frame_of w (owned (self w)).
Proof. destruct w as [d t]. destruct d. reflexivity. Qed.

Lemma framed (w1 w : World) :
  frame_of w1 = frame_of w ->
  w1 = mkWorld (set_owned (owned (self w1)) (self w)) (trace w).
Proof.
  intros Hf. rewrite (frame_of_self w1) at 1. rewrite Hf. reflexivity.
Qed.

(** A batch of [decision_function] that completes: where its scores come
    from, where they go, and what it changes of the detector. *)
Lemma decision_batch_spec l out b w l' out' w' :
  decision_batch (l, out) b w = (Ok (l', out'), w') ->
  exists loss score o,
    fst (forward_model (self w) b) = Ok (loss, score)
    /\ written out (seeds b) score out'
    /\ w' = mkWorld (set_owned o (self w)) (trace w).
Proof.
  intros E. pose proof E as Ef. keeps_in (@frame_of B) Ef.
  apply framed in Ef.
  unfold decision_batch in E.
  apply bind_ok in E. destruct E as ([loss score] & w1 & E1 & E).
  apply call_ok in E1. cbv beta iota in E.
  do 4 (apply bind_ok in E; destruct E as (? & ? & _ & E); cbv beta in E).
  apply bind_ok in E. destruct E as (o & w2 & E2 & E).
  apply lift_ok in E2. destruct E2 as [E2 ->]. cbv beta in E.
  apply of_option_ok in E2. apply index_put_written in E2.
  unfold ret in E. injection E as _ <- _.
  exists loss, score, (owned (self w')). auto.
Qed.

Lemma decision_loop_scored batches : forall l out w l' out' w',
  for_each batches decision_batch (l, out) w = (Ok (l', out'), w') ->
  scored batches w out out'.
Proof.
  induction batches as [|b r IH]; simpl; intros l out w l' out' w' E.
  - unfold ret in E. injection E as _ <- _. constructor.
  - apply bind_ok in E. destruct E as ([l1 out1] & w1 & E1 & E).
    apply decision_batch_spec in E1.
    destruct E1 as (loss & score & o & Hfw & Hw & ->).
    apply IH in E. econstructor; eauto.
Qed.

(** X20. However a call of [decision_function] ends, [threshold_] and
    [label_] are what they were. The vector a completed call returns has
    one entry per node of the graph, starts from zeros, and holds the
    scores [forward_model] returned for the batches of the loader, each
    batch assigned in turn at its seed nodes; between the batches nothing
    of the detector changes but what the subclass owns. *)
Theorem decision_function_scores data label w r w' :
  decision_function data label w = (r, w') ->
  threshold_ (super (self w')) = threshold_ (super (self w))
  /\ label_ (super (self w')) = label_ (super (self w))
  /\ forall score, r = Ok score ->
       exists data' loader o,
         fst (process_graph (self w) data) = Ok data'
         /\ NeighborLoader data' (num_neigh (self w)) (batch_size (self w))
            = Ok loader
         /\ length score = fst (x_shape data')
         /\ scored (loader 0%nat) (mkWorld (set_owned o (self w)) (trace w))
              (Tensor.zeros (fst (x_shape data'))) score.
Proof.
  intros E.
  pose proof (decision_function_keeps_fitted data label _ E) as K.
  unfold fitted_frame in K. injection K as Kt Kl.
  split; [exact Kt|]. split; [exact Kl|].
  intros score ->.
  pose proof E as Elen. apply decision_function_length in Elen.
  destruct Elen as (data0 & Hpg0 & Hlen).
  unfold decision_function in E.
  apply bind_ok in E. destruct E as (data' & w1 & E1 & E). cbv beta in E.
  pose proof E1 as Hpg. apply call_ok in Hpg.
  rewrite Hpg in Hpg0. injection Hpg0 as <-.
  keeps_in (@frame_of B) E1.
  apply bind_ok in E. destruct E as (nn & w2 & E2 & E).
  apply read_ok in E2. destruct E2 as [-> ->]. cbv beta in E.
  apply bind_ok in E. destruct E as (bs & w3 & E3 & E).
  apply read_ok in E3. destruct E3 as [-> ->]. cbv beta in E.
  apply bind_ok in E. destruct E as (loader & w4 & E4 & E).
  apply lift_ok in E4. destruct E4 as [E4 ->]. cbv beta in E.
  pose proof (framed E1) as Hw1.
  assert (Hnn : num_neigh (self w1) = num_neigh (self w))
    by (rewrite Hw1; reflexivity).
  assert (Hbs : batch_size (self w1) = batch_size (self w))
    by (rewrite Hw1; reflexivity).
  rewrite Hnn, Hbs in E4.
  do 5 (apply bind_ok in E; destruct E as (? & ? & E2 & E);
        keeps_in (@frame_of B) E2; rewrite E1 in E2; clear E1;
        rename E2 into E1; cbv beta zeta in E).
  apply bind_ok in E. destruct E as ([l1 out] & w5 & Eloop & E).
  cbv beta iota in E.
  apply decision_loop_scored in Eloop.
  do 3 (apply bind_ok in E; destruct E as (? & ? & _ & E); cbv beta in E).
  unfold ret in E. injection E as <- _.
  apply framed in E1. rewrite E1 in Eloop.
  exists data', loader. eexists.
  split; [exact Hpg|]. split; [exact E4|]. split; [exact Hlen | exact Eloop].
Qed.

End Scores.

Lemma decision_function_scores_witness :
  threshold_ (super (self toy_scored)) = threshold_ (super (self toy_fitted))
  /\ label_ (super (self toy_scored)) = Bound [0; 0; 0; 1; 0]%Z
  /\ exists o,
       scored (H := Toy.hooks) [Toy.full_batch [7; 8]]
         (mkWorld (set_owned o (self toy_fitted)) (trace toy_fitted))
         (Tensor.zeros 2) [7; 8].
Proof.
  destruct (decision_function_scores (H := Toy.hooks) (Toy.graph [7; 8]) None
              toy_fitted toy_decision_run) as (Ht & Hl & Hs).
  split; [exact Ht|]. split; [rewrite Hl; reflexivity|].
  destruct (Hs [7; 8] eq_refl) as (data' & loader & o & Hpg & Hld & _ & Hsc).
  injection Hpg as <-. vm_compute in Hld. injection Hld as <-.
  exists o. exact Hsc.
Defined.
